(** * unweave: session lifecycle, credential resolution and the LambdaLabs adapter

    A shallow embedding of
      - api/types            (SSHKey, Node, NodeType, Session, Error),
      - providers/lambdalabs (the adapter over the generated REST client),
      - db                   (the Querier port and the queries of queries.sql),
      - api/server/sessions.go (registerCredentials, fetchCredentials and the
        SessionService methods Create, Get, List, Watch, Terminate),
      - initializer.go       (EnvInitializer),
      - api/types/http.go and api/session.go (Bind, ErrHTTPError, Render).

    Go functions that touch the store, the provider or the logger are
    functions from a state to a result and a new state.  Every call made
    through a port is recorded in a trace, so that "is never called" is a
    statement about that trace. *)

From Stdlib Require Import List String Ascii ZArith NArith Bool.
Import ListNotations.
Local Open Scope string_scope.
Local Open Scope list_scope.

Set Implicit Arguments.

(** ** Go values *)

(** [uuid.UUID] is a 128-bit value; only its equality is used. *)
Definition UUID := N.

(** [time.Time], as a count of nanoseconds. *)
Definition Time := Z.

(** Go's [error].  [sql.ErrNoRows] is a sentinel compared with [==];
    [fmt.Errorf] builds a message and, with the verb %w, wraps a cause;
    [*types.Error] is the structured error of the API; a nil pointer
    dereference aborts the call. *)
#[warnings="-register-all"]
Inductive error : Type :=
| ErrNoRows : error
| Errorf (format : string) (cause : option error) : error
| Error (Code : Z) (Message Suggestion Provider : string) (Err : option error) : error
| Panic (reason : string) : error.

(** A Go result pair [(T, error)]: exactly one side is meaningful. *)
Inductive Result (A : Type) : Type :=
| Ok (a : A)
| Fail (e : error).
Arguments Ok {A} a.
Arguments Fail {A} e.

(** The cause an error wraps: [errors.Unwrap] for [fmt.Errorf] with %w. *)
Definition Unwrap (e : error) : option error :=
  match e with
  | Errorf _ cause => cause
  | _ => None
  end.

(** ** State passing *)

Definition M (S A : Type) : Type := S -> A * S.

Definition ret {S A} (a : A) : M S A := fun s => (a, s).

Definition bind {S A B} (c : M S A) (k : A -> M S B) : M S B :=
  fun s => let (a, s') := c s in k a s'.

Declare Scope go_scope.
Delimit Scope go_scope with go.
Notation "x <- c ;; k" := (bind c (fun x => k))
  (at level 100, c at next level, right associativity) : go_scope.
Notation "c ;;; k" := (bind c (fun _ => k))
  (at level 100, right associativity) : go_scope.
Local Open Scope go_scope.

(** ** api/types *)

Module types.

Definition SessionStatus := string.
Definition StatusInitializing : SessionStatus := "initializing".
Definition StatusActive : SessionStatus := "active".
Definition StatusTerminated : SessionStatus := "terminated".

Definition RuntimeProvider := string.
Definition LambdaLabsProvider : RuntimeProvider := "LambdaLabs".
Definition UnweaveProvider : RuntimeProvider := "Unweave".

Module SSHKey.
Record t : Type := Build
  { Name : string;
    PrivateKey : option string;
    PublicKey : option string;
    CreatedAt : option Time }.
End SSHKey.

Module NodeSpecs.
Record t : Type := Build
  { VCPUs : Z; Memory : Z; GPUMemory : option Z }.
End NodeSpecs.

Module NodeType.
Record t : Type := Build
  { ID : string;
    Name : option string;
    Price : option Z;
    Regions : list string;
    Description : option string;
    Provider : RuntimeProvider;
    Specs : NodeSpecs.t }.
End NodeType.

Module Node.
Record t : Type := Build
  { ID : string;
    TypeID : string;
    Region : string;
    KeyPair : SSHKey.t;
    Status : SessionStatus;
    Provider : RuntimeProvider }.
End Node.

Module Session.
Record t : Type := Build
  { ID : UUID;
    SSHKey : SSHKey.t;
    Status : SessionStatus;
    CreatedAt : option Time;
    NodeTypeID : string;
    Region : string;
    Provider : RuntimeProvider }.
End Session.

Module SessionCreateParams.
Record t : Type := Build
  { Provider : RuntimeProvider;
    NodeTypeID : string;
    Region : option string;
    SSHKeyName : option string;
    SSHPublicKey : option string }.
End SessionCreateParams.

End types.

Import types.

(** ** Functions the code calls and that are taken as given

    [random.GenerateRandomPhrase] draws from a seed kept in the state;
    [json.Marshal], [json.MarshalIndent], [strconv.Quote] (the verb %q),
    [strings.ToLower] and the two functions of [golang.org/x/crypto/ssh]
    are library functions; [types.DBSessionStatusToAPIStatus] converts
    the status of a row to the status of the API. *)
Class Env : Type :=
  { GenerateRandomPhrase : nat -> string -> N -> string;
    json_Marshal : list NodeType.t -> Result string;
    json_MarshalIndent : list NodeType.t -> string -> string -> Result string;
    strconv_Quote : string -> string;
    strings_ToLower : string -> string;
    ssh_PublicKey : Type;
    ssh_ParseAuthorizedKey : string -> Result ssh_PublicKey;
    ssh_MarshalAuthorizedKey : ssh_PublicKey -> string;
    DBSessionStatusToAPIStatus : string -> SessionStatus }.

(** [strings.HasPrefix s prefix], byte by byte. *)
Fixpoint strings_HasPrefix (s prefix : string) : bool :=
  match prefix, s with
  | EmptyString, _ => true
  | String _ _, EmptyString => false
  | String b prefix', String a s' => Ascii.eqb a b && strings_HasPrefix s' prefix'
  end.

(** [strings.Contains s substr]: [substr] starts at some position of [s]. *)
Fixpoint strings_Contains (s substr : string) : bool :=
  strings_HasPrefix s substr ||
  match s with
  | EmptyString => false
  | String _ s' => strings_Contains s' substr
  end.

(** Pointer comparison through dereference, [*p == *q], where [p] is known
    to be non-nil and [q] comes from the provider listing. *)
Definition deref_eqb (p : string) (q : option string) : option bool :=
  match q with
  | Some v => Some (String.eqb p v)
  | None => None
  end.

(** ** providers/lambdalabs/client: the generated REST client *)

Module client.

Module SshKey.
Record t : Type := Build { Name : string; PublicKey : string }.
End SshKey.

Module AddSSHKeyJSONRequestBody.
Record t : Type := Build { Name : string; PublicKey : option string }.
End AddSSHKeyJSONRequestBody.

Module InstanceTypeSpecs.
Record t : Type := Build { Vcpus : Z; MemoryGib : Z }.
End InstanceTypeSpecs.

Module InstanceType.
Record t : Type := Build
  { Description : string;
    PriceCentsPerHour : Z;
    Specs : InstanceTypeSpecs.t }.
End InstanceType.

Module Region.
Record t : Type := Build { Name : string }.
End Region.

Module InstanceTypeData.
Record t : Type := Build
  { InstanceType : InstanceType.t;
    RegionsWithCapacityAvailable : list Region.t }.
End InstanceTypeData.

Module LaunchInstanceJSONRequestBody.
Record t : Type := Build
  { FileSystemNames : option (list string);
    InstanceTypeName : string;
    Name : option string;
    Quantity : option Z;
    RegionName : string;
    SshKeyNames : list string }.
End LaunchInstanceJSONRequestBody.

Module LaunchData.
Record t : Type := Build { InstanceIds : list string }.
End LaunchData.

Module TerminateInstanceJSONRequestBody.
Record t : Type := Build { InstanceIds : list string }.
End TerminateInstanceJSONRequestBody.

(** A parsed response: the payload for status 200 or the message of the
    error envelope for the status that came back, and the status code. *)
Module Response.
Record t (T : Type) : Type := Build
  { JSON200 : option T;
    JSON400 : option string;
    JSON401 : option string;
    JSON403 : option string;
    JSON404 : option string;
    JSON500 : option string;
    StatusCode : Z }.
Arguments Build {T}.
Arguments JSON200 {T}.
Arguments JSON400 {T}.
Arguments JSON401 {T}.
Arguments JSON403 {T}.
Arguments JSON404 {T}.
Arguments JSON500 {T}.
Arguments StatusCode {T}.
Definition ok {T} (data : T) : t T :=
    Build (Some data) None None None None None 200.
End Response.

(** The requests the adapter issues, in the order it issues them. *)
Inductive Request : Type :=
| ReqListSSHKeys
| ReqAddSSHKey (body : AddSSHKeyJSONRequestBody.t)
| ReqInstanceTypes
| ReqLaunchInstance (body : LaunchInstanceJSONRequestBody.t)
| ReqTerminateInstance (body : TerminateInstanceJSONRequestBody.t).

(** [ClientWithResponses] over an endpoint whose state is [R].  The data
    of [InstanceTypesWithResponse] is a Go map; the list is the order in
    which one [range] over it visits the entries, so its keys are
    distinct. *)
Class ClientWithResponses (R : Type) : Type :=
  { ListSSHKeysWithResponse :
      R -> Result (Response.t (list SshKey.t)) * R;
    AddSSHKeyWithResponse :
      AddSSHKeyJSONRequestBody.t -> R -> Result (Response.t SshKey.t) * R;
    InstanceTypesWithResponse :
      R -> Result (Response.t (list (string * InstanceTypeData.t))) * R;
    LaunchInstanceWithResponse :
      LaunchInstanceJSONRequestBody.t -> R -> Result (Response.t LaunchData.t) * R;
    TerminateInstanceWithResponse :
      TerminateInstanceJSONRequestBody.t -> R -> Result (Response.t unit) * R }.

End client.

(** ** providers/lambdalabs *)

Module lambdalabs.

Definition err400 (msg : string) (err : option error) : error :=
  Error 400 msg "" LambdaLabsProvider err.

Definition err401 (msg : string) (err : option error) : error :=
  Error 401 msg "Make sure your LambdaLabs credentials are up to date"
        LambdaLabsProvider err.

Definition err403 (msg : string) (err : option error) : error :=
  Error 403 msg "Make sure your LambdaLabs credentials are up to date"
        LambdaLabsProvider err.

Definition err404 (msg : string) (err : option error) : error :=
  Error 404 msg "" LambdaLabsProvider err.

Definition err500 (msg : string) (err : option error) : error :=
  let msg := if String.eqb msg "" then "Unknown error" else msg in
  Error 500 msg
        "LambdaLabs might be experiencing issues. Check the service status page at https://status.lambdalabs.com/"
        LambdaLabsProvider err.

Definition err503 (msg : string) (err : option error) : error :=
  Error 503 msg "" LambdaLabsProvider err.

Definition errUnknown (code : Z) (err : option error) : error :=
  Error code "Unknown error" "" LambdaLabsProvider err.

(** [e.Suggestion = suggestion] on an error built by one of the above. *)
Definition withSuggestion (e : error) (suggestion : string) : error :=
  match e with
  | Error code msg _ provider err => Error code msg suggestion provider err
  | _ => e
  end.

(** The adapter: the endpoint behind its client, the requests sent so
    far and the seed of the phrase generator. *)
Module Session.
Record t (R : Type) : Type := Build
  { client : R;
    requests : list client.Request;
    seed : N }.
Arguments Build {R}.
Arguments client {R}.
Arguments requests {R}.
Arguments seed {R}.
End Session.

Section Adapter.
Context {env : Env} {R : Type} {cl : client.ClientWithResponses R}.

Definition send {A} (rq : client.Request) (call : R -> Result A * R)
  : M (Session.t R) (Result A) :=
  fun r =>
    let (res, c') := call (Session.client r) in
    (res, Session.Build c' (Session.requests r ++ [rq]) (Session.seed r)).

Definition randomPhrase (n : nat) (sep : string) : M (Session.t R) string :=
  fun r =>
    (GenerateRandomPhrase n sep (Session.seed r),
     Session.Build (Session.client r) (Session.requests r) (N.succ (Session.seed r))).

Definition GetProvider : RuntimeProvider := LambdaLabsProvider.

Definition toSSHKey (k : client.SshKey.t) : SSHKey.t :=
  SSHKey.Build (client.SshKey.Name k) None (Some (client.SshKey.PublicKey k)) None.

Definition ListSSHKeys : M (Session.t R) (Result (list SSHKey.t)) :=
  r <- send client.ReqListSSHKeys client.ListSSHKeysWithResponse ;;
  match r with
  | Fail err => ret (Fail err)
  | Ok res =>
    match client.Response.JSON200 res with
    | None =>
      match client.Response.JSON401 res with
      | Some m => ret (Fail (err401 m None))
      | None =>
        match client.Response.JSON403 res with
        | Some m => ret (Fail (err403 m None))
        | None => ret (Fail (errUnknown (client.Response.StatusCode res) None))
        end
      end
    | Some data => ret (Ok (map toSSHKey data))
    end
  end.

(** The loop of [AddSSHKey] over the provider's keys.  [None]: the loop
    ran to its end; [Some r]: it returned [r] from inside. *)
Fixpoint AddSSHKey_scan (sshKey : SSHKey.t) (keys : list SSHKey.t)
  : option (Result SSHKey.t) :=
  match keys with
  | [] => None
  | k :: rest =>
    if String.eqb (SSHKey.Name sshKey) (SSHKey.Name k) then
      match SSHKey.PublicKey sshKey with
      | None => Some (Ok k)
      | Some pub =>
        match deref_eqb pub (SSHKey.PublicKey k) with
        | None => Some (Fail (Panic "nil pointer dereference"))
        | Some false =>
          Some (Fail (err400 "SSH key with the same name already exists with a different public key" None))
        | Some true => Some (Ok k)
        end
      end
    else
      match SSHKey.PublicKey sshKey with
      | None => AddSSHKey_scan sshKey rest
      | Some pub =>
        match deref_eqb pub (SSHKey.PublicKey k) with
        | None => Some (Fail (Panic "nil pointer dereference"))
        | Some true => Some (Ok k)
        | Some false => AddSSHKey_scan sshKey rest
        end
      end
  end.

Definition AddSSHKey (sshKey : SSHKey.t) : M (Session.t R) (Result SSHKey.t) :=
  if String.eqb (SSHKey.Name sshKey) "" then
    ret (Fail (Errorf "SSH key name is required" None))
  else
    r <- ListSSHKeys ;;
    match r with
    | Fail err => ret (Fail (Errorf "failed to list ssh keys, err: %w" (Some err)))
    | Ok keys =>
      match AddSSHKey_scan sshKey keys with
      | Some res => ret res
      | None =>
        let req := client.AddSSHKeyJSONRequestBody.Build
                     (SSHKey.Name sshKey) (SSHKey.PublicKey sshKey) in
        r <- send (client.ReqAddSSHKey req) (client.AddSSHKeyWithResponse req) ;;
        match r with
        | Fail err => ret (Fail err)
        | Ok res =>
          match client.Response.JSON200 res with
          | None =>
            let err := Errorf "failed to generate SSH key" None in
            match client.Response.JSON401 res with
            | Some m => ret (Fail (err401 m (Some err)))
            | None =>
              match client.Response.JSON403 res with
              | Some m => ret (Fail (err403 m (Some err)))
              | None =>
                match client.Response.JSON400 res with
                | Some m => ret (Fail (err400 m (Some err)))
                | None =>
                  ret (Fail (errUnknown (client.Response.StatusCode res) (Some err)))
                end
              end
            end
          | Some data => ret (Ok (toSSHKey data))
          end
        end
      end
    end.

Definition toNodeType (entry : string * client.InstanceTypeData.t) : NodeType.t :=
  let (id, data) := entry in
  let it := client.InstanceTypeData.InstanceType data in
  NodeType.Build id
    (Some (client.InstanceType.Description it))
    (Some (client.InstanceType.PriceCentsPerHour it))
    (map client.Region.Name (client.InstanceTypeData.RegionsWithCapacityAvailable data))
    None
    LambdaLabsProvider
    (NodeSpecs.Build
       (client.InstanceTypeSpecs.Vcpus (client.InstanceType.Specs it))
       (client.InstanceTypeSpecs.MemoryGib (client.InstanceType.Specs it))
       None).

Definition ListNodeTypes : M (Session.t R) (Result (list NodeType.t)) :=
  r <- send client.ReqInstanceTypes client.InstanceTypesWithResponse ;;
  match r with
  | Fail err => ret (Fail err)
  | Ok res =>
    match client.Response.JSON200 res with
    | None =>
      match client.Response.JSON401 res with
      | Some m => ret (Fail (err401 m None))
      | None =>
        match client.Response.JSON403 res with
        | Some m => ret (Fail (err403 m None))
        | None => ret (Fail (errUnknown (client.Response.StatusCode res) None))
        end
      end
    | Some data => ret (Ok (map toNodeType data))
    end
  end.

(** The loop of [finRegionForNode]: an entry of the requested type with
    no region is skipped ([continue]), the first one with a region
    answers with its first region. *)
Fixpoint finRegionForNode_scan (nodeTypeID : string) (nodeTypes : list NodeType.t)
  : option string :=
  match nodeTypes with
  | [] => None
  | nt :: rest =>
    if String.eqb (NodeType.ID nt) nodeTypeID then
      match NodeType.Regions nt with
      | [] => finRegionForNode_scan nodeTypeID rest
      | region :: _ => Some region
      end
    else finRegionForNode_scan nodeTypeID rest
  end.

Definition finRegionForNode (nodeTypeID : string) : M (Session.t R) (Result string) :=
  r <- ListNodeTypes ;;
  match r with
  | Fail err =>
    ret (Fail (Errorf "failed to list instance availability, err: %w" (Some err)))
  | Ok nodeTypes =>
    match finRegionForNode_scan nodeTypeID nodeTypes with
    | Some region => ret (Ok region)
    | None =>
      let suggestion :=
        match json_Marshal nodeTypes with
        | Fail _ => ""
        | Ok b => ("" ++ b)%string
        end in
      let e := err503 ("No region with available capacity for node type "
                         ++ strconv_Quote nodeTypeID)%string None in
      ret (Fail (withSuggestion e suggestion))
    end
  end.

(** [InitNode] from the launch request on, the region being known. *)
Definition InitNode_launch (sshKey : SSHKey.t) (nodeTypeID : string) (region : string)
  : M (Session.t R) (Result Node.t) :=
  phrase <- randomPhrase 3 "-" ;;
  let req := client.LaunchInstanceJSONRequestBody.Build
               None nodeTypeID (Some ("uw-" ++ phrase)%string) (Some 1%Z) region
               [SSHKey.Name sshKey] in
  r <- send (client.ReqLaunchInstance req) (client.LaunchInstanceWithResponse req) ;;
  match r with
  | Fail err => ret (Fail err)
  | Ok res =>
    match client.Response.JSON200 res with
    | None =>
      match client.Response.JSON401 res with
      | Some m => ret (Fail (err401 m None))
      | None =>
      match client.Response.JSON403 res with
      | Some m => ret (Fail (err403 m None))
      | None =>
      match client.Response.JSON500 res with
      | Some m => ret (Fail (err500 m None))
      | None =>
      match client.Response.JSON404 res with
      | Some m => ret (Fail (err404 m None))
      | None =>
      match client.Response.JSON400 res with
      | Some m =>
        let msg := strings_ToLower m in
        if strings_Contains msg "available capacity" then
          i <- ListNodeTypes ;;
          let instances := match i with Ok l => l | Fail _ => [] end in
          let suggestion :=
            match json_MarshalIndent instances "" "  " with
            | Fail _ => ""
            | Ok b => ("" ++ b)%string
            end in
          ret (Fail (withSuggestion (err503 m None) suggestion))
        else ret (Fail (err400 m None))
      | None =>
        ret (Fail (errUnknown (client.Response.StatusCode res) None))
      end end end end end
    | Some data =>
      match client.LaunchData.InstanceIds data with
      | [] => ret (Fail (Errorf "failed to launch instance" None))
      | id :: _ =>
        ret (Ok (Node.Build id nodeTypeID region sshKey
                            StatusInitializing LambdaLabsProvider))
      end
    end
  end.

Definition InitNode (sshKey : SSHKey.t) (nodeTypeID : string) (region : option string)
  : M (Session.t R) (Result Node.t) :=
  r <- match region with
       | Some nr => ret (Ok nr)
       | None => finRegionForNode nodeTypeID
       end ;;
  match r with
  | Fail err => ret (Fail err)
  | Ok region => InitNode_launch sshKey nodeTypeID region
  end.

Definition TerminateNode (nodeID : string) : M (Session.t R) (option error) :=
  let req := client.TerminateInstanceJSONRequestBody.Build [nodeID] in
  r <- send (client.ReqTerminateInstance req) (client.TerminateInstanceWithResponse req) ;;
  match r with
  | Fail err => ret (Some err)
  | Ok res =>
    match client.Response.JSON200 res with
    | None =>
      match client.Response.JSON401 res with
      | Some m => ret (Some (err401 m None))
      | None =>
      match client.Response.JSON403 res with
      | Some m => ret (Some (err403 m None))
      | None =>
      match client.Response.JSON400 res with
      | Some m => ret (Some (err400 m None))
      | None =>
      match client.Response.JSON404 res with
      | Some m => ret (Some (err404 m None))
      | None =>
      match client.Response.JSON500 res with
      | Some m => ret (Some (err500 m None))
      | None => ret (Some (errUnknown (client.Response.StatusCode res) None))
      end end end end end
    | Some _ => ret None
    end
  end.

End Adapter.

End lambdalabs.

(** ** runtime: the provider abstraction *)

Module runtime.

(** One outcome of the [select] of the watcher: the context was
    cancelled, the status channel delivered, or the error channel did.
    Which of them is ready next is decided by the runtime's poller and
    the scheduler; the watcher sees a sequence of them. *)
Inductive Received : Type :=
| Done
| Status (status : SessionStatus)
| Err (e : error).

(** The methods of [runtime.Runtime] over a provider whose state is [C]. *)
Record Runtime (C : Type) : Type := Build
  { GetProvider : RuntimeProvider;
    ListSSHKeys : M C (Result (list SSHKey.t));
    AddSSHKey : SSHKey.t -> M C (Result SSHKey.t);
    ListNodeTypes : M C (Result (list NodeType.t));
    InitNode : SSHKey.t -> string -> option string -> M C (Result Node.t);
    TerminateNode : string -> M C (option error);
    Watch : string -> M C (list Received) }.

(** [runtime.Initializer]. *)
Class Initializer (C : Type) : Type :=
  { Initialize : UUID -> RuntimeProvider -> M C (Result (Runtime C)) }.

End runtime.

(** ** db: parameters, rows and the Querier port *)

Module db.

Definition UnweaveSessionStatus := string.
Definition UnweaveSessionStatusInitializing : UnweaveSessionStatus := "initializing".
Definition UnweaveSessionStatusActive : UnweaveSessionStatus := "active".
Definition UnweaveSessionStatusTerminated : UnweaveSessionStatus := "terminated".

(** [sql.NullString]. *)
Module NullString.
Record t : Type := Build { String : string; Valid : bool }.
End NullString.

Module UnweaveSshKey.
Record t : Type := Build
  { ID : UUID;
    Name : string;
    OwnerID : UUID;
    CreatedAt : Time;
    PublicKey : string }.
End UnweaveSshKey.

Module UnweaveSession.
Record t : Type := Build
  { ID : UUID;
    NodeID : string;
    CreatedBy : UUID;
    CreatedAt : Time;
    ReadyAt : option Time;
    ExitedAt : option Time;
    ProjectID : UUID;
    Provider : string;
    Region : string;
    Name : string;
    Status : UnweaveSessionStatus;
    SshKeyID : UUID }.
End UnweaveSession.

Module SSHKeyGetByNameParams.
Record t : Type := Build { Name : string; OwnerID : UUID }.
End SSHKeyGetByNameParams.

Module SSHKeyGetByPublicKeyParams.
Record t : Type := Build { PublicKey : string; OwnerID : UUID }.
End SSHKeyGetByPublicKeyParams.

Module SSHKeyAddParams.
Record t : Type := Build { OwnerID : UUID; Name : string; PublicKey : string }.
End SSHKeyAddParams.

Module SessionCreateParams.
Record t : Type := Build
  { NodeID : string;
    CreatedBy : UUID;
    ProjectID : UUID;
    Provider : string;
    Region : string;
    Name : string;
    SshKeyName : string }.
End SessionCreateParams.

Module MxSessionGetRow.
Record t : Type := Build
  { SshKeyName : string;
    PublicKey : string;
    SshKeyCreatedAt : Time;
    Status : UnweaveSessionStatus;
    CreatedAt : Time;
    NodeID : string;
    Region : string;
    Provider : string }.
End MxSessionGetRow.

Module SessionsGetParams.
Record t : Type := Build { ProjectID : UUID; Limit : Z; Offset : Z }.
End SessionsGetParams.

Module SessionsGetRow.
Record t : Type := Build
  { ID : UUID; SshKeyName : NullString.t; Status : UnweaveSessionStatus }.
End SessionsGetRow.

Module SessionStatusUpdateParams.
Record t : Type := Build { ID : UUID; Status : UnweaveSessionStatus }.
End SessionStatusUpdateParams.

(** The methods of [db.Querier] that sessions.go calls, over a store
    whose state is [DB]. *)
Class Querier (DB : Type) : Type :=
  { MxSessionGet : UUID -> M DB (Result MxSessionGetRow.t);
    SSHKeyAdd : SSHKeyAddParams.t -> M DB (option error);
    SSHKeyGetByName : SSHKeyGetByNameParams.t -> M DB (Result UnweaveSshKey.t);
    SSHKeyGetByPublicKey : SSHKeyGetByPublicKeyParams.t -> M DB (Result UnweaveSshKey.t);
    SessionCreate : SessionCreateParams.t -> M DB (Result UUID);
    SessionGet : UUID -> M DB (Result UnweaveSession.t);
    SessionStatusUpdate : SessionStatusUpdateParams.t -> M DB (option error);
    SessionsGet : SessionsGetParams.t -> M DB (Result (list SessionsGetRow.t)) }.

End db.

(** ** api/server/sessions.go *)

Module server.

(** What the service does through its ports and its logger, in order.
    A query of kind [:exec] is recorded with the error it returned. *)
Inductive Event : Type :=
| QMxSessionGet (id : UUID)
| QSSHKeyAdd (arg : db.SSHKeyAddParams.t) (err : option error)
| QSSHKeyGetByName (arg : db.SSHKeyGetByNameParams.t)
| QSSHKeyGetByPublicKey (arg : db.SSHKeyGetByPublicKeyParams.t)
| QSessionCreate (arg : db.SessionCreateParams.t)
| QSessionGet (id : UUID)
| QSessionStatusUpdate (arg : db.SessionStatusUpdateParams.t) (err : option error)
| QSessionsGet (arg : db.SessionsGetParams.t)
| RInitialize (accountID : UUID) (provider : RuntimeProvider)
| RListSSHKeys
| RAddSSHKey (key : SSHKey.t)
| RInitNode (key : SSHKey.t) (nodeTypeID : string) (region : option string)
| RTerminateNode (nodeID : string)
| RWatch (nodeID : string)
| LogInfo (msg : string)
| LogError (msg : string) (err : error).

(** The store behind [db.Q], the provider behind the runtime, the trace
    and the seed of the phrase generator. *)
Module World.
Record t (DB C : Type) : Type := Build
  { store : DB;
    cloud : C;
    trace : list Event;
    seed : N }.
Arguments Build {DB C}.
Arguments store {DB C}.
Arguments cloud {DB C}.
Arguments trace {DB C}.
Arguments seed {DB C}.
End World.

(** [SessionService]: of the [Service] it points to, the account [cid];
    the initializer [rti] is the instance of [runtime.Initializer] in
    scope. *)
Module SessionService.
Record t : Type := Build { cid : UUID }.
End SessionService.

Section Service.
Context {env : Env} {DB C : Type} {Q : db.Querier DB} {rti : runtime.Initializer C}.

Local Abbreviation W := (World.t DB C).

Definition emit (ev : Event) : M W unit :=
  fun w => (tt, World.Build (World.store w) (World.cloud w)
                            (World.trace w ++ [ev]) (World.seed w)).

(** A call on [db.Q]. *)
Definition query {A} (q : M DB A) (ev : A -> Event) : M W A :=
  fun w =>
    let (a, d') := q (World.store w) in
    (a, World.Build d' (World.cloud w) (World.trace w ++ [ev a]) (World.seed w)).

(** A call on the runtime or on its initializer. *)
Definition provider {A} (c : M C A) (ev : Event) : M W A :=
  fun w =>
    let (a, c') := c (World.cloud w) in
    (a, World.Build (World.store w) c' (World.trace w ++ [ev]) (World.seed w)).

Definition randomPhrase (n : nat) (sep : string) : M W string :=
  fun w =>
    (GenerateRandomPhrase n sep (World.seed w),
     World.Build (World.store w) (World.cloud w) (World.trace w)
                 (N.succ (World.seed w))).

Definition registerCredentials (rt : runtime.Runtime C) (key : SSHKey.t)
  : M W (option error) :=
  r <- provider (runtime.ListSSHKeys rt) RListSSHKeys ;;
  match r with
  | Fail err =>
    ret (Some (Errorf "failed to list ssh keys from provider: %w" (Some err)))
  | Ok providerKeys =>
    if existsb (fun k => String.eqb (SSHKey.Name k) (SSHKey.Name key)) providerKeys
    then ret None
    else
      r <- provider (runtime.AddSSHKey rt key) (RAddSSHKey key) ;;
      match r with
      | Fail err =>
        ret (Some (Errorf "failed to add ssh key to provider: %w" (Some err)))
      | Ok _ => ret None
      end
  end.

(** Modelled from the spec: [saveSSHKey] is called by [fetchCredentials]
    and is not in sessions.go.  "Persist a new record": one [SSHKeyAdd]
    of the owner, the name and the public key it is given. *)
Definition saveSSHKey (accountID : UUID) (name publicKey : string)
  : M W (option error) :=
  let arg := db.SSHKeyAddParams.Build accountID name publicKey in
  e <- query (db.SSHKeyAdd arg) (QSSHKeyAdd arg) ;;
  match e with
  | Some err => ret (Some (Errorf "failed to add ssh key to db: %w" (Some err)))
  | None => ret None
  end.

Definition fromRow (k : db.UnweaveSshKey.t) : SSHKey.t :=
  SSHKey.Build (db.UnweaveSshKey.Name k) None
               (Some (db.UnweaveSshKey.PublicKey k))
               (Some (db.UnweaveSshKey.CreatedAt k)).

Definition getFailed (err : error) : error :=
  Error 500 "Failed to get SSH key" "" ""
        (Some (Errorf "failed to get ssh key from db: %w" (Some err))).

(** The block [if sshKeyName != nil]: [Some r] when it returns [r],
    [None] when control falls out of it. *)
Definition fetchCredentials_byName (accountID : UUID) (sshKeyName : option string)
  : M W (option (Result SSHKey.t)) :=
  match sshKeyName with
  | None => ret None
  | Some name =>
    let params := db.SSHKeyGetByNameParams.Build name accountID in
    r <- query (db.SSHKeyGetByName params) (fun _ => QSSHKeyGetByName params) ;;
    match r with
    | Ok k => ret (Some (Ok (fromRow k)))
    | Fail ErrNoRows => ret None
    | Fail err => ret (Some (Fail (getFailed err)))
    end
  end.

(** The block [if sshPublicKey != nil]. *)
Definition fetchCredentials_byPublicKey (accountID : UUID) (sshPublicKey : option string)
  : M W (option (Result SSHKey.t)) :=
  match sshPublicKey with
  | None => ret None
  | Some pub =>
    match ssh_ParseAuthorizedKey pub with
    | Fail _ => ret (Some (Fail (Error 400 "Invalid SSH public key" "" "" None)))
    | Ok pk =>
      let pkStr := ssh_MarshalAuthorizedKey pk in
      let params := db.SSHKeyGetByPublicKeyParams.Build pkStr accountID in
      r <- query (db.SSHKeyGetByPublicKey params) (fun _ => QSSHKeyGetByPublicKey params) ;;
      match r with
      | Ok k => ret (Some (Ok (fromRow k)))
      | Fail ErrNoRows => ret None
      | Fail err => ret (Some (Fail (getFailed err)))
      end
    end
  end.

Definition fetchCredentials (accountID : UUID) (sshKeyName sshPublicKey : option string)
  : M W (Result SSHKey.t) :=
  match sshKeyName, sshPublicKey with
  | None, None =>
    ret (Fail (Error 400 "Either Key name or Public Key must be provided" "" "" None))
  | _, _ =>
    byName <- fetchCredentials_byName accountID sshKeyName ;;
    match byName with
    | Some r => ret r
    | None =>
      byPublicKey <- fetchCredentials_byPublicKey accountID sshPublicKey ;;
      match byPublicKey with
      | Some r => ret r
      | None =>
        match sshPublicKey with
        | None => ret (Fail (Error 400 "SSH key not found" "" "" None))
        | Some pub =>
          name <- match sshKeyName with
                  | Some (String a n) => ret (String a n)
                  | _ =>
                    phrase <- randomPhrase 4 "-" ;;
                    ret ("uw:" ++ phrase)%string
                  end ;;
          e <- saveSSHKey accountID name pub ;;
          match e with
          | Some _ => ret (Fail (Error 500 "Failed to save SSH key" "" "" None))
          | None => ret (Ok (SSHKey.Build name None (Some pub) None))
          end
        end
      end
    end
  end.

Definition Create (s : SessionService.t) (projectID : UUID)
           (params : types.SessionCreateParams.t) : M W (Result Session.t) :=
  let cid := SessionService.cid s in
  let provider_ := types.SessionCreateParams.Provider params in
  r <- provider (runtime.Initialize cid provider_) (RInitialize cid provider_) ;;
  match r with
  | Fail err => ret (Fail (Errorf "failed to create runtime: %w" (Some err)))
  | Ok rt =>
    r <- fetchCredentials cid (types.SessionCreateParams.SSHKeyName params)
                          (types.SessionCreateParams.SSHPublicKey params) ;;
    match r with
    | Fail err => ret (Fail (Errorf "failed to setup credentials: %w" (Some err)))
    | Ok sshKey =>
      e <- registerCredentials rt sshKey ;;
      match e with
      | Some err => ret (Fail (Errorf "failed to register credentials: %w" (Some err)))
      | None =>
        let nodeTypeID := types.SessionCreateParams.NodeTypeID params in
        let region := types.SessionCreateParams.Region params in
        r <- provider (runtime.InitNode rt sshKey nodeTypeID region)
                      (RInitNode sshKey nodeTypeID region) ;;
        match r with
        | Fail err => ret (Fail (Errorf "failed to init node: %w" (Some err)))
        | Ok node =>
          name <- randomPhrase 4 "-" ;;
          let dbp := db.SessionCreateParams.Build
                       (Node.ID node) cid projectID provider_ (Node.Region node)
                       name (SSHKey.Name sshKey) in
          r <- query (db.SessionCreate dbp) (fun _ => QSessionCreate dbp) ;;
          match r with
          | Fail err =>
            ret (Fail (Errorf "failed to create session in db: %w" (Some err)))
          | Ok sessionID =>
            ret (Ok (Session.Build sessionID (Node.KeyPair node) StatusInitializing
                                   None (Node.TypeID node) (Node.Region node)
                                   (Node.Provider node)))
          end
        end
      end
    end
  end.

Definition Get (s : SessionService.t) (sessionID : UUID) : M W (Result Session.t) :=
  r <- query (db.MxSessionGet sessionID) (fun _ => QMxSessionGet sessionID) ;;
  match r with
  | Fail ErrNoRows => ret (Fail (Error 404 "Session not found" "" "" None))
  | Fail err => ret (Fail (Errorf "failed to get session from db: %w" (Some err)))
  | Ok dbs =>
    ret (Ok (Session.Build
               sessionID
               (SSHKey.Build (db.MxSessionGetRow.SshKeyName dbs) None
                             (Some (db.MxSessionGetRow.PublicKey dbs))
                             (Some (db.MxSessionGetRow.SshKeyCreatedAt dbs)))
               (db.MxSessionGetRow.Status dbs)
               (Some (db.MxSessionGetRow.CreatedAt dbs))
               (db.MxSessionGetRow.NodeID dbs)
               (db.MxSessionGetRow.Region dbs)
               (db.MxSessionGetRow.Provider dbs)))
  end.

(** The session [List] builds from one row. *)
Definition List_session (s : db.SessionsGetRow.t) : Session.t :=
  Session.Build
    (db.SessionsGetRow.ID s)
    (SSHKey.Build (db.NullString.String (db.SessionsGetRow.SshKeyName s))
                  None None None)
    (DBSessionStatusToAPIStatus (db.SessionsGetRow.Status s))
    None "" "" "".

(** The loop of [List]: [res] grows by one session per row kept. *)
Fixpoint List_loop (listTerminated : bool) (sessions : list db.SessionsGetRow.t)
         (res : list Session.t) : list Session.t :=
  match sessions with
  | [] => res
  | s :: rest =>
    if negb listTerminated
       && String.eqb (db.SessionsGetRow.Status s) db.UnweaveSessionStatusTerminated
    then List_loop listTerminated rest res
    else List_loop listTerminated rest (res ++ [List_session s])
  end.

Definition List (s : SessionService.t) (projectID : UUID) (listTerminated : bool)
  : M W (Result (list Session.t)) :=
  let params := db.SessionsGetParams.Build projectID 100 0 in
  r <- query (db.SessionsGet params) (fun _ => QSessionsGet params) ;;
  match r with
  | Fail err => ret (Fail (Errorf "failed to get sessions from db: %w" (Some err)))
  | Ok sessions => ret (Ok (List_loop listTerminated sessions []))
  end.

(** The goroutine started by [Watch], run on the outcomes of its
    [select].  When the outcomes end, no case is ever ready again and the
    goroutine stays blocked. *)
Fixpoint Watch_loop (sessionID : UUID) (feed : list runtime.Received) : M W unit :=
  match feed with
  | [] => ret tt
  | runtime.Done :: _ => ret tt
  | runtime.Status status :: rest =>
    emit (LogInfo "session status changed") ;;;
    let params := db.SessionStatusUpdateParams.Build sessionID status in
    e <- query (db.SessionStatusUpdate params) (QSessionStatusUpdate params) ;;
    match e with
    | Some err => emit (LogError "failed to update session status" err)
    | None =>
      if String.eqb status StatusTerminated then ret tt
      else Watch_loop sessionID rest
    end
  | runtime.Err e :: _ => emit (LogError "failed to watch session" e)
  end.

(** [Watch] returns as soon as the goroutine is started; the state it
    returns here is the one the goroutine leaves behind. *)
Definition Watch (s : SessionService.t) (sessionID : UUID) : M W (option error) :=
  r <- query (db.SessionGet sessionID) (fun _ => QSessionGet sessionID) ;;
  match r with
  | Fail ErrNoRows => ret (Some (Error 404 "Session not found" "" "" None))
  | Fail err => ret (Some (Errorf "failed to get session from db: %w" (Some err)))
  | Ok session =>
    let cid := SessionService.cid s in
    let provider_ := db.UnweaveSession.Provider session in
    r <- provider (runtime.Initialize cid provider_) (RInitialize cid provider_) ;;
    match r with
    | Fail err => ret (Some (Errorf "failed to initialize runtime: %w" (Some err)))
    | Ok rt =>
      let nodeID := db.UnweaveSession.NodeID session in
      feed <- provider (runtime.Watch rt nodeID) (RWatch nodeID) ;;
      emit (LogInfo "Starting to watch session %s") ;;;
      Watch_loop sessionID feed ;;;
      ret None
    end
  end.

Definition Terminate (s : SessionService.t) (sessionID : UUID) : M W (option error) :=
  r <- query (db.SessionGet sessionID) (fun _ => QSessionGet sessionID) ;;
  match r with
  | Fail ErrNoRows =>
    ret (Some (Error 404 "Session not found" "Make sure the session id is valid" "" None))
  | Fail err => ret (Some (Errorf "failed to fetch session from db %q: %w" (Some err)))
  | Ok sess =>
    let cid := SessionService.cid s in
    let provider_ := db.UnweaveSession.Provider sess in
    r <- provider (runtime.Initialize cid provider_) (RInitialize cid provider_) ;;
    match r with
    | Fail err => ret (Some (Errorf "failed to create runtime %q: %w" (Some err)))
    | Ok rt =>
      let nodeID := db.UnweaveSession.NodeID sess in
      e <- provider (runtime.TerminateNode rt nodeID) (RTerminateNode nodeID) ;;
      match e with
      | Some err => ret (Some (Errorf "failed to terminate node: %w" (Some err)))
      | None =>
        let params := db.SessionStatusUpdateParams.Build
                        sessionID db.UnweaveSessionStatusTerminated in
        e <- query (db.SessionStatusUpdate params) (QSessionStatusUpdate params) ;;
        match e with
        | Some err =>
          emit (LogError "Failed to set session %q as terminated" err) ;;;
          ret None
        | None => ret None
        end
      end
    end
  end.

End Service.

End server.

(** ** initializer.go: the initializer configured from the environment *)

Module main.

Module providerConfig.
Record t : Type := Build { LambdaLabsAPIKey : string }.
End providerConfig.

Section EnvInitializer.
Context {env : Env} {R : Type} {cl : client.ClientWithResponses R}.

(** [runtime.Runtime{Session: sess}] for the LambdaLabs adapter.  The
    status feed of [Watch] is produced by the runtime package and is
    given here as [watch]. *)
Definition lambdalabsRuntime
           (watch : string -> M (lambdalabs.Session.t R) (list runtime.Received))
  : runtime.Runtime (lambdalabs.Session.t R) :=
  runtime.Build lambdalabs.GetProvider lambdalabs.ListSSHKeys lambdalabs.AddSSHKey
                lambdalabs.ListNodeTypes lambdalabs.InitNode lambdalabs.TerminateNode
                watch.

Definition EnvInitializer (cfg : providerConfig.t)
           (watch : string -> M (lambdalabs.Session.t R) (list runtime.Received))
  : runtime.Initializer (lambdalabs.Session.t R) :=
  {| runtime.Initialize := fun accountID provider =>
       if String.eqb provider LambdaLabsProvider then
         if String.eqb (providerConfig.LambdaLabsAPIKey cfg) "" then
           ret (Fail (Errorf "missing LambdaLabs API key in runtime config file" None))
         else ret (Ok (lambdalabsRuntime watch))
       else
         ret (Fail (Errorf "%q provider not supported in the env initializer" None)) |}.

End EnvInitializer.

End main.

(** ** db/queries/queries.sql over in-memory tables *)

Module sqlstore.

Inductive Statement : Type :=
| StMxSessionGet | StSSHKeyAdd | StSSHKeyGetByName | StSSHKeyGetByPublicKey
| StSessionCreate | StSessionGet | StSessionStatusUpdate | StSessionsGet.

(** The tables [unweave.sessions] and [unweave.ssh_keys] in insertion
    order, the next generated id, the clock, and the statements that the
    connection currently refuses, each with the driver error it gives. *)
Record t : Type := Build
  { sessions : list db.UnweaveSession.t;
  ssh_keys : list db.UnweaveSshKey.t;
  next_id : UUID;
  now : Time;
  broken : Statement -> option error }.

Definition healthy : Statement -> option error := fun _ => None.

Definition one {A} (rows : list A) : Result A :=
  match rows with
  | [] => Fail ErrNoRows
  | row :: _ => Ok row
  end.

Definition run {A} (st : Statement) (refused : error -> A) (body : M t A) : M t A :=
  fun d =>
    match broken d st with
    | Some err => (refused err, d)
    | None => body d
    end.

(** [select * from unweave.ssh_keys where name = $1]: the statement has
    one placeholder; [OwnerID] of the parameters is not referred to. *)
Definition SSHKeyGetByName (arg : db.SSHKeyGetByNameParams.t)
  : M t (Result db.UnweaveSshKey.t) :=
  run StSSHKeyGetByName Fail (fun d =>
    (one (filter (fun k => String.eqb (db.UnweaveSshKey.Name k)
                                      (db.SSHKeyGetByNameParams.Name arg))
                 (ssh_keys d)), d)).

(** [select * from unweave.ssh_keys where public_key = $1]. *)
Definition SSHKeyGetByPublicKey (arg : db.SSHKeyGetByPublicKeyParams.t)
  : M t (Result db.UnweaveSshKey.t) :=
  run StSSHKeyGetByPublicKey Fail (fun d =>
    (one (filter (fun k => String.eqb (db.UnweaveSshKey.PublicKey k)
                                      (db.SSHKeyGetByPublicKeyParams.PublicKey arg))
                 (ssh_keys d)), d)).

(** [insert into unweave.ssh_keys (owner_id, name, public_key) values
    ($1, $2, $3)]; id and creation time take their defaults. *)
Definition SSHKeyAdd (arg : db.SSHKeyAddParams.t) : M t (option error) :=
  run StSSHKeyAdd Some (fun d =>
    let row := db.UnweaveSshKey.Build
                 (next_id d) (db.SSHKeyAddParams.Name arg)
                 (db.SSHKeyAddParams.OwnerID arg) (now d)
                 (db.SSHKeyAddParams.PublicKey arg) in
    (None, Build (sessions d) (ssh_keys d ++ [row]) (N.succ (next_id d))
                 (Z.succ (now d)) (broken d))).

(** Modelled from the spec: the statement of queries.sql inserts node_id,
    created_by, project_id and runtime; the call site passes seven
    parameters, and the statement that takes them is missing.  "Persist a
    new Session row with Status = Initializing", whose rows hold "id,
    node id, created-by, created-at, nullable ready-at/exited-at, project
    id, provider/region/node-type strings (or via join), status": the row
    gets the parameters, a fresh id, the current time and status
    initializing; its key is the creating account's key of the given
    name, and the insert is refused when there is none. *)
Definition SessionCreate (arg : db.SessionCreateParams.t) : M t (Result UUID) :=
  run StSessionCreate Fail (fun d =>
    match filter (fun k => String.eqb (db.UnweaveSshKey.Name k)
                                      (db.SessionCreateParams.SshKeyName arg)
                           && N.eqb (db.UnweaveSshKey.OwnerID k)
                                    (db.SessionCreateParams.CreatedBy arg))
                 (ssh_keys d) with
    | [] => (Fail (Errorf "ssh_key_id violates not-null constraint" None), d)
    | k :: _ =>
      let row := db.UnweaveSession.Build
                   (next_id d) (db.SessionCreateParams.NodeID arg)
                   (db.SessionCreateParams.CreatedBy arg) (now d) None None
                   (db.SessionCreateParams.ProjectID arg)
                   (db.SessionCreateParams.Provider arg)
                   (db.SessionCreateParams.Region arg)
                   (db.SessionCreateParams.Name arg)
                   db.UnweaveSessionStatusInitializing
                   (db.UnweaveSshKey.ID k) in
      (Ok (next_id d),
       Build (sessions d ++ [row]) (ssh_keys d) (N.succ (next_id d))
             (Z.succ (now d)) (broken d))
    end).

(** [select * from unweave.sessions where id = $1]. *)
Definition SessionGet (id : UUID) : M t (Result db.UnweaveSession.t) :=
  run StSessionGet Fail (fun d =>
    (one (filter (fun s => N.eqb (db.UnweaveSession.ID s) id) (sessions d)), d)).

(** Modelled from the spec: the statement is missing from queries.sql.
    "Read a session row", with the key it references: the session of the
    given id joined with its key. *)
Definition MxSessionGet (id : UUID) : M t (Result db.MxSessionGetRow.t) :=
  run StMxSessionGet Fail (fun d =>
    (one (flat_map
            (fun s =>
               map (fun k =>
                      db.MxSessionGetRow.Build
                        (db.UnweaveSshKey.Name k) (db.UnweaveSshKey.PublicKey k)
                        (db.UnweaveSshKey.CreatedAt k)
                        (db.UnweaveSession.Status s) (db.UnweaveSession.CreatedAt s)
                        (db.UnweaveSession.NodeID s) (db.UnweaveSession.Region s)
                        (db.UnweaveSession.Provider s))
                   (filter (fun k => N.eqb (db.UnweaveSshKey.ID k)
                                           (db.UnweaveSession.SshKeyID s))
                           (ssh_keys d)))
            (filter (fun s => N.eqb (db.UnweaveSession.ID s) id) (sessions d))), d)).

(** Modelled from the spec: queries.sql has [SessionSetTerminated] only;
    "update its status": the status of the session of the given id
    becomes the given one. *)
Definition SessionStatusUpdate (arg : db.SessionStatusUpdateParams.t)
  : M t (option error) :=
  run StSessionStatusUpdate Some (fun d =>
    let set s :=
      if N.eqb (db.UnweaveSession.ID s) (db.SessionStatusUpdateParams.ID arg) then
        db.UnweaveSession.Build
          (db.UnweaveSession.ID s) (db.UnweaveSession.NodeID s)
          (db.UnweaveSession.CreatedBy s) (db.UnweaveSession.CreatedAt s)
          (db.UnweaveSession.ReadyAt s) (db.UnweaveSession.ExitedAt s)
          (db.UnweaveSession.ProjectID s) (db.UnweaveSession.Provider s)
          (db.UnweaveSession.Region s) (db.UnweaveSession.Name s)
          (db.SessionStatusUpdateParams.Status arg) (db.UnweaveSession.SshKeyID s)
      else s in
    (None, Build (map set (sessions d)) (ssh_keys d) (next_id d) (now d) (broken d))).

(** [order by unweave.sessions.created_at desc]. *)
Fixpoint insertByCreatedAt (s : db.UnweaveSession.t) (sorted : list db.UnweaveSession.t)
  : list db.UnweaveSession.t :=
  match sorted with
  | [] => [s]
  | s' :: rest =>
    if Z.leb (db.UnweaveSession.CreatedAt s') (db.UnweaveSession.CreatedAt s)
    then s :: sorted
    else s' :: insertByCreatedAt s rest
  end.

Definition orderByCreatedAtDesc (rows : list db.UnweaveSession.t)
  : list db.UnweaveSession.t :=
  fold_right insertByCreatedAt [] rows.

(** [select sessions.id, ssh_keys.name as ssh_key_name, sessions.status
    from unweave.sessions left join unweave.ssh_keys on ssh_keys.id =
    sessions.ssh_key_id where project_id = $1 order by
    unweave.sessions.created_at desc limit $2 offset $3]. *)
Definition SessionsGet (arg : db.SessionsGetParams.t)
  : M t (Result (list db.SessionsGetRow.t)) :=
  run StSessionsGet Fail (fun d =>
    let ofProject :=
      filter (fun s => N.eqb (db.UnweaveSession.ProjectID s)
                             (db.SessionsGetParams.ProjectID arg))
             (sessions d) in
    let join s :=
      match filter (fun k => N.eqb (db.UnweaveSshKey.ID k) (db.UnweaveSession.SshKeyID s))
                   (ssh_keys d) with
      | [] => [db.SessionsGetRow.Build (db.UnweaveSession.ID s)
                                       (db.NullString.Build "" false)
                                       (db.UnweaveSession.Status s)]
      | ks => map (fun k => db.SessionsGetRow.Build
                              (db.UnweaveSession.ID s)
                              (db.NullString.Build (db.UnweaveSshKey.Name k) true)
                              (db.UnweaveSession.Status s))
                  ks
      end in
    (Ok (firstn (Z.to_nat (db.SessionsGetParams.Limit arg))
                (skipn (Z.to_nat (db.SessionsGetParams.Offset arg))
                       (flat_map join (orderByCreatedAtDesc ofProject)))), d)).

Definition querier : db.Querier t :=
  {| db.MxSessionGet := MxSessionGet;
     db.SSHKeyAdd := SSHKeyAdd;
     db.SSHKeyGetByName := SSHKeyGetByName;
     db.SSHKeyGetByPublicKey := SSHKeyGetByPublicKey;
     db.SessionCreate := SessionCreate;
     db.SessionGet := SessionGet;
     db.SessionStatusUpdate := SessionStatusUpdate;
     db.SessionsGet := SessionsGet |}.

End sqlstore.

(** ** Fixtures: an endpoint and an environment to run the code on *)

Module fixture.

(** A LambdaLabs endpoint in memory: the registered keys, the catalog,
    the running instances and the number of launches so far. *)
Module endpoint.

Record t : Type := Build
  { ssh_keys : list client.SshKey.t;
  instance_types : list (string * client.InstanceTypeData.t);
  instances : list string;
  launched : nat }.

Definition refuse {T} (code : Z) (msg : string) : client.Response.t T :=
  client.Response.Build
    None
    (if Z.eqb code 400 then Some msg else None)
    (if Z.eqb code 401 then Some msg else None)
    (if Z.eqb code 403 then Some msg else None)
    (if Z.eqb code 404 then Some msg else None)
    (if Z.eqb code 500 then Some msg else None)
    code.

Definition ListSSHKeysWithResponse : M t (Result (client.Response.t (list client.SshKey.t))) :=
  fun e => (Ok (client.Response.ok (ssh_keys e)), e).

(** A key of a name already registered is refused; a key without public
    key gets one generated by the endpoint. *)
Definition AddSSHKeyWithResponse (body : client.AddSSHKeyJSONRequestBody.t)
  : M t (Result (client.Response.t client.SshKey.t)) :=
  fun e =>
    let name := client.AddSSHKeyJSONRequestBody.Name body in
    if existsb (fun k => String.eqb (client.SshKey.Name k) name) (ssh_keys e) then
      (Ok (refuse 400 "SSH key name already in use"), e)
    else
      let pub := match client.AddSSHKeyJSONRequestBody.PublicKey body with
                 | Some p => p
                 | None => ("ssh-ed25519 generated-for-" ++ name)%string
                 end in
      let k := client.SshKey.Build name pub in
      (Ok (client.Response.ok k),
       Build (ssh_keys e ++ [k]) (instance_types e) (instances e) (launched e)).

Definition InstanceTypesWithResponse
  : M t (Result (client.Response.t (list (string * client.InstanceTypeData.t)))) :=
  fun e => (Ok (client.Response.ok (instance_types e)), e).

Definition hasCapacity (e : t) (typeName regionName : string) : bool :=
  existsb (fun entry =>
             String.eqb (fst entry) typeName
             && existsb (fun r => String.eqb (client.Region.Name r) regionName)
                        (client.InstanceTypeData.RegionsWithCapacityAvailable (snd entry)))
          (instance_types e).

Definition instanceId (n : nat) : string :=
  ("i-" ++ String (ascii_of_nat (48 + Nat.modulo n 10)) "")%string.

Definition LaunchInstanceWithResponse (body : client.LaunchInstanceJSONRequestBody.t)
  : M t (Result (client.Response.t client.LaunchData.t)) :=
  fun e =>
    if hasCapacity e (client.LaunchInstanceJSONRequestBody.InstanceTypeName body)
                   (client.LaunchInstanceJSONRequestBody.RegionName body) then
      let id := instanceId (launched e) in
      (Ok (client.Response.ok (client.LaunchData.Build [id])),
       Build (ssh_keys e) (instance_types e) (instances e ++ [id]) (S (launched e)))
    else
      (Ok (refuse 400 "Not enough available capacity in the requested region"), e).

Definition TerminateInstanceWithResponse (body : client.TerminateInstanceJSONRequestBody.t)
  : M t (Result (client.Response.t unit)) :=
  fun e =>
    let ids := client.TerminateInstanceJSONRequestBody.InstanceIds body in
    if forallb (fun id => existsb (String.eqb id) (instances e)) ids then
      (Ok (client.Response.ok tt),
       Build (ssh_keys e) (instance_types e)
             (filter (fun id => negb (existsb (String.eqb id) ids)) (instances e))
             (launched e))
    else (Ok (refuse 404 "Instance not found"), e).

Definition clientWithResponses : client.ClientWithResponses t :=
  {| client.ListSSHKeysWithResponse := ListSSHKeysWithResponse;
     client.AddSSHKeyWithResponse := AddSSHKeyWithResponse;
     client.InstanceTypesWithResponse := InstanceTypesWithResponse;
     client.LaunchInstanceWithResponse := LaunchInstanceWithResponse;
     client.TerminateInstanceWithResponse := TerminateInstanceWithResponse |}.

End endpoint.

(** An authorized key is "type base64 comment"; its canonical form keeps
    the first two fields and ends with a newline. *)
Fixpoint untilSpace (s : string) : string * string :=
  match s with
  | EmptyString => ("", "")
  | String c rest =>
    if Ascii.eqb c " "%char then ("", rest)
    else let (field, rest') := untilSpace rest in (String c field, rest')
  end.

Definition parseAuthorizedKey (s : string) : Result (string * string) :=
  let (kind, rest) := untilSpace s in
  let (blob, _) := untilSpace rest in
  if strings_HasPrefix kind "ssh-" && negb (String.eqb blob "")
  then Ok (kind, blob)
  else Fail (Errorf "ssh: no key found" None).

Definition newline : string := String (ascii_of_nat 10) "".

Definition marshalAuthorizedKey (pk : string * string) : string :=
  (fst pk ++ " " ++ snd pk ++ newline)%string.

Definition lowerAscii (c : ascii) : ascii :=
  let n := nat_of_ascii c in
  if Nat.leb 65 n && Nat.leb n 90 then ascii_of_nat (n + 32) else c.

Fixpoint toLower (s : string) : string :=
  match s with
  | EmptyString => ""
  | String c rest => String (lowerAscii c) (toLower rest)
  end.

Definition phrase (n : nat) (sep : string) (seed : N) : string :=
  ("phrase" ++ sep ++ String (ascii_of_nat (48 + N.to_nat (N.modulo seed 10))) "")%string.

(** The catalog as the list of its node-type ids. *)
Definition catalogLine (nodeTypes : list NodeType.t) : string :=
  String.concat "," (map NodeType.ID nodeTypes).

Definition env : Env :=
  {| GenerateRandomPhrase := phrase;
     json_Marshal := fun nodeTypes => Ok (catalogLine nodeTypes);
     json_MarshalIndent := fun nodeTypes _ _ => Ok (catalogLine nodeTypes);
     strconv_Quote := fun s => ("'" ++ s ++ "'")%string;
     strings_ToLower := toLower;
     ssh_PublicKey := (string * string)%type;
     ssh_ParseAuthorizedKey := parseAuthorizedKey;
     ssh_MarshalAuthorizedKey := marshalAuthorizedKey;
     DBSessionStatusToAPIStatus := fun s => s |}.

Definition noWatch : string -> M (lambdalabs.Session.t endpoint.t) (list runtime.Received) :=
  fun _ => ret [].

Definition initializer : runtime.Initializer (lambdalabs.Session.t endpoint.t) :=
  @main.EnvInitializer env endpoint.t endpoint.clientWithResponses
                       (main.providerConfig.Build "secret-api-key") noWatch.

(** Accounts, a project and keys. *)
Definition alice : UUID := 1%N.
Definition project : UUID := 10%N.

Definition alicePublicKey : string := "ssh-ed25519 AAAAC3NzaAlice alice@laptop".
Definition bobPublicKey : string := "ssh-ed25519 AAAAC3NzaBob bob@desk".

Definition key (name publicKey : string) : SSHKey.t :=
  SSHKey.Build name None (Some publicKey) None.

(** A catalog in which node type X has no region with capacity and node
    type Y has one, us-east. *)
Definition instanceType (description : string) : client.InstanceType.t :=
  client.InstanceType.Build description 110 (client.InstanceTypeSpecs.Build 30 200).

Definition catalog : list (string * client.InstanceTypeData.t) :=
  [("X", client.InstanceTypeData.Build (instanceType "1x X") []);
   ("Y", client.InstanceTypeData.Build (instanceType "1x Y")
                                       [client.Region.Build "us-east"])].

Definition cloud (keys : list client.SshKey.t) : lambdalabs.Session.t endpoint.t :=
  lambdalabs.Session.Build (endpoint.Build keys catalog [] 0) [] 0%N.

(** The provider with one instance, i-0, running. *)
Definition running : lambdalabs.Session.t endpoint.t :=
  lambdalabs.Session.Build (endpoint.Build [] catalog ["i-0"] 1) [] 0%N.

Definition store (sessions : list db.UnweaveSession.t) (keys : list db.UnweaveSshKey.t)
           (broken : sqlstore.Statement -> option error) : sqlstore.t :=
  sqlstore.Build sessions keys 100%N 1000%Z broken.

Definition world (d : sqlstore.t) (c : lambdalabs.Session.t endpoint.t)
  : server.World.t sqlstore.t (lambdalabs.Session.t endpoint.t) :=
  server.World.Build d c [] 0%N.

Definition service : server.SessionService.t := server.SessionService.Build alice.

(** A request for a node of the given type with Alice's public key. *)
Definition request (nodeTypeID : string) (region : option string)
  : types.SessionCreateParams.t :=
  types.SessionCreateParams.Build LambdaLabsProvider nodeTypeID region None
                                  (Some alicePublicKey).

(** The error of [finRegionForNode] for node type X on [catalog]. *)
Definition noCapacityForX : error :=
  Error 503 "No region with available capacity for node type 'X'" "X,Y"
        LambdaLabsProvider None.


(** Two sessions of the project, the older one terminated. *)
Definition alicesKey : db.UnweaveSshKey.t :=
  db.UnweaveSshKey.Build 8%N "laptop" alice 901%Z alicePublicKey.

Definition session (id : UUID) (createdAt : Time) (status : string) : db.UnweaveSession.t :=
  db.UnweaveSession.Build id "i-0" alice createdAt None None project
                          LambdaLabsProvider "us-east" "calm-river" status 8%N.

Definition twoSessions : list db.UnweaveSession.t :=
  [session 50%N 950%Z db.UnweaveSessionStatusTerminated;
   session 51%N 960%Z db.UnweaveSessionStatusActive].

(** The connection refuses status updates. *)
Definition noStatusUpdate (st : sqlstore.Statement) : option error :=
  match st with
  | sqlstore.StSessionStatusUpdate => Some (Errorf "driver: bad connection" None)
  | _ => None
  end.

(** A runtime whose status feed is the given one. *)
Definition watching (feed : list runtime.Received)
  : runtime.Initializer (lambdalabs.Session.t endpoint.t) :=
  @main.EnvInitializer env endpoint.t endpoint.clientWithResponses
                       (main.providerConfig.Build "secret-api-key")
                       (fun _ => ret feed).

(** An endpoint that cannot be reached: every call ends with a
    transport error. *)
Definition refused : error := Errorf "dial tcp: connection refused" None.

Definition unreachable : client.ClientWithResponses unit :=
  {| client.ListSSHKeysWithResponse := fun u => (Fail refused, u);
     client.AddSSHKeyWithResponse := fun _ u => (Fail refused, u);
     client.InstanceTypesWithResponse := fun u => (Fail refused, u);
     client.LaunchInstanceWithResponse := fun _ u => (Fail refused, u);
     client.TerminateInstanceWithResponse := fun _ u => (Fail refused, u) |}.

Definition offline : lambdalabs.Session.t unit := lambdalabs.Session.Build tt [] 0%N.

(** The connection refuses the insert of a session. *)
Definition noSessionCreate (st : sqlstore.Statement) : option error :=
  match st with
  | sqlstore.StSessionCreate => Some (Errorf "driver: bad connection" None)
  | _ => None
  end.

End fixture.

(** ** api/types/http.go and api/session.go: the HTTP boundary *)

Module http.

Module HTTPError.
Record t : Type := Build
  { Code : Z;
    Message : string;
    Suggestion : string;
    Provider : RuntimeProvider;
    Err : option error }.
End HTTPError.

Section Bind.
Context {env : Env}.

(** [fmt.Sprintf("Use %q or %q as the runtime provider", ...)]. *)
Definition useProviders : string :=
  ("Use " ++ strconv_Quote LambdaLabsProvider ++ " or "
          ++ strconv_Quote UnweaveProvider ++ " as the runtime provider")%string.

(** [SessionCreateRequestParams.Bind]: nil when the request is accepted. *)
Definition Bind (s : types.SessionCreateParams.t) : option HTTPError.t :=
  let provider := types.SessionCreateParams.Provider s in
  if String.eqb provider "" then
    Some (HTTPError.Build 400 "Invalid request body: field 'runtime' is required"
                          useProviders "" None)
  else if negb (String.eqb provider LambdaLabsProvider)
          && negb (String.eqb provider UnweaveProvider) then
    Some (HTTPError.Build 400 ("Invalid runtime provider: " ++ provider)%string
                          useProviders "" None)
  else None.

End Bind.

(** [errors.As(err, &e)] for [e *Error]: the first structured error on
    the chain of causes that %w builds, given as the [HTTPError] that
    [ErrHTTPError] makes of its fields.  [*Error] has no [Unwrap], so
    the chain ends at it. *)
Fixpoint errors_As (err : error) : option HTTPError.t :=
  match err with
  | Error code message suggestion provider cause =>
    Some (HTTPError.Build code message suggestion provider cause)
  | Errorf _ (Some cause) => errors_As cause
  | _ => None
  end.

Definition ErrInternalServer (err : option error) (msg : string) : HTTPError.t :=
  let m := if String.eqb msg "" then "Internal server error" else msg in
  HTTPError.Build 500 m "" "" err.

(** [ErrHTTPError]: nil for a nil error. *)
Definition ErrHTTPError (err : option error) (fallbackMessage : string)
  : option HTTPError.t :=
  match err with
  | None => None
  | Some err =>
    match errors_As err with
    | Some e => Some e
    | None => Some (ErrInternalServer (Some err) fallbackMessage)
    end
  end.

(** [HTTPError.Render]: the level at which the error is logged and the
    status of the response. *)
Inductive Level : Type := LevelError | LevelWarn.

Definition Render (e : HTTPError.t) : Level * Z :=
  (if Z.eqb (HTTPError.Code e) 500 then LevelError else LevelWarn, HTTPError.Code e).

End http.

(** ** Vocabulary of the properties *)

Definition isLaunch (rq : client.Request) : bool :=
  match rq with
  | client.ReqLaunchInstance _ => true
  | _ => false
  end.

Definition isAddSSHKey (rq : client.Request) : bool :=
  match rq with
  | client.ReqAddSSHKey _ => true
  | _ => false
  end.

(** An endpoint that keeps the keys it accepted: listing again lists the
    same keys, and a key accepted with status 200 has the requested name,
    the requested public key if one was sent, and is listed last from
    then on. *)
Class KeyStore (R : Type) (cl : client.ClientWithResponses R) : Prop :=
  { list_again :
      forall c res c' data,
        client.ListSSHKeysWithResponse c = (Ok res, c') ->
        client.Response.JSON200 res = Some data ->
        exists res' c'',
          client.ListSSHKeysWithResponse c' = (Ok res', c'') /\
          client.Response.JSON200 res' = Some data;
    list_after_add :
      forall c res c1 data body resA c2 d,
        client.ListSSHKeysWithResponse c = (Ok res, c1) ->
        client.Response.JSON200 res = Some data ->
        client.AddSSHKeyWithResponse body c1 = (Ok resA, c2) ->
        client.Response.JSON200 resA = Some d ->
        client.SshKey.Name d = client.AddSSHKeyJSONRequestBody.Name body /\
        (forall p, client.AddSSHKeyJSONRequestBody.PublicKey body = Some p ->
                   client.SshKey.PublicKey d = p) /\
        exists res' c3,
          client.ListSSHKeysWithResponse c2 = (Ok res', c3) /\
          client.Response.JSON200 res' = Some (data ++ [d]) }.

(** A provider key matches the key to add when it has its name or, a
    public key being supplied, its public key. *)
Definition matches (sshKey k : SSHKey.t) : Prop :=
  SSHKey.Name k = SSHKey.Name sshKey \/
  exists p, SSHKey.PublicKey sshKey = Some p /\ SSHKey.PublicKey k = Some p.

(** *** Traces of the service *)

Definition isSessionCreate (ev : server.Event) : bool :=
  match ev with
  | server.QSessionCreate _ => true
  | _ => false
  end.



(** The status writes among some events, each with the error it
    returned, in the order they were made. *)
Fixpoint statusWrites (evs : list server.Event)
  : list (db.SessionStatusUpdateParams.t * option error) :=
  match evs with
  | [] => []
  | server.QSessionStatusUpdate arg err :: rest => (arg, err) :: statusWrites rest
  | _ :: rest => statusWrites rest
  end.

Definition written (wr : db.SessionStatusUpdateParams.t * option error) : SessionStatus :=
  db.SessionStatusUpdateParams.Status (fst wr).

(** The statuses that were persisted: those of the writes that returned
    no error. *)
Definition persisted (evs : list server.Event) : list SessionStatus :=
  map written
      (filter (fun wr => match snd wr with None => true | Some _ => false end)
              (statusWrites evs)).

(** A row of [SessionsGet] whose status is terminated. *)
Definition terminated (row : db.SessionsGetRow.t) : bool :=
  String.eqb (db.SessionsGetRow.Status row) db.UnweaveSessionStatusTerminated.

(** A write after which the watcher must be silent. *)
Definition final (wr : db.SessionStatusUpdateParams.t * option error) : Prop :=
  snd wr <> None \/ written wr = StatusTerminated.

Section ServiceVocabulary.
Context {env : Env} {DB C : Type} {Q : db.Querier DB} {rti : runtime.Initializer C}.

(** The events a computation adds to the trace all satisfy [p]. *)
Definition only {A} (p : server.Event -> bool) (c : M (server.World.t DB C) A) : Prop :=
  forall w, exists issued,
      server.World.trace (snd (c w)) = server.World.trace w ++ issued /\
      forallb p issued = true.

(** A computation leaves what [view] shows of the store as it was. *)
Definition keeps {A X} (view : DB -> X) (c : M (server.World.t DB C) A) : Prop :=
  forall w, view (server.World.store (snd (c w))) = view (server.World.store w).

(** The queries on keys leave what [view] shows of the store as it was. *)
Definition keyQueriesKeep {X} (view : DB -> X) : Prop :=
  (forall arg d, view (snd (db.SSHKeyGetByName arg d)) = view d) /\
  (forall arg d, view (snd (db.SSHKeyGetByPublicKey arg d)) = view d) /\
  (forall arg d, view (snd (db.SSHKeyAdd arg d)) = view d).

(** The lookup by name finds nothing: no name was given, or the store
    has no row for it. *)
Definition missesByName (accountID : UUID) (sshKeyName : option string) (d d1 : DB) : Prop :=
  match sshKeyName with
  | None => d1 = d
  | Some name =>
    db.SSHKeyGetByName (db.SSHKeyGetByNameParams.Build name accountID) d
    = (Fail ErrNoRows, d1)
  end.



(** The lookup by name that [fetchCredentials] makes, if it makes one. *)
Definition nameLookup (accountID : UUID) (sshKeyName : option string) : list server.Event :=
  match sshKeyName with
  | None => []
  | Some name => [server.QSSHKeyGetByName (db.SSHKeyGetByNameParams.Build name accountID)]
  end.

(** One of the four steps of [Create] before the insert fails with [e],
    the steps before it having succeeded. *)
Definition stepFails (s : server.SessionService.t) (params : types.SessionCreateParams.t)
           (w : server.World.t DB C) (e : error) : Prop :=
  let cid := server.SessionService.cid s in
  let provider_ := types.SessionCreateParams.Provider params in
  let init := server.provider (runtime.Initialize cid provider_)
                              (server.RInitialize cid provider_) in
  fst (init w) = Fail e \/
  exists rt w1,
    init w = (Ok rt, w1) /\
    let fetch := server.fetchCredentials
                   cid (types.SessionCreateParams.SSHKeyName params)
                   (types.SessionCreateParams.SSHPublicKey params) in
    (fst (fetch w1) = Fail e \/
     exists sshKey w2,
       fetch w1 = (Ok sshKey, w2) /\
       (fst (server.registerCredentials rt sshKey w2) = Some e \/
        exists w3,
          server.registerCredentials rt sshKey w2 = (None, w3) /\
          let nodeTypeID := types.SessionCreateParams.NodeTypeID params in
          let region := types.SessionCreateParams.Region params in
          fst (server.provider (runtime.InitNode rt sshKey nodeTypeID region)
                               (server.RInitNode sshKey nodeTypeID region) w3)
          = Fail e)).

End ServiceVocabulary.

(** *** Vocabulary of the further properties *)

Definition isTerminateNode (ev : server.Event) : bool :=
  match ev with
  | server.RTerminateNode _ => true
  | _ => false
  end.

Definition isInitNode (ev : server.Event) : bool :=
  match ev with
  | server.RInitNode _ _ _ => true
  | _ => false
  end.

Definition isWatch (ev : server.Event) : bool :=
  match ev with
  | server.RWatch _ => true
  | _ => false
  end.

Definition isRAddSSHKey (ev : server.Event) : bool :=
  match ev with
  | server.RAddSSHKey _ => true
  | _ => false
  end.

Definition isStoreWrite (ev : server.Event) : bool :=
  match ev with
  | server.QSSHKeyAdd _ _ | server.QSessionCreate _
  | server.QSessionStatusUpdate _ _ => true
  | _ => false
  end.

(** An error of the adapter: structured, attributed to LambdaLabs, with
    one of the given codes. *)
Definition lambdalabsError (codes : list Z) (e : error) : Prop :=
  exists code msg suggestion cause,
    e = Error code msg suggestion LambdaLabsProvider cause /\ In code codes.


(** An error wrapped by [fmt.Errorf] with %w, once per format. *)
Fixpoint wrapped (formats : list string) (e : error) : error :=
  match formats with
  | [] => e
  | format :: rest => Errorf format (Some (wrapped rest e))
  end.

Section MoreServiceVocabulary.
Context {env : Env} {DB C : Type} {Q : db.Querier DB} {rti : runtime.Initializer C}.

(** The four steps of [Create] before the insert succeed, giving the
    runtime, the key and the node, and leaving the world [w4]. *)
Definition provisioned (s : server.SessionService.t) (params : types.SessionCreateParams.t)
           (w : server.World.t DB C) (rt : runtime.Runtime C) (sshKey : SSHKey.t)
           (node : Node.t) (w4 : server.World.t DB C) : Prop :=
  let cid := server.SessionService.cid s in
  let provider_ := types.SessionCreateParams.Provider params in
  let nodeTypeID := types.SessionCreateParams.NodeTypeID params in
  let region := types.SessionCreateParams.Region params in
  exists w1 w2 w3,
    server.provider (runtime.Initialize cid provider_)
                    (server.RInitialize cid provider_) w = (Ok rt, w1) /\
    server.fetchCredentials cid (types.SessionCreateParams.SSHKeyName params)
                            (types.SessionCreateParams.SSHPublicKey params) w1
    = (Ok sshKey, w2) /\
    server.registerCredentials rt sshKey w2 = (None, w3) /\
    server.provider (runtime.InitNode rt sshKey nodeTypeID region)
                    (server.RInitNode sshKey nodeTypeID region) w3 = (Ok node, w4).

(** The parameters of the insert [Create] makes for a node. *)
Definition insertFor (s : server.SessionService.t) (projectID : UUID)
           (params : types.SessionCreateParams.t) (sshKey : SSHKey.t) (node : Node.t)
           (seed : N) : db.SessionCreateParams.t :=
  db.SessionCreateParams.Build
    (Node.ID node) (server.SessionService.cid s) projectID
    (types.SessionCreateParams.Provider params) (Node.Region node)
    (GenerateRandomPhrase 4 "-" seed) (SSHKey.Name sshKey).

End MoreServiceVocabulary.

(** * Properties *)

Unset Implicit Arguments.

(** ** The LambdaLabs adapter *)

Module lambdalabs_facts.
Import lambdalabs.

(** Closes the conjuncts left once a branch of [InitNode_launch] is fixed. *)
Ltac launch_done :=
  cbn; repeat split; auto; intros; try discriminate;
  match goal with
  | H : Ok _ = Ok _ |- _ => inversion H; reflexivity
  end.

Section Facts.
Context {env : Env} {R : Type} {cl : client.ClientWithResponses R}.

Lemma send_requests A (rq : client.Request) (call : R -> Result A * R) r :
  Session.requests (snd (send rq call r)) = Session.requests r ++ [rq].
Proof. unfold send. destruct (call (Session.client r)); reflexivity. Qed.

Lemma ListNodeTypes_requests (r : Session.t R) :
  Session.requests (snd (ListNodeTypes r)) = Session.requests r ++ [client.ReqInstanceTypes].
Proof.
  unfold ListNodeTypes, bind, send, ret.
  destruct (client.InstanceTypesWithResponse (Session.client r)) as [[res|err] c']; cbn.
  - destruct (client.Response.JSON200 res), (client.Response.JSON401 res),
      (client.Response.JSON403 res); reflexivity.
  - reflexivity.
Qed.

(** What [ListNodeTypes] answers when the endpoint answers 200. *)
Lemma ListNodeTypes_200 (r : Session.t R) res c' data :
  client.InstanceTypesWithResponse (Session.client r) = (Ok res, c') ->
  client.Response.JSON200 res = Some data ->
  ListNodeTypes r =
  (Ok (map toNodeType data),
   Session.Build c' (Session.requests r ++ [client.ReqInstanceTypes]) (Session.seed r)).
Proof.
  intros Hcall H200. unfold ListNodeTypes, bind, send, ret.
  rewrite Hcall, H200. reflexivity.
Qed.

Lemma toNodeType_ID entry : NodeType.ID (toNodeType entry) = fst entry.
Proof. destruct entry. reflexivity. Qed.

Lemma toNodeType_Regions entry :
  NodeType.Regions (toNodeType entry) =
  map client.Region.Name (client.InstanceTypeData.RegionsWithCapacityAvailable (snd entry)).
Proof. destruct entry. reflexivity. Qed.

(** The scan over the catalog, entry by entry. *)
Lemma scan_found nodeTypeID (data : list (string * client.InstanceTypeData.t)) d reg rest :
  NoDup (map fst data) ->
  In (nodeTypeID, d) data ->
  client.InstanceTypeData.RegionsWithCapacityAvailable d = reg :: rest ->
  finRegionForNode_scan nodeTypeID (map toNodeType data) = Some (client.Region.Name reg).
Proof.
  induction data as [|[id d'] data IH]; intros Hnd Hin Hregs; [contradiction|].
  cbn [map fst] in Hnd. inversion Hnd as [|? ? Hnotin Hnd']; subst.
  cbn [map finRegionForNode_scan toNodeType NodeType.ID NodeType.Regions].
  destruct Hin as [Heq|Hin].
  - inversion Heq; subst. rewrite String.eqb_refl, Hregs. reflexivity.
  - destruct (String.eqb_spec id nodeTypeID) as [->|Hne].
    + exfalso. apply Hnotin. apply (in_map fst) in Hin. exact Hin.
    + apply IH; assumption.
Qed.

Lemma scan_exhausted nodeTypeID (data : list (string * client.InstanceTypeData.t)) :
  (forall d, In (nodeTypeID, d) data ->
             client.InstanceTypeData.RegionsWithCapacityAvailable d = []) ->
  finRegionForNode_scan nodeTypeID (map toNodeType data) = None.
Proof.
  induction data as [|[id d'] data IH]; intros Hall; [reflexivity|].
  cbn [map finRegionForNode_scan toNodeType NodeType.ID NodeType.Regions].
  destruct (String.eqb_spec id nodeTypeID) as [->|Hne].
  - rewrite (Hall d' (or_introl eq_refl)). cbn [map].
    apply IH. intros d Hin. apply Hall. right. exact Hin.
  - apply IH. intros d Hin. apply Hall. right. exact Hin.
Qed.

(** From the launch request on: one launch request, in the region that
    was chosen, and a node in that region when the call succeeds. *)
Lemma InitNode_launch_spec sshKey nodeTypeID region (r : Session.t R) :
  exists req tail,
    Session.requests (snd (InitNode_launch sshKey nodeTypeID region r)) =
    Session.requests r ++ client.ReqLaunchInstance req :: tail /\
    client.LaunchInstanceJSONRequestBody.RegionName req = region /\
    client.LaunchInstanceJSONRequestBody.InstanceTypeName req = nodeTypeID /\
    (tail = [] \/ tail = [client.ReqInstanceTypes]) /\
    forall node, fst (InitNode_launch sshKey nodeTypeID region r) = Ok node ->
                 Node.Region node = region /\ Node.TypeID node = nodeTypeID.
Proof.
  unfold InitNode_launch, bind, randomPhrase, send, ret. cbn [Session.client Session.requests Session.seed].
  match goal with
  | |- context [client.LaunchInstanceWithResponse ?q ?c] =>
    set (req := q); destruct (client.LaunchInstanceWithResponse req c) as [[res|err] c']
  end.
  2:{ exists req, []. launch_done. }
  destruct (client.Response.JSON200 res) as [data|].
  { destruct (client.LaunchData.InstanceIds data) as [|id ids];
      exists req, []; launch_done. }
  destruct (client.Response.JSON401 res); [exists req, []; launch_done|].
  destruct (client.Response.JSON403 res); [exists req, []; launch_done|].
  destruct (client.Response.JSON500 res); [exists req, []; launch_done|].
  destruct (client.Response.JSON404 res); [exists req, []; launch_done|].
  destruct (client.Response.JSON400 res) as [m|]; [|exists req, []; launch_done].
  destruct (strings_Contains (strings_ToLower m) "available capacity");
    [|exists req, []; launch_done].
  exists req, [client.ReqInstanceTypes].
  match goal with
  | |- context [ListNodeTypes ?s] =>
    pose proof (ListNodeTypes_requests s) as Hreq; destruct (ListNodeTypes s) as [i s']
  end.
  cbn in Hreq |- *. rewrite Hreq, <- app_assoc. launch_done.
Qed.

(** What [finRegionForNode] does on a catalog that came back with 200:
    it asks for the catalog once and answers from the scan. *)
Lemma finRegionForNode_200 nodeTypeID (r : Session.t R) res c' data :
  client.InstanceTypesWithResponse (Session.client r) = (Ok res, c') ->
  client.Response.JSON200 res = Some data ->
  finRegionForNode nodeTypeID r =
  (match finRegionForNode_scan nodeTypeID (map toNodeType data) with
   | Some region => Ok region
   | None =>
     Fail (Error 503
                 ("No region with available capacity for node type "
                    ++ strconv_Quote nodeTypeID)%string
                 match json_Marshal (map toNodeType data) with
                 | Ok b => b
                 | Fail _ => ""
                 end
                 LambdaLabsProvider None)
   end,
   Session.Build c' (Session.requests r ++ [client.ReqInstanceTypes]) (Session.seed r)).
Proof.
  intros Hcall H200. unfold finRegionForNode, bind.
  rewrite (ListNodeTypes_200 r _ _ _ Hcall H200).
  destruct (finRegionForNode_scan nodeTypeID (map toNodeType data)); [reflexivity|].
  destruct (json_Marshal (map toNodeType data)); reflexivity.
Qed.

(** C5. [InitNode] without a region, on the catalog the endpoint
    currently answers with: when the entry of the requested node type
    lists a region with capacity, the launch request goes to the first
    region that entry lists and the node, if the launch succeeds, is in
    it; when no entry of the requested node type lists any region,
    [InitNode] fails with code 503, the suggestion is the serialized
    catalog, and the catalog request is the only request issued. *)
Theorem InitNode_selects_first_region_with_capacity
        sshKey nodeTypeID (r : Session.t R) res c' data :
  client.InstanceTypesWithResponse (Session.client r) = (Ok res, c') ->
  client.Response.JSON200 res = Some data ->
  NoDup (map fst data) ->
  (forall d reg rest,
      In (nodeTypeID, d) data ->
      client.InstanceTypeData.RegionsWithCapacityAvailable d = reg :: rest ->
      exists req tail,
        Session.requests (snd (InitNode sshKey nodeTypeID None r)) =
        Session.requests r
          ++ client.ReqInstanceTypes :: client.ReqLaunchInstance req :: tail /\
        client.LaunchInstanceJSONRequestBody.RegionName req = client.Region.Name reg /\
        client.LaunchInstanceJSONRequestBody.InstanceTypeName req = nodeTypeID /\
        existsb isLaunch tail = false /\
        forall node, fst (InitNode sshKey nodeTypeID None r) = Ok node ->
                     Node.Region node = client.Region.Name reg)
  /\
  ((forall d, In (nodeTypeID, d) data ->
              client.InstanceTypeData.RegionsWithCapacityAvailable d = []) ->
   (exists msg suggestion,
       fst (InitNode sshKey nodeTypeID None r) =
       Fail (Error 503 msg suggestion LambdaLabsProvider None) /\
       forall b, json_Marshal (map toNodeType data) = Ok b -> suggestion = b) /\
   exists issued,
     Session.requests (snd (InitNode sshKey nodeTypeID None r)) =
     Session.requests r ++ issued /\
     existsb isLaunch issued = false).
Proof.
  intros Hcall H200 Hnd. split.
  - intros d reg rest Hin Hregs.
    unfold InitNode, bind.
    rewrite (finRegionForNode_200 nodeTypeID r _ _ _ Hcall H200).
    rewrite (scan_found nodeTypeID data _ _ _ Hnd Hin Hregs).
    set (r1 := Session.Build c' (Session.requests r ++ [client.ReqInstanceTypes])
                             (Session.seed r)).
    destruct (InitNode_launch_spec sshKey nodeTypeID (client.Region.Name reg) r1)
      as (req & tail & Hreqs & Hregion & Htype & Htail & Hnode).
    exists req, tail. rewrite Hreqs. subst r1. cbn [Session.requests].
    rewrite <- app_assoc. repeat split; auto.
    + destruct Htail as [->| ->]; reflexivity.
    + intros node H. apply (Hnode node H).
  - intros Hnone.
    unfold InitNode, bind.
    rewrite (finRegionForNode_200 nodeTypeID r _ _ _ Hcall H200).
    rewrite (scan_exhausted nodeTypeID data Hnone). cbn.
    split.
    + eexists. eexists. split; [reflexivity|].
      intros b Hb. rewrite Hb. reflexivity.
    + exists [client.ReqInstanceTypes]. split; reflexivity.
Qed.

(** *** AddSSHKey *)

Lemma ListSSHKeys_200 (r : Session.t R) res c' data :
  client.ListSSHKeysWithResponse (Session.client r) = (Ok res, c') ->
  client.Response.JSON200 res = Some data ->
  ListSSHKeys r =
  (Ok (map toSSHKey data),
   Session.Build c' (Session.requests r ++ [client.ReqListSSHKeys]) (Session.seed r)).
Proof.
  intros Hcall H200. unfold ListSSHKeys, bind, send, ret.
  rewrite Hcall, H200. reflexivity.
Qed.

Lemma ListSSHKeys_Ok_inv (r r1 : Session.t R) keys :
  ListSSHKeys r = (Ok keys, r1) ->
  exists res c' data,
    client.ListSSHKeysWithResponse (Session.client r) = (Ok res, c') /\
    client.Response.JSON200 res = Some data /\
    keys = map toSSHKey data /\
    r1 = Session.Build c' (Session.requests r ++ [client.ReqListSSHKeys]) (Session.seed r).
Proof.
  unfold ListSSHKeys, bind, send, ret.
  destruct (client.ListSSHKeysWithResponse (Session.client r)) as [[res|err] c'] eqn:Hcall;
    [|discriminate].
  destruct (client.Response.JSON200 res) as [data|] eqn:H200.
  - intros H. inversion H. exists res, c', data. auto.
  - destruct (client.Response.JSON401 res); [discriminate|].
    destruct (client.Response.JSON403 res); discriminate.
Qed.

Lemma scan_app sshKey l1 l2 :
  AddSSHKey_scan sshKey (l1 ++ l2) =
  match AddSSHKey_scan sshKey l1 with
  | Some res => Some res
  | None => AddSSHKey_scan sshKey l2
  end.
Proof.
  induction l1 as [|k l1 IH]; [reflexivity|].
  cbn [app AddSSHKey_scan].
  destruct (String.eqb (SSHKey.Name sshKey) (SSHKey.Name k)).
  - destruct (SSHKey.PublicKey sshKey) as [pub|]; [|reflexivity].
    destruct (deref_eqb pub (SSHKey.PublicKey k)) as [[|]|]; reflexivity.
  - destruct (SSHKey.PublicKey sshKey) as [pub|]; [|exact IH].
    destruct (deref_eqb pub (SSHKey.PublicKey k)) as [[|]|]; try reflexivity.
    exact IH.
Qed.

(** Keys that do not match are passed over. *)
Lemma scan_unmatched sshKey (data : list client.SshKey.t) :
  (forall d, In d data -> ~ matches sshKey (toSSHKey d)) ->
  AddSSHKey_scan sshKey (map toSSHKey data) = None.
Proof.
  induction data as [|d data IH]; intros Hno; [reflexivity|].
  cbn [map AddSSHKey_scan toSSHKey SSHKey.Name SSHKey.PublicKey].
  assert (Hd : ~ matches sshKey (toSSHKey d)) by (apply Hno; left; reflexivity).
  destruct (String.eqb_spec (SSHKey.Name sshKey) (client.SshKey.Name d)) as [Heq|Hne].
  { exfalso. apply Hd. left. symmetry. exact Heq. }
  destruct (SSHKey.PublicKey sshKey) as [pub|] eqn:Hpub.
  - cbn [deref_eqb].
    destruct (String.eqb_spec pub (client.SshKey.PublicKey d)) as [Heq|Hne'].
    + exfalso. apply Hd. right. exists pub. split; [exact Hpub|cbn; congruence].
    + apply IH. intros d' Hin. apply Hno. right. exact Hin.
  - apply IH. intros d' Hin. apply Hno. right. exact Hin.
Qed.

Lemma AddSSHKey_scanned sshKey (r r1 : Session.t R) keys verdict :
  SSHKey.Name sshKey <> "" ->
  ListSSHKeys r = (Ok keys, r1) ->
  AddSSHKey_scan sshKey keys = Some verdict ->
  AddSSHKey sshKey r = (verdict, r1).
Proof.
  intros Hname Hlist Hscan. unfold AddSSHKey.
  destruct (String.eqb_spec (SSHKey.Name sshKey) "") as [He|_]; [contradiction|].
  unfold bind. rewrite Hlist, Hscan. reflexivity.
Qed.

(** The first key that matches decides, and nothing is sent after the
    listing. *)
Lemma AddSSHKey_first_match sshKey (r r1 : Session.t R) keys pre k post :
  SSHKey.Name sshKey <> "" ->
  ListSSHKeys r = (Ok keys, r1) ->
  keys = pre ++ k :: post ->
  (forall k', In k' pre -> ~ matches sshKey k') ->
  (SSHKey.Name k = SSHKey.Name sshKey ->
   (forall p, SSHKey.PublicKey sshKey = Some p -> SSHKey.PublicKey k <> Some p ->
              AddSSHKey sshKey r =
              (Fail (Error 400 "SSH key with the same name already exists with a different public key"
                           "" LambdaLabsProvider None), r1)) /\
   (SSHKey.PublicKey sshKey = None \/ SSHKey.PublicKey sshKey = SSHKey.PublicKey k ->
    AddSSHKey sshKey r = (Ok k, r1))) /\
  (SSHKey.Name k <> SSHKey.Name sshKey ->
   SSHKey.PublicKey sshKey <> None ->
   SSHKey.PublicKey sshKey = SSHKey.PublicKey k ->
   AddSSHKey sshKey r = (Ok k, r1)) /\
  Session.requests r1 = Session.requests r ++ [client.ReqListSSHKeys].
Proof.
  intros Hname Hlist Hkeys Hpre.
  destruct (ListSSHKeys_Ok_inv r r1 keys Hlist) as (res & c' & data & Hcall & H200 & Hmap & Hr1).
  rewrite Hkeys in Hmap. symmetry in Hmap.
  apply map_eq_app in Hmap. destruct Hmap as (d1 & d2 & _ & Hd1 & Hd2).
  destruct d2 as [|d d2]; [discriminate|]. inversion Hd2 as [[Hk Hpost]].
  assert (Hnone : AddSSHKey_scan sshKey pre = None).
  { rewrite <- Hd1. apply scan_unmatched.
    intros d' Hin. apply Hpre. rewrite <- Hd1. apply in_map. exact Hin. }
  assert (Hdecide : forall verdict,
             AddSSHKey_scan sshKey [toSSHKey d] = Some verdict ->
             AddSSHKey sshKey r = (verdict, r1)).
  { intros verdict Hv. apply (AddSSHKey_scanned sshKey r r1 keys); auto.
    rewrite Hkeys, scan_app, Hnone, <- Hk.
    change (toSSHKey d :: post) with ([toSSHKey d] ++ post).
    rewrite scan_app, Hv. reflexivity. }
  cbn [AddSSHKey_scan toSSHKey SSHKey.Name SSHKey.PublicKey deref_eqb] in Hdecide.
  cbn [toSSHKey SSHKey.Name SSHKey.PublicKey].
  split; [intros Hn; split|split].
  - intros p Hp Hdiff. apply Hdecide.
    rewrite Hn, String.eqb_refl, Hp.
    destruct (String.eqb_spec p (client.SshKey.PublicKey d)) as [->|_]; [congruence|].
    reflexivity.
  - intros Hpk. apply Hdecide. rewrite Hn, String.eqb_refl.
    destruct Hpk as [Hpk|Hpk]; rewrite Hpk; [reflexivity|].
    rewrite String.eqb_refl. reflexivity.
  - intros Hn Hsome Hpk. apply Hdecide.
    destruct (String.eqb_spec (SSHKey.Name sshKey) (client.SshKey.Name d)) as [He|_];
      [symmetry in He; contradiction|].
    rewrite Hpk, String.eqb_refl. reflexivity.
  - rewrite Hr1. reflexivity.
Qed.

(** On an endpoint that keeps its keys, a second call with the same
    input returns the key the first call returned and only lists. *)
Lemma AddSSHKey_again (ks : KeyStore cl) sshKey (r r1 : Session.t R) k :
  AddSSHKey sshKey r = (Ok k, r1) ->
  exists r2,
    AddSSHKey sshKey r1 = (Ok k, r2) /\
    Session.requests r2 = Session.requests r1 ++ [client.ReqListSSHKeys].
Proof.
  unfold AddSSHKey at 1.
  destruct (String.eqb_spec (SSHKey.Name sshKey) "") as [He|Hname]; [discriminate|].
  unfold bind at 1.
  destruct (ListSSHKeys r) as [[keys|err] ra] eqn:Hlist; [|discriminate].
  destruct (ListSSHKeys_Ok_inv r ra keys Hlist)
    as (res & c1 & data & Hcall & H200 & Hkeys & Hra).
  destruct (AddSSHKey_scan sshKey keys) as [verdict|] eqn:Hscan.
  - (* the first call found the key *)
    intros H. inversion H; subst verdict r1. clear H.
    destruct (@list_again _ _ ks _ _ _ _ Hcall H200) as (res' & c2 & Hcall' & H200').
    assert (Hlist' : ListSSHKeys ra =
                     (Ok keys,
                      Session.Build c2 (Session.requests ra ++ [client.ReqListSSHKeys])
                                    (Session.seed ra))).
    { rewrite Hkeys. apply (ListSSHKeys_200 ra res'); [|exact H200'].
      rewrite Hra. exact Hcall'. }
    eexists. split; [apply (AddSSHKey_scanned sshKey ra _ keys); eassumption|].
    reflexivity.
  - (* the first call created the key *)
    unfold bind, send, ret.
    set (body := client.AddSSHKeyJSONRequestBody.Build
                   (SSHKey.Name sshKey) (SSHKey.PublicKey sshKey)).
    assert (Hclient : Session.client ra = c1) by (rewrite Hra; reflexivity).
    rewrite Hclient.
    destruct (client.AddSSHKeyWithResponse body c1) as [[resA|err] c2] eqn:Hadd;
      [|discriminate].
    destruct (client.Response.JSON200 resA) as [d|] eqn:HA200.
    2:{ destruct (client.Response.JSON401 resA); [discriminate|].
        destruct (client.Response.JSON403 resA); [discriminate|].
        destruct (client.Response.JSON400 resA); discriminate. }
    intros H. inversion H; subst k r1. clear H.
    destruct (@list_after_add _ _ ks _ _ _ _ _ _ _ _ Hcall H200 Hadd HA200)
      as (Hdname & Hdpub & res' & c3 & Hcall' & H200').
    set (rb := Session.Build c2 (Session.requests ra ++ [client.ReqAddSSHKey body])
                             (Session.seed ra)).
    assert (Hlist' : ListSSHKeys rb =
                     (Ok (map toSSHKey (data ++ [d])),
                      Session.Build c3 (Session.requests rb ++ [client.ReqListSSHKeys])
                                    (Session.seed rb))).
    { apply (ListSSHKeys_200 rb res'); [exact Hcall'|exact H200']. }
    exists (Session.Build c3 (Session.requests rb ++ [client.ReqListSSHKeys])
                          (Session.seed rb)).
    split; [|reflexivity].
    apply (AddSSHKey_scanned sshKey rb _ (map toSSHKey (data ++ [d]))); [auto|exact Hlist'|].
    rewrite map_app, scan_app, <- Hkeys, Hscan.
    cbn [map AddSSHKey_scan toSSHKey SSHKey.Name SSHKey.PublicKey deref_eqb].
    rewrite Hdname. cbn [body client.AddSSHKeyJSONRequestBody.Name].
    rewrite String.eqb_refl.
    destruct (SSHKey.PublicKey sshKey) as [p|] eqn:Hp; [|reflexivity].
    rewrite (Hdpub p eq_refl), String.eqb_refl. reflexivity.
Qed.

(** C4, as amended.  [AddSSHKey] goes through the provider's keys in
    the order they are listed, and the first key that has the name of
    the key to add or, a public key being supplied, its public key,
    decides.  If that key has the name: a supplied public key that
    differs from its public key gives the error of code 400, otherwise
    that key is returned.  If it has another name and the supplied
    public key: that key is returned.  In all these cases the listing is
    the only request sent.  On an endpoint that keeps the keys it
    accepted, a call that returned a key, made again with the same
    input, returns the same key and sends nothing but the listing. *)
Theorem AddSSHKey_first_match_decides_and_repeats :
  (forall sshKey (r r1 : Session.t R) keys pre k post,
      SSHKey.Name sshKey <> "" ->
      ListSSHKeys r = (Ok keys, r1) ->
      keys = pre ++ k :: post ->
      (forall k', In k' pre -> ~ matches sshKey k') ->
      (SSHKey.Name k = SSHKey.Name sshKey ->
       (forall p, SSHKey.PublicKey sshKey = Some p -> SSHKey.PublicKey k <> Some p ->
                  AddSSHKey sshKey r =
                  (Fail (Error 400 "SSH key with the same name already exists with a different public key"
                               "" LambdaLabsProvider None), r1)) /\
       (SSHKey.PublicKey sshKey = None \/ SSHKey.PublicKey sshKey = SSHKey.PublicKey k ->
        AddSSHKey sshKey r = (Ok k, r1))) /\
      (SSHKey.Name k <> SSHKey.Name sshKey ->
       SSHKey.PublicKey sshKey <> None ->
       SSHKey.PublicKey sshKey = SSHKey.PublicKey k ->
       AddSSHKey sshKey r = (Ok k, r1)) /\
      exists issued,
        Session.requests r1 = Session.requests r ++ issued /\
        existsb isAddSSHKey issued = false)
  /\
  (KeyStore cl ->
   forall sshKey (r r1 : Session.t R) k,
     AddSSHKey sshKey r = (Ok k, r1) ->
     exists r2,
       AddSSHKey sshKey r1 = (Ok k, r2) /\
       exists issued,
         Session.requests r2 = Session.requests r1 ++ issued /\
         existsb isAddSSHKey issued = false).
Proof.
  split.
  - intros sshKey r r1 keys pre k post Hname Hlist Hkeys Hpre.
    destruct (AddSSHKey_first_match sshKey r r1 keys pre k post Hname Hlist Hkeys Hpre)
      as (Hsame & Hother & Hreqs).
    split; [exact Hsame|]. split; [exact Hother|].
    exists [client.ReqListSSHKeys]. split; [exact Hreqs|reflexivity].
  - intros ks sshKey r r1 k Hfirst.
    destruct (AddSSHKey_again ks sshKey r r1 k Hfirst) as (r2 & Hsecond & Hreqs).
    exists r2. split; [exact Hsecond|].
    exists [client.ReqListSSHKeys]. split; [exact Hreqs|reflexivity].
Qed.

End Facts.
End lambdalabs_facts.

(** ** The session service *)

Module server_facts.
Import server.

Section Facts.
Context {env : Env} {DB C : Type} {Q : db.Querier DB} {rti : runtime.Initializer C}.

Local Abbreviation W := (World.t DB C).

Lemma only_ret A p (a : A) : only p (ret a : M W A).
Proof. intros w. exists []. rewrite app_nil_r. split; reflexivity. Qed.

Lemma only_bind A B p (c : M W A) (k : A -> M W B) :
  only p c -> (forall a, only p (k a)) -> only p (bind c k).
Proof.
  intros Hc Hk w. unfold bind.
  destruct (Hc w) as (i1 & Ht1 & Hp1). destruct (c w) as [a w1]. cbn in Ht1.
  destruct (Hk a w1) as (i2 & Ht2 & Hp2).
  exists (i1 ++ i2). rewrite Ht2, Ht1, app_assoc, forallb_app, Hp1, Hp2.
  split; reflexivity.
Qed.

Lemma only_query A p (q : M DB A) (ev : A -> Event) :
  (forall a, p (ev a) = true) -> only p (query q ev : M W A).
Proof.
  intros Hp w. unfold query. destruct (q (World.store w)) as [a d'].
  exists [ev a]. cbn. rewrite Hp. split; reflexivity.
Qed.

Lemma only_provider A p (c : M C A) (ev : Event) :
  p ev = true -> only p (provider c ev : M W A).
Proof.
  intros Hp w. unfold provider. destruct (c (World.cloud w)) as [a c'].
  exists [ev]. cbn. rewrite Hp. split; reflexivity.
Qed.

Lemma only_emit p (ev : Event) : p ev = true -> only p (emit ev : M W unit).
Proof. intros Hp w. exists [ev]. cbn. rewrite Hp. split; reflexivity. Qed.

Lemma only_randomPhrase p n sep : only p (randomPhrase n sep : M W string).
Proof. intros w. exists []. cbn. rewrite app_nil_r. split; reflexivity. Qed.

(** Decomposes a goal [only p c] along the structure of [c]. *)
Ltac only_step :=
  match goal with
  | |- only _ (bind _ _) => apply only_bind; [|intro]
  | |- only _ (ret _) => apply only_ret
  | |- only _ (query _ _) => apply only_query; intros; reflexivity
  | |- only _ (provider _ _) => apply only_provider; reflexivity
  | |- only _ (emit _) => apply only_emit; reflexivity
  | |- only _ (randomPhrase _ _) => apply only_randomPhrase
  | |- only _ (match ?x with _ => _ end) => destruct x
  | |- only _ (if ?x then _ else _) => destruct x
  end.

(** [fetchCredentials] reads and adds keys and does nothing else. *)
Lemma fetchCredentials_only p accountID sshKeyName sshPublicKey :
  (forall arg, p (QSSHKeyGetByName arg) = true) ->
  (forall arg, p (QSSHKeyGetByPublicKey arg) = true) ->
  (forall arg err, p (QSSHKeyAdd arg err) = true) ->
  only p (fetchCredentials accountID sshKeyName sshPublicKey : M W _).
Proof.
  intros Hn Hk Ha.
  unfold fetchCredentials, fetchCredentials_byName, fetchCredentials_byPublicKey, saveSSHKey.
  destruct sshKeyName as [name|], sshPublicKey as [pub|];
    repeat first
           [ apply only_query; intros; auto
           | only_step ].
Qed.

(** [registerCredentials] talks to the provider only. *)
Lemma registerCredentials_only p rt key :
  p RListSSHKeys = true ->
  (forall k, p (RAddSSHKey k) = true) ->
  only p (registerCredentials rt key : M W _).
Proof.
  intros Hl Ha. unfold registerCredentials.
  repeat first [ apply only_provider; auto | only_step ].
Qed.

Lemma keeps_ret A X (view : DB -> X) (a : A) : keeps view (ret a : M W A).
Proof. intros w. reflexivity. Qed.

Lemma keeps_bind A B X (view : DB -> X) (c : M W A) (k : A -> M W B) :
  keeps view c -> (forall a, keeps view (k a)) -> keeps view (bind c k).
Proof.
  intros Hc Hk w. unfold bind.
  pose proof (Hc w) as H1. destruct (c w) as [a w1]. cbn in H1.
  rewrite (Hk a w1). exact H1.
Qed.

Lemma keeps_query A X (view : DB -> X) (q : M DB A) (ev : A -> Event) :
  (forall d, view (snd (q d)) = view d) -> keeps view (query q ev : M W A).
Proof.
  intros Hq w. unfold query. pose proof (Hq (World.store w)) as H.
  destruct (q (World.store w)) as [a d']. exact H.
Qed.

Lemma keeps_provider A X (view : DB -> X) (c : M C A) (ev : Event) :
  keeps view (provider c ev : M W A).
Proof. intros w. unfold provider. destruct (c (World.cloud w)). reflexivity. Qed.

Lemma keeps_randomPhrase X (view : DB -> X) n sep :
  keeps view (randomPhrase n sep : M W string).
Proof. intros w. reflexivity. Qed.

Ltac keeps_step :=
  match goal with
  | |- keeps _ (bind _ _) => apply keeps_bind; [|intro]
  | |- keeps _ (ret _) => apply keeps_ret
  | |- keeps _ (provider _ _) => apply keeps_provider
  | |- keeps _ (randomPhrase _ _) => apply keeps_randomPhrase
  | |- keeps _ (match ?x with _ => _ end) => destruct x
  | |- keeps _ (if ?x then _ else _) => destruct x
  end.

Lemma fetchCredentials_keeps X (view : DB -> X) accountID sshKeyName sshPublicKey :
  keyQueriesKeep view ->
  keeps view (fetchCredentials accountID sshKeyName sshPublicKey : M W _).
Proof.
  intros (Hn & Hk & Ha).
  unfold fetchCredentials, fetchCredentials_byName, fetchCredentials_byPublicKey, saveSSHKey.
  destruct sshKeyName as [name|], sshPublicKey as [pub|];
    repeat first
           [ apply keeps_query; intros; auto
           | keeps_step ].
Qed.

Lemma registerCredentials_keeps X (view : DB -> X) rt key :
  keeps view (registerCredentials rt key : M W _).
Proof. unfold registerCredentials. repeat keeps_step. Qed.

Lemma forallb_negb_existsb (p : Event -> bool) evs :
  forallb (fun ev => negb (p ev)) evs = true -> existsb p evs = false.
Proof.
  induction evs as [|ev evs IH]; [reflexivity|]. cbn.
  destruct (p ev); cbn; [discriminate|exact IH].
Qed.

(** [Create] up to and including a step that fails. *)
Lemma Create_stepFails s projectID params (w : W) e :
  stepFails s params w e ->
  exists (c : M W unit) format,
    Create s projectID params w = (Fail (Errorf format (Some e)), snd (c w)) /\
    only (fun ev => negb (isSessionCreate ev)) c /\
    forall X (view : DB -> X), keyQueriesKeep view -> keeps view c.
Proof.
  unfold stepFails.
  set (cid := SessionService.cid s).
  set (provider_ := types.SessionCreateParams.Provider params).
  set (init := provider (runtime.Initialize cid provider_) (RInitialize cid provider_)).
  set (fetch := fetchCredentials cid (types.SessionCreateParams.SSHKeyName params)
                                 (types.SessionCreateParams.SSHPublicKey params)).
  intros [H1|(rt & w1 & Hinit & [H2|(sshKey & w2 & Hfetch & [H3|(w3 & Hreg & H4)])])].
  - exists (bind init (fun _ => ret tt)). eexists. split; [|split].
    + unfold Create, bind. fold cid provider_ init.
      destruct (init w) as [r w1]. cbn in H1. subst r. reflexivity.
    + unfold init. repeat only_step.
    + intros X view _. unfold init. repeat keeps_step.
  - exists (bind init (fun _ => bind fetch (fun _ => ret tt))). eexists.
    split; [|split].
    + unfold Create, bind. fold cid provider_ init fetch. rewrite Hinit.
      destruct (fetch w1) as [r w2]. cbn in H2. subst r. reflexivity.
    + unfold init, fetch. repeat only_step. apply fetchCredentials_only; reflexivity.
    + intros X view Hv. unfold init, fetch. repeat keeps_step.
      apply fetchCredentials_keeps. exact Hv.
  - exists (bind init (fun _ => bind fetch (fun _ =>
              bind (registerCredentials rt sshKey) (fun _ => ret tt)))).
    eexists. split; [|split].
    + unfold Create, bind. fold cid provider_ init fetch. rewrite Hinit, Hfetch.
      destruct (registerCredentials rt sshKey w2) as [r w3]. cbn in H3. subst r.
      reflexivity.
    + unfold init, fetch. repeat only_step;
        [apply fetchCredentials_only|apply registerCredentials_only]; reflexivity.
    + intros X view Hv. unfold init, fetch. repeat keeps_step;
        [apply fetchCredentials_keeps; exact Hv|apply registerCredentials_keeps].
  - set (nodeTypeID := types.SessionCreateParams.NodeTypeID params) in *.
    set (region := types.SessionCreateParams.Region params) in *.
    set (launch := provider (runtime.InitNode rt sshKey nodeTypeID region)
                            (RInitNode sshKey nodeTypeID region)) in *.
    exists (bind init (fun _ => bind fetch (fun _ =>
              bind (registerCredentials rt sshKey) (fun _ =>
                bind launch (fun _ => ret tt))))).
    eexists. split; [|split].
    + unfold Create, bind. fold cid provider_ init fetch. rewrite Hinit, Hfetch, Hreg.
      fold nodeTypeID region launch.
      destruct (launch w3) as [r w4]. cbn in H4. subst r. reflexivity.
    + unfold init, fetch, launch. repeat only_step;
        [apply fetchCredentials_only|apply registerCredentials_only]; reflexivity.
    + intros X view Hv. unfold init, fetch, launch. repeat keeps_step;
        [apply fetchCredentials_keeps; exact Hv|apply registerCredentials_keeps].
Qed.

(** C1.  When runtime initialization, credential resolution, credential
    registration or node provisioning fails with an error, [Create]
    returns an error that wraps it, no [SessionCreate] is among the calls
    it made, and whatever the queries on keys leave untouched in the
    store (the session rows, for one) is as it was before. *)
Theorem Create_failure_persists_no_session s projectID params (w : W) e :
  stepFails s params w e ->
  (exists format,
      fst (Create s projectID params w) = Fail (Errorf format (Some e)) /\
      Unwrap (Errorf format (Some e)) = Some e) /\
  (exists issued,
      World.trace (snd (Create s projectID params w)) = World.trace w ++ issued /\
      existsb isSessionCreate issued = false) /\
  forall X (view : DB -> X),
    keyQueriesKeep view ->
    view (World.store (snd (Create s projectID params w))) = view (World.store w).
Proof.
  intros Hfail.
  destruct (Create_stepFails s projectID params w e Hfail)
    as (c & format & Hrun & Honly & Hkeeps).
  rewrite Hrun. cbn [fst snd]. split; [|split].
  - exists format. split; reflexivity.
  - destruct (Honly w) as (issued & Htrace & Hnone).
    exists issued. split; [exact Htrace|].
    apply forallb_negb_existsb. exact Hnone.
  - intros X view Hv. apply (Hkeeps X view Hv w).
Qed.

(** *** fetchCredentials *)

(** The block of the lookup by name, when it finds nothing. *)
Lemma byName_misses accountID sshKeyName (w : W) d1 :
  missesByName accountID sshKeyName (World.store w) d1 ->
  fetchCredentials_byName accountID sshKeyName w =
  (None, World.Build d1 (World.cloud w)
                     (World.trace w ++ nameLookup accountID sshKeyName) (World.seed w)).
Proof.
  unfold missesByName, fetchCredentials_byName. destruct sshKeyName as [name|].
  - intros H. unfold bind, query, ret. rewrite H. reflexivity.
  - intros ->. unfold ret. cbn. rewrite app_nil_r. destruct w; reflexivity.
Qed.







(** *** Get *)

(** Whatever row the store returns for the session, [Get] gives its
    node id as the node type of the session. *)
Lemma Get_NodeTypeID_is_NodeID s sessionID (w : W) dbs d1 :
  db.MxSessionGet sessionID (World.store w) = (Ok dbs, d1) ->
  exists read,
    fst (Get s sessionID w) = Ok read /\
    Session.NodeTypeID read = db.MxSessionGetRow.NodeID dbs /\
    Session.Region read = db.MxSessionGetRow.Region dbs /\
    Session.Provider read = db.MxSessionGetRow.Provider dbs /\
    Session.Status read = db.MxSessionGetRow.Status dbs.
Proof.
  intros Hget. unfold Get, bind, query, ret. rewrite Hget.
  eexists. split; [reflexivity|]. repeat split; reflexivity.
Qed.

(** *** Terminate *)

(** C8.  Once the session row is read, the runtime initialized and the
    provider has terminated the node without error, [Terminate] returns
    no error whatever the status write returns; the write is made, and
    its failure, if any, is logged as an error. *)
Theorem Terminate_succeeds_when_node_terminated s sessionID (w : W) sess d1 rt c1 c2 :
  db.SessionGet sessionID (World.store w) = (Ok sess, d1) ->
  runtime.Initialize (SessionService.cid s) (db.UnweaveSession.Provider sess)
                     (World.cloud w) = (Ok rt, c1) ->
  runtime.TerminateNode rt (db.UnweaveSession.NodeID sess) c1 = (None, c2) ->
  let params := db.SessionStatusUpdateParams.Build
                  sessionID db.UnweaveSessionStatusTerminated in
  let write := db.SessionStatusUpdate params d1 in
  fst (Terminate s sessionID w) = None /\
  World.store (snd (Terminate s sessionID w)) = snd write /\
  World.trace (snd (Terminate s sessionID w)) =
  World.trace w
    ++ [QSessionGet sessionID;
        RInitialize (SessionService.cid s) (db.UnweaveSession.Provider sess);
        RTerminateNode (db.UnweaveSession.NodeID sess);
        QSessionStatusUpdate params (fst write)]
    ++ match fst write with
       | Some err => [LogError "Failed to set session %q as terminated" err]
       | None => []
       end.
Proof.
  intros Hget Hinit Hterm params write.
  unfold Terminate, bind, query, provider, emit, ret.
  rewrite Hget. cbn [World.store World.cloud World.trace World.seed].
  rewrite Hinit. cbn [World.store World.cloud World.trace World.seed].
  rewrite Hterm. cbn [World.store World.cloud World.trace World.seed].
  fold params. fold write. destruct write as [[err|] d2];
    cbn; rewrite <- !app_assoc; cbn; auto.
Qed.

(** *** List *)

Lemma List_loop_filter listTerminated rows res :
  List_loop listTerminated rows res =
  res ++ map List_session
             (filter (fun row => listTerminated || negb (terminated row)) rows).
Proof.
  revert res. induction rows as [|row rows IH]; intros res.
  - cbn. rewrite app_nil_r. reflexivity.
  - cbn [List_loop filter]. unfold terminated at 1.
    destruct listTerminated; cbn [negb andb orb].
    + rewrite IH, <- app_assoc. reflexivity.
    + destruct (String.eqb (db.SessionsGetRow.Status row) db.UnweaveSessionStatusTerminated);
        cbn [negb]; rewrite IH; [reflexivity|].
      rewrite <- app_assoc. reflexivity.
Qed.


(** *** Watch *)

Lemma statusWrites_app evs1 evs2 :
  statusWrites (evs1 ++ evs2) = statusWrites evs1 ++ statusWrites evs2.
Proof.
  induction evs1 as [|ev evs1 IH]; [reflexivity|].
  destruct ev; cbn; rewrite ?IH; reflexivity.
Qed.

(** One turn of the loop on a status, by what the write returns. *)
Lemma Watch_loop_status sessionID status feed (w : W) :
  let params := db.SessionStatusUpdateParams.Build sessionID status in
  let write := db.SessionStatusUpdate params (World.store w) in
  let w1 := World.Build (snd write) (World.cloud w)
                        (World.trace w
                           ++ [LogInfo "session status changed";
                               QSessionStatusUpdate params (fst write)])
                        (World.seed w) in
  Watch_loop sessionID (runtime.Status status :: feed) w =
  match fst write with
  | Some err =>
    (tt, World.Build (snd write) (World.cloud w)
                     (World.trace w
                        ++ [LogInfo "session status changed";
                            QSessionStatusUpdate params (Some err);
                            LogError "failed to update session status" err])
                     (World.seed w))
  | None =>
    if String.eqb status StatusTerminated then (tt, w1)
    else Watch_loop sessionID feed w1
  end.
Proof.
  cbn zeta. cbn [Watch_loop]. unfold bind, emit, query, ret.
  cbn [World.store World.cloud World.trace World.seed].
  destruct (db.SessionStatusUpdate (db.SessionStatusUpdateParams.Build sessionID status)
                                   (World.store w)) as [[err|] d1];
    cbn [fst snd World.store World.cloud World.trace World.seed];
    rewrite <- !app_assoc; cbn [app]; [reflexivity|].
  destruct (String.eqb status StatusTerminated); reflexivity.
Qed.

(** The writes of the watcher against the feed it consumes. *)
Lemma Watch_loop_writes sessionID feed : forall w : W,
  exists issued rest,
    World.trace (snd (Watch_loop sessionID feed w)) = World.trace w ++ issued /\
    feed = map runtime.Status (map written (statusWrites issued)) ++ rest /\
    Forall (fun wr => db.SessionStatusUpdateParams.ID (fst wr) = sessionID)
           (statusWrites issued) /\
    (forall pre wr post,
        statusWrites issued = pre ++ wr :: post -> final wr -> post = []) /\
    (rest = [] \/
     (exists r rest', rest = r :: rest' /\ forall status, r <> runtime.Status status) \/
     (exists pre wr, statusWrites issued = pre ++ [wr] /\ final wr)).
Proof.
  induction feed as [|r feed IH]; intros w.
  - exists [], []. cbn. rewrite app_nil_r. repeat split; auto.
    intros pre wr post H. destruct pre; discriminate.
  - destruct r as [|status|e].
    + exists [], (runtime.Done :: feed). cbn. rewrite app_nil_r. repeat split; auto.
      * intros pre wr post H. destruct pre; discriminate.
      * right. left. exists runtime.Done, feed. split; [reflexivity|discriminate].
    + rewrite Watch_loop_status.
      set (params := db.SessionStatusUpdateParams.Build sessionID status).
      destruct (db.SessionStatusUpdate params (World.store w)) as [[err|] d1] eqn:Hwrite;
        cbn [fst snd].
      * exists [LogInfo "session status changed"; QSessionStatusUpdate params (Some err);
                LogError "failed to update session status" err], feed.
        cbn. repeat split; auto.
        -- intros pre wr post H. destruct pre as [|x [|y pre]]; try discriminate.
           inversion H. reflexivity.
        -- right. right. exists [], (params, Some err). split; [reflexivity|].
           left. discriminate.
      * destruct (String.eqb_spec status StatusTerminated) as [Hterm|Hlive].
        -- exists [LogInfo "session status changed"; QSessionStatusUpdate params None], feed.
           cbn. repeat split; auto.
           ++ intros pre wr post H. destruct pre as [|x [|y pre]]; try discriminate.
              inversion H. reflexivity.
           ++ right. right. exists [], (params, None). split; [reflexivity|].
              right. exact Hterm.
        -- match goal with
           | |- context [Watch_loop sessionID feed ?w1] =>
             destruct (IH w1) as (issued & rest & Htrace & Hfeed & Hids & Hstop & Hwhy)
           end.
           exists ([LogInfo "session status changed"; QSessionStatusUpdate params None]
                     ++ issued), rest.
           rewrite Htrace. cbn [World.trace]. rewrite <- app_assoc.
           cbn [app statusWrites map written fst db.SessionStatusUpdateParams.Status params].
           split; [reflexivity|]. split; [rewrite Hfeed at 1; reflexivity|].
           split; [constructor; [reflexivity|exact Hids]|]. split.
           ++ intros pre wr post H Hfinal. destruct pre as [|x pre].
              ** inversion H; subst wr. destruct Hfinal as [Hf|Hf];
                   [exfalso; apply Hf; reflexivity|contradiction].
              ** inversion H. apply (Hstop pre wr post); assumption.
           ++ destruct Hwhy as [Hw|[Hw|(pre & wr & Hw & Hfinal)]]; auto.
              right. right. exists ((params, None) :: pre), wr.
              rewrite Hw. split; [reflexivity|exact Hfinal].
    + exists [LogError "failed to watch session" e], (runtime.Err e :: feed).
      cbn. repeat split; auto.
      * intros pre wr post H. destruct pre; discriminate.
      * right. left. exists (runtime.Err e), feed. split; [reflexivity|discriminate].
Qed.

(** C2.  The watcher writes the statuses it receives in the order of
    the feed, each for its session; after a write that failed or that
    wrote Terminated there is no other write; and it stops writing only
    when the feed has nothing more, when the next thing received is not
    a status (an error, or the cancellation), or after such a final
    write.  On the feed Initializing, Active, Terminated, Active, when
    the writes succeed, the persisted statuses are the first three. *)
Theorem Watch_loop_persists_in_order_then_stops :
  (forall sessionID feed (w : W),
      exists issued rest,
        World.trace (snd (Watch_loop sessionID feed w)) = World.trace w ++ issued /\
        feed = map runtime.Status (map written (statusWrites issued)) ++ rest /\
        Forall (fun wr => db.SessionStatusUpdateParams.ID (fst wr) = sessionID)
               (statusWrites issued) /\
        (forall pre wr post,
            statusWrites issued = pre ++ wr :: post -> final wr -> post = []) /\
        (rest = [] \/
         (exists r rest', rest = r :: rest' /\ forall status, r <> runtime.Status status) \/
         (exists pre wr, statusWrites issued = pre ++ [wr] /\ final wr)))
  /\
  (forall sessionID (w : W) d1 d2 d3,
      let update status := db.SessionStatusUpdate
                             (db.SessionStatusUpdateParams.Build sessionID status) in
      update StatusInitializing (World.store w) = (None, d1) ->
      update StatusActive d1 = (None, d2) ->
      update StatusTerminated d2 = (None, d3) ->
      let feed := [runtime.Status StatusInitializing;
                   runtime.Status StatusActive;
                   runtime.Status StatusTerminated;
                   runtime.Status StatusActive] in
      exists issued,
        World.trace (snd (Watch_loop sessionID feed w)) = World.trace w ++ issued /\
        persisted issued = [StatusInitializing; StatusActive; StatusTerminated] /\
        List.length (statusWrites issued) = 3 /\
        World.store (snd (Watch_loop sessionID feed w)) = d3).
Proof.
  split.
  - intros sessionID feed w. apply Watch_loop_writes.
  - intros sessionID w d1 d2 d3 update H1 H2 H3 feed. subst update feed.
    rewrite Watch_loop_status, H1.
    cbn [fst snd String.eqb Ascii.eqb Bool.eqb StatusInitializing StatusTerminated].
    rewrite Watch_loop_status. cbn [World.store]. rewrite H2.
    cbn [fst snd String.eqb Ascii.eqb Bool.eqb StatusActive StatusTerminated].
    rewrite Watch_loop_status. cbn [World.store]. rewrite H3.
    cbn [fst snd String.eqb Ascii.eqb Bool.eqb StatusTerminated World.trace World.store].
    rewrite <- !app_assoc. eexists. split; [reflexivity|].
    repeat split; reflexivity.
Qed.

End Facts.
End server_facts.

(** ** The code on the fixtures *)

Module on_fixtures.
Import server fixture.

#[local] Existing Instance fixture.env.
#[local] Existing Instance sqlstore.querier.
#[local] Existing Instance fixture.endpoint.clientWithResponses.
#[local] Existing Instance fixture.initializer.

(** The queries on keys of the in-memory store leave the session rows
    as they are. *)
Lemma sessions_kept : keyQueriesKeep sqlstore.sessions.
Proof.
  unfold keyQueriesKeep. repeat split; intros arg d; cbn;
    unfold sqlstore.SSHKeyGetByName, sqlstore.SSHKeyGetByPublicKey,
           sqlstore.SSHKeyAdd, sqlstore.run;
    destruct (sqlstore.broken d _); reflexivity.
Qed.

(** A request for node type X, which has no capacity anywhere: [Create]
    fails with the provider's error wrapped, and the session table is
    still empty. *)
Lemma Create_without_capacity :
  let w := world (store [] [] sqlstore.healthy) (cloud []) in
  (exists format,
      fst (Create service project (request "X" None) w)
      = Fail (Errorf format (Some noCapacityForX))) /\
  sqlstore.sessions (World.store (snd (Create service project (request "X" None) w))) = [].
Proof.
  intros w.
  assert (Hfail : stepFails service (request "X" None) w noCapacityForX).
  { right. eexists. eexists. split; [reflexivity|].
    right. eexists. eexists. split; [reflexivity|].
    right. eexists. split; reflexivity. }
  destruct (server_facts.Create_failure_persists_no_session
              service project (request "X" None) w noCapacityForX Hfail)
    as ((format & Hres & _) & _ & Hkeeps).
  split.
  - exists format. exact Hres.
  - exact (Hkeeps _ sqlstore.sessions sessions_kept).
Defined.

(** C3.  A session created for node type Y in us-east and read back
    with [Get] before any status change: provider, region and status
    are those of the creation, and the node type is the provider's id of
    the node, i-0, which [Get] takes from the column node_id. *)
Theorem Get_after_Create_gives_node_id_as_node_type :
  let w := world (store [] [] sqlstore.healthy) (cloud []) in
  let created := Create service project (request "Y" (Some "us-east")) w in
  exists sess read,
    fst created = Ok sess /\
    Session.NodeTypeID sess = "Y" /\
    fst (Get service (Session.ID sess) (snd created)) = Ok read /\
    Session.Provider read = LambdaLabsProvider /\
    Session.Region read = "us-east" /\
    Session.Status read = StatusInitializing /\
    Session.NodeTypeID read = "i-0" /\
    Session.NodeTypeID read <> "Y".
Proof.
  cbv zeta. eexists. eexists.
  split; [vm_compute; reflexivity|].
  split; [reflexivity|].
  split; [vm_compute; reflexivity|].
  repeat split; try reflexivity. discriminate.
Qed.

(** The two lookups of queries.sql answer the same whoever asks. *)
Lemma lookups_ignore_owner (owner other : UUID) (d : sqlstore.t) :
  (forall name,
      sqlstore.SSHKeyGetByName (db.SSHKeyGetByNameParams.Build name owner) d
      = sqlstore.SSHKeyGetByName (db.SSHKeyGetByNameParams.Build name other) d) /\
  (forall publicKey,
      sqlstore.SSHKeyGetByPublicKey
        (db.SSHKeyGetByPublicKeyParams.Build publicKey owner) d
      = sqlstore.SSHKeyGetByPublicKey
          (db.SSHKeyGetByPublicKeyParams.Build publicKey other) d).
Proof. split; intros; reflexivity. Qed.


(** The watcher on a healthy store, for the feed Initializing, Active,
    Terminated, Active: three statuses written, and the session ends
    terminated. *)
Lemma Watch_loop_on_malformed_feed :
  let w := world (store twoSessions [alicesKey] sqlstore.healthy) (cloud []) in
  let feed := [runtime.Status StatusInitializing; runtime.Status StatusActive;
               runtime.Status StatusTerminated; runtime.Status StatusActive] in
  exists issued,
    World.trace (snd (Watch_loop 51%N feed w)) = World.trace w ++ issued /\
    persisted issued = [StatusInitializing; StatusActive; StatusTerminated] /\
    List.length (statusWrites issued) = 3.
Proof.
  intros w feed.
  destruct (server_facts.Watch_loop_persists_in_order_then_stops
              (DB := sqlstore.t) (C := lambdalabs.Session.t endpoint.t))
    as [_ Hfeed].
  destruct (Hfeed 51%N w _ _ _ eq_refl eq_refl eq_refl)
    as (issued & Htrace & Hpersisted & Hlen & _).
  exists issued. repeat split; assumption.
Defined.

(** The endpoint of the fixtures keeps the keys it accepted. *)
Lemma endpoint_keeps_keys : KeyStore endpoint.clientWithResponses.
Proof.
  constructor.
  - intros c res c' data Hlist H200. cbn in Hlist |- *.
    unfold endpoint.ListSSHKeysWithResponse in *. inversion Hlist; subst.
    exists (client.Response.ok (endpoint.ssh_keys c')), c'. auto.
  - intros c res c1 data body resA c2 d Hlist H200 Hadd HA200. cbn in Hlist, Hadd |- *.
    unfold endpoint.ListSSHKeysWithResponse, endpoint.AddSSHKeyWithResponse in *.
    inversion Hlist; subst. cbn in H200. inversion H200; subst. clear Hlist H200.
    destruct (existsb
                (fun k => String.eqb (client.SshKey.Name k)
                                     (client.AddSSHKeyJSONRequestBody.Name body))
                (endpoint.ssh_keys c1)).
    + inversion Hadd; subst. discriminate.
    + inversion Hadd; subst. cbn in HA200. inversion HA200; subst. clear Hadd HA200.
      cbn. split; [reflexivity|]. split.
      * intros p Hp. rewrite Hp. reflexivity.
      * eexists. eexists. split; reflexivity.
Qed.

(** The provider lists b, registered with Alice's public key, before a,
    registered with Bob's.  Adding a with Alice's public key: a key
    named a exists and its public key differs from the supplied one, yet
    the call does not fail; it returns b, which is listed first and has
    the supplied public key. *)
Lemma AddSSHKey_name_conflict_behind_public_key_match :
  let r := cloud [client.SshKey.Build "b" alicePublicKey;
                  client.SshKey.Build "a" bobPublicKey] in
  let sshKey := key "a" alicePublicKey in
  exists keys k,
    fst (lambdalabs.ListSSHKeys r) = Ok keys /\
    In k keys /\
    SSHKey.Name k = SSHKey.Name sshKey /\
    SSHKey.PublicKey k <> SSHKey.PublicKey sshKey /\
    fst (lambdalabs.AddSSHKey sshKey r) = Ok (key "b" alicePublicKey) /\
    forall msg suggestion provider cause,
      fst (lambdalabs.AddSSHKey sshKey r) <> Fail (Error 400 msg suggestion provider cause).
Proof.
  cbv zeta. exists [key "b" alicePublicKey; key "a" bobPublicKey], (key "a" bobPublicKey).
  split; [reflexivity|]. split; [right; left; reflexivity|].
  split; [reflexivity|]. split; [discriminate|].
  split; [vm_compute; reflexivity|].
  intros msg suggestion provider cause. vm_compute. discriminate.
Qed.

(** With a registered under another public key and listed first, adding
    a with Alice's public key is refused with code 400; with nothing
    registered, adding a twice returns the same key and the second call
    sends only the listing. *)
Lemma AddSSHKey_on_endpoint :
  let sshKey := key "a" alicePublicKey in
  (let r := cloud [client.SshKey.Build "a" bobPublicKey;
                   client.SshKey.Build "b" alicePublicKey] in
   exists msg,
     fst (lambdalabs.AddSSHKey sshKey r) = Fail (Error 400 msg "" LambdaLabsProvider None)) /\
  (let r := cloud [] in
   exists r2,
     lambdalabs.AddSSHKey sshKey (snd (lambdalabs.AddSSHKey sshKey r)) = (Ok sshKey, r2) /\
     exists issued,
       lambdalabs.Session.requests r2
       = lambdalabs.Session.requests (snd (lambdalabs.AddSSHKey sshKey r)) ++ issued /\
       existsb isAddSSHKey issued = false).
Proof.
  intros sshKey.
  destruct (lambdalabs_facts.AddSSHKey_first_match_decides_and_repeats
              (R := endpoint.t) (cl := endpoint.clientWithResponses))
    as [Hfirst Hagain].
  split.
  - intros r.
    destruct (Hfirst sshKey r (snd (lambdalabs.ListSSHKeys r))
                     [key "a" bobPublicKey; key "b" alicePublicKey]
                     [] (key "a" bobPublicKey) [key "b" alicePublicKey])
      as ((Hconflict & _) & _).
    + discriminate.
    + reflexivity.
    + reflexivity.
    + intros k' [].
    + reflexivity.
    + eexists. rewrite (Hconflict alicePublicKey); [reflexivity|reflexivity|discriminate].
  - intros r.
    destruct (Hagain endpoint_keeps_keys sshKey r (snd (lambdalabs.AddSSHKey sshKey r)) sshKey)
      as (r2 & Hsecond & Hissued).
    + reflexivity.
    + exists r2. split; assumption.
Defined.

(** On the catalog where X has no region and Y has us-east: [InitNode]
    for Y launches in us-east, and [InitNode] for X fails with code 503
    after the catalog request alone. *)
Lemma InitNode_on_catalog :
  let r := cloud [] in
  let sshKey := key "a" alicePublicKey in
  (exists req tail,
      lambdalabs.Session.requests (snd (lambdalabs.InitNode sshKey "Y" None r))
      = client.ReqInstanceTypes :: client.ReqLaunchInstance req :: tail /\
      client.LaunchInstanceJSONRequestBody.RegionName req = "us-east" /\
      existsb isLaunch tail = false) /\
  (exists msg suggestion,
      fst (lambdalabs.InitNode sshKey "X" None r)
      = Fail (Error 503 msg suggestion LambdaLabsProvider None) /\
      suggestion = "X,Y") /\
  exists issued,
    lambdalabs.Session.requests (snd (lambdalabs.InitNode sshKey "X" None r)) = issued /\
    existsb isLaunch issued = false.
Proof.
  intros r sshKey.
  assert (Hnd : NoDup (map fst catalog)).
  { repeat constructor; cbn; intuition discriminate. }
  split; [|split].
  - destruct (lambdalabs_facts.InitNode_selects_first_region_with_capacity
                (cl := endpoint.clientWithResponses)
                sshKey "Y" r (client.Response.ok catalog) (lambdalabs.Session.client r)
                catalog eq_refl eq_refl Hnd) as [Hselect _].
    destruct (Hselect (client.InstanceTypeData.Build (instanceType "1x Y")
                                                     [client.Region.Build "us-east"])
                      (client.Region.Build "us-east") [])
      as (req & tail & Hreqs & Hregion & _ & Htail & _).
    + right. left. reflexivity.
    + reflexivity.
    + exists req, tail. split; [exact Hreqs|]. split; assumption.
  - destruct (lambdalabs_facts.InitNode_selects_first_region_with_capacity
                (cl := endpoint.clientWithResponses)
                sshKey "X" r (client.Response.ok catalog) (lambdalabs.Session.client r)
                catalog eq_refl eq_refl Hnd) as [_ Hnone].
    destruct Hnone as ((msg & suggestion & Hres & Hsug) & _).
    + intros d [Hd|[Hd|[]]]; inversion Hd. reflexivity.
    + exists msg, suggestion. split; [exact Hres|]. apply Hsug. reflexivity.
  - destruct (lambdalabs_facts.InitNode_selects_first_region_with_capacity
                (cl := endpoint.clientWithResponses)
                sshKey "X" r (client.Response.ok catalog) (lambdalabs.Session.client r)
                catalog eq_refl eq_refl Hnd) as [_ Hnone].
    destruct Hnone as (_ & issued & Hreqs & Hnolaunch).
    + intros d [Hd|[Hd|[]]]; inversion Hd. reflexivity.
    + exists issued. split; [exact Hreqs|exact Hnolaunch].
Defined.



(** The node i-0 is terminated at the provider while the store refuses
    the status update: [Terminate] returns no error, and the refusal is
    logged. *)
Lemma Terminate_with_failing_write :
  let w := world (store twoSessions [alicesKey] noStatusUpdate) running in
  fst (Terminate service 51%N w) = None /\
  In (LogError "Failed to set session %q as terminated"
               (Errorf "driver: bad connection" None))
     (World.trace (snd (Terminate service 51%N w))) /\
  sqlstore.sessions (World.store (snd (Terminate service 51%N w))) = twoSessions.
Proof.
  intros w.
  destruct (server_facts.Terminate_succeeds_when_node_terminated
              (Q := sqlstore.querier) (rti := fixture.initializer)
              service 51%N w
              (session 51%N 960%Z db.UnweaveSessionStatusActive)
              (World.store w)
              (main.lambdalabsRuntime noWatch)
              (World.cloud w)
              (snd (lambdalabs.TerminateNode
                      (cl := endpoint.clientWithResponses) "i-0" (World.cloud w)))
              eq_refl eq_refl eq_refl)
    as (Hres & Hstore & Htrace).
  split; [exact Hres|]. split.
  - rewrite Htrace. cbn. auto 10.
  - rewrite Hstore. reflexivity.
Defined.


(** [Watch] as a whole, on a runtime whose feed is Initializing, Active,
    Terminated, Active: it returns no error, three statuses are
    persisted, and the row of the session ends terminated. *)
Lemma Watch_on_malformed_feed :
  let feed := [runtime.Status StatusInitializing; runtime.Status StatusActive;
               runtime.Status StatusTerminated; runtime.Status StatusActive] in
  let w := world (store twoSessions [alicesKey] sqlstore.healthy) (cloud []) in
  let run := Watch (rti := watching feed) service 51%N w in
  fst run = None /\
  persisted (World.trace (snd run))
  = [StatusInitializing; StatusActive; StatusTerminated] /\
  map db.UnweaveSession.Status (sqlstore.sessions (World.store (snd run)))
  = [db.UnweaveSessionStatusTerminated; db.UnweaveSessionStatusTerminated].
Proof. cbv zeta. repeat split; vm_compute; reflexivity. Qed.

End on_fixtures.

(** * Further properties *)

(** ** The LambdaLabs adapter, beyond key idempotence and region choice *)

Module lambdalabs_more.
Import lambdalabs.

Section Facts.
Context {env : Env} {R : Type} {cl : client.ClientWithResponses R}.





(** Without a region, when the catalog cannot be listed [InitNode]
    fails with an error that wraps the listing error, and the catalog
    request is the only one sent: nothing is launched. *)
Theorem InitNode_without_catalog sshKey nodeTypeID (r r1 : Session.t R) err :
  ListNodeTypes r = (Fail err, r1) ->
  InitNode sshKey nodeTypeID None r
  = (Fail (Errorf "failed to list instance availability, err: %w" (Some err)), r1) /\
  Session.requests r1 = Session.requests r ++ [client.ReqInstanceTypes].
Proof.
  intros Hlist. split.
  - unfold InitNode, finRegionForNode, bind. rewrite Hlist. reflexivity.
  - pose proof (lambdalabs_facts.ListNodeTypes_requests r) as H.
    rewrite Hlist in H. exact H.
Qed.

(** [TerminateNode] sends one request, for the given node alone.  When
    the endpoint answers, it returns no error exactly when the answer
    has the payload of status 200, and otherwise a structured error
    attributed to LambdaLabs with code 401, 403, 400, 404, 500 or the
    status of the response; a transport error is returned as it is. *)
Theorem TerminateNode_outcomes nodeID (r : Session.t R) :
  let req := client.TerminateInstanceJSONRequestBody.Build [nodeID] in
  Session.requests (snd (TerminateNode nodeID r))
  = Session.requests r ++ [client.ReqTerminateInstance req] /\
  (forall err c',
      client.TerminateInstanceWithResponse req (Session.client r) = (Fail err, c') ->
      fst (TerminateNode nodeID r) = Some err) /\
  (forall res c',
      client.TerminateInstanceWithResponse req (Session.client r) = (Ok res, c') ->
      (fst (TerminateNode nodeID r) = None <-> client.Response.JSON200 res <> None) /\
      forall e, fst (TerminateNode nodeID r) = Some e ->
                lambdalabsError [401; 403; 400; 404; 500; client.Response.StatusCode res]%Z e).
Proof.
  intros req. unfold TerminateNode, bind, send, ret. fold req.
  destruct (client.TerminateInstanceWithResponse req (Session.client r)) as [[res|err] c'] eqn:Hcall.
  2:{ split; [reflexivity|]. split.
      - intros err0 c0 H. inversion H. reflexivity.
      - intros res c0 H. discriminate. }
  unfold lambdalabsError.
  split; [|split].
  - destruct (client.Response.JSON200 res), (client.Response.JSON401 res),
      (client.Response.JSON403 res), (client.Response.JSON400 res),
      (client.Response.JSON404 res), (client.Response.JSON500 res); reflexivity.
  - intros err c0 H. discriminate.
  - intros res0 c0 H. inversion H; subst res0 c0. clear H.
    destruct (client.Response.JSON200 res) as [u|].
    { cbn. split; [split; [discriminate|reflexivity]|]. intros e H. discriminate. }
    split.
    + split; [|intros H; contradiction].
      destruct (client.Response.JSON401 res), (client.Response.JSON403 res),
        (client.Response.JSON400 res), (client.Response.JSON404 res),
        (client.Response.JSON500 res); cbn; discriminate.
    + intros e.
      destruct (client.Response.JSON401 res), (client.Response.JSON403 res),
        (client.Response.JSON400 res), (client.Response.JSON404 res),
        (client.Response.JSON500 res); cbn; intros H; inversion H;
        do 4 eexists; (split; [reflexivity|cbn; auto 10]).
Qed.

(** *** AddSSHKey *)

Lemma scan_Ok sshKey keys k :
  AddSSHKey_scan sshKey keys = Some (Ok k) -> In k keys /\ matches sshKey k.
Proof.
  induction keys as [|k' keys IH]; [discriminate|].
  cbn [AddSSHKey_scan]. unfold matches.
  destruct (String.eqb_spec (SSHKey.Name sshKey) (SSHKey.Name k')) as [Hn|Hn].
  - destruct (SSHKey.PublicKey sshKey) as [pub|].
    + destruct (deref_eqb pub (SSHKey.PublicKey k')) as [[|]|]; intros H; inversion H; subst.
      split; [left; reflexivity|left; auto].
    + intros H; inversion H; subst. split; [left; reflexivity|left; auto].
  - destruct (SSHKey.PublicKey sshKey) as [pub|] eqn:Hpub.
    + unfold deref_eqb. destruct (SSHKey.PublicKey k') as [v|] eqn:Hv; [|discriminate].
      destruct (String.eqb_spec pub v) as [->|Hne].
      * intros H; inversion H; subst. split; [left; reflexivity|].
        right. exists v. auto.
      * intros H. destruct (IH H) as [Hin Hm]. split; [right; exact Hin|].
        destruct Hm as [Hm|(p & Hp & Hk)]; [left; exact Hm|].
        right. exists p. split; [congruence|exact Hk].
    + intros H. destruct (IH H) as [Hin Hm]. split; [right; exact Hin|].
      destruct Hm as [Hm|(p & Hp & Hk)]; [left; exact Hm|congruence].
Qed.

Lemma scan_None sshKey (data : list client.SshKey.t) :
  AddSSHKey_scan sshKey (map toSSHKey data) = None ->
  forall k, In k (map toSSHKey data) -> ~ matches sshKey k.
Proof.
  induction data as [|d data IH]; [intros _ k []|].
  cbn [map AddSSHKey_scan toSSHKey SSHKey.Name SSHKey.PublicKey deref_eqb].
  destruct (String.eqb_spec (SSHKey.Name sshKey) (client.SshKey.Name d)) as [Hn|Hn].
  - destruct (SSHKey.PublicKey sshKey) as [pub|]; [|discriminate].
    destruct (String.eqb pub (client.SshKey.PublicKey d)); discriminate.
  - destruct (SSHKey.PublicKey sshKey) as [pub|] eqn:Hpub.
    + destruct (String.eqb_spec pub (client.SshKey.PublicKey d)) as [He|Hne]; [discriminate|].
      intros Hscan k [Hk|Hin]; [|apply IH; assumption].
      subst k. unfold matches. cbn. rewrite Hpub.
      intros [Hm|(p & Hp & Hk)]; [apply Hn; auto|]. inversion Hp; inversion Hk. congruence.
    + intros Hscan k [Hk|Hin]; [|apply IH; assumption].
      subst k. unfold matches. cbn. rewrite Hpub.
      intros [Hm|(p & Hp & Hk)]; [apply Hn; auto|discriminate Hp].
Qed.

(** [AddSSHKey] with an empty name fails at once and sends nothing.
    With a name it lists the keys, and sends an add request, one, for
    the supplied name and public key, only when the listing succeeded
    and no listed key has that name or that public key. *)
Theorem AddSSHKey_requests sshKey (r : Session.t R) :
  let body := client.AddSSHKeyJSONRequestBody.Build
                (SSHKey.Name sshKey) (SSHKey.PublicKey sshKey) in
  (SSHKey.Name sshKey = "" ->
   AddSSHKey sshKey r = (Fail (Errorf "SSH key name is required" None), r)) /\
  (SSHKey.Name sshKey <> "" ->
   exists issued,
     Session.requests (snd (AddSSHKey sshKey r))
     = Session.requests r ++ client.ReqListSSHKeys :: issued /\
     (issued = [] \/
      issued = [client.ReqAddSSHKey body] /\
      exists keys r1,
        ListSSHKeys r = (Ok keys, r1) /\
        forall k, In k keys -> ~ matches sshKey k)).
Proof.
  intros body. split.
  - intros Hname. unfold AddSSHKey. rewrite Hname. reflexivity.
  - intros Hname. unfold AddSSHKey.
    destruct (String.eqb_spec (SSHKey.Name sshKey) "") as [He|_]; [contradiction|].
    unfold bind at 1.
    destruct (ListSSHKeys r) as [[keys|err] r1] eqn:Hlist.
    2:{ exists []. split; [|left; reflexivity].
        pose proof (lambdalabs_facts.send_requests
                      _ client.ReqListSSHKeys client.ListSSHKeysWithResponse r) as Hs.
        unfold ListSSHKeys, bind in Hlist.
        destruct (send client.ReqListSSHKeys client.ListSSHKeysWithResponse r)
          as [[res|e] s1]; cbn in Hs.
        - destruct (client.Response.JSON200 res); [discriminate|].
          destruct (client.Response.JSON401 res);
            [inversion Hlist; subst; exact Hs|].
          destruct (client.Response.JSON403 res); inversion Hlist; subst; exact Hs.
        - inversion Hlist; subst. exact Hs. }
    destruct (lambdalabs_facts.ListSSHKeys_Ok_inv r r1 keys Hlist)
      as (res & c1 & data & Hcall & H200 & Hkeys & Hr1).
    destruct (AddSSHKey_scan sshKey keys) as [verdict|] eqn:Hscan.
    + exists []. split; [|left; reflexivity]. cbn. rewrite Hr1. reflexivity.
    + exists [client.ReqAddSSHKey body]. split.
      * unfold bind, send, ret. fold body.
        destruct (client.AddSSHKeyWithResponse body (Session.client r1)) as [[resA|e] c2].
        -- destruct (client.Response.JSON200 resA), (client.Response.JSON401 resA),
             (client.Response.JSON403 resA), (client.Response.JSON400 resA);
             cbn; rewrite Hr1; cbn; rewrite <- app_assoc; reflexivity.
        -- cbn. rewrite Hr1. cbn. rewrite <- app_assoc. reflexivity.
      * right. split; [reflexivity|]. exists keys, r1. split; [reflexivity|].
        rewrite Hkeys in Hscan |- *. apply scan_None. exact Hscan.
Qed.

Lemma AddSSHKey_Ok_listed (ks : KeyStore cl) sshKey (r r1 : Session.t R) k :
  AddSSHKey sshKey r = (Ok k, r1) ->
  matches sshKey k /\
  exists keys r2, ListSSHKeys r1 = (Ok keys, r2) /\ In k keys.
Proof.
  unfold AddSSHKey at 1.
  destruct (String.eqb_spec (SSHKey.Name sshKey) "") as [He|Hname]; [discriminate|].
  unfold bind at 1.
  destruct (ListSSHKeys r) as [[keys|err] ra] eqn:Hlist; [|discriminate].
  destruct (lambdalabs_facts.ListSSHKeys_Ok_inv r ra keys Hlist)
    as (res & c1 & data & Hcall & H200 & Hkeys & Hra).
  destruct (AddSSHKey_scan sshKey keys) as [verdict|] eqn:Hscan.
  - intros H. inversion H; subst verdict r1. clear H.
    destruct (scan_Ok sshKey keys k Hscan) as [Hin Hm]. split; [exact Hm|].
    destruct (@list_again _ _ ks _ _ _ _ Hcall H200) as (res' & c2 & Hcall' & H200').
    exists keys. eexists. split; [|exact Hin].
    rewrite Hkeys. apply (lambdalabs_facts.ListSSHKeys_200 ra res'); [|exact H200'].
    rewrite Hra. exact Hcall'.
  - unfold bind, send, ret.
    set (body := client.AddSSHKeyJSONRequestBody.Build
                   (SSHKey.Name sshKey) (SSHKey.PublicKey sshKey)).
    assert (Hclient : Session.client ra = c1) by (rewrite Hra; reflexivity).
    rewrite Hclient.
    destruct (client.AddSSHKeyWithResponse body c1) as [[resA|err] c2] eqn:Hadd;
      [|discriminate].
    destruct (client.Response.JSON200 resA) as [d|] eqn:HA200.
    2:{ destruct (client.Response.JSON401 resA); [discriminate|].
        destruct (client.Response.JSON403 resA); [discriminate|].
        destruct (client.Response.JSON400 resA); discriminate. }
    intros H. inversion H; subst k r1. clear H.
    destruct (@list_after_add _ _ ks _ _ _ _ _ _ _ _ Hcall H200 Hadd HA200)
      as (Hdname & Hdpub & res' & c3 & Hcall' & H200').
    split.
    + left. cbn. exact Hdname.
    + exists (map toSSHKey (data ++ [d])). eexists. split.
      * apply (lambdalabs_facts.ListSSHKeys_200 _ res'); [exact Hcall'|exact H200'].
      * apply in_map. apply in_or_app. right. left. reflexivity.
Qed.

(** On an endpoint that keeps the keys it accepted, the key [AddSSHKey]
    returns has the requested name or the requested public key, and the
    provider lists it afterwards. *)
Theorem AddSSHKey_returns_listed_match (ks : KeyStore cl) sshKey (r r1 : Session.t R) k :
  AddSSHKey sshKey r = (Ok k, r1) ->
  matches sshKey k /\
  exists keys r2, ListSSHKeys r1 = (Ok keys, r2) /\ In k keys.
Proof. apply AddSSHKey_Ok_listed. exact ks. Qed.

End Facts.
End lambdalabs_more.

(** ** The session service, beyond the lifecycle properties above *)

Module server_more.
Import server.

(** Case analysis on whatever the goal still matches on. *)
Ltac split_match :=
  match goal with
  | |- context [match ?x with _ => _ end] =>
    lazymatch x with
    | context [match _ with _ => _ end] => fail
    | _ => destruct x eqn:?
    end
  end.

(** Decomposes a goal [only p c] along the structure of [c]. *)
Ltac only_step :=
  match goal with
  | |- only _ (bind _ _) => apply server_facts.only_bind; [|intro]
  | |- only _ (ret _) => apply server_facts.only_ret
  | |- only _ (query _ _) => apply server_facts.only_query; intros; reflexivity
  | |- only _ (provider _ _) => apply server_facts.only_provider; reflexivity
  | |- only _ (emit _) => apply server_facts.only_emit; reflexivity
  | |- only _ (randomPhrase _ _) => apply server_facts.only_randomPhrase
  | |- only _ (fetchCredentials _ _ _) =>
    apply server_facts.fetchCredentials_only; reflexivity
  | |- only _ (registerCredentials _ _) =>
    apply server_facts.registerCredentials_only; reflexivity
  | |- only _ (match ?x with _ => _ end) => destruct x
  | |- only _ (if ?x then _ else _) => destruct x
  end.

Section Facts.
Context {env : Env} {DB C : Type} {Q : db.Querier DB} {rti : runtime.Initializer C}.

Local Abbreviation W := (World.t DB C).

(** *** registerCredentials *)

(** [registerCredentials] lists the provider's keys and adds the key
    only when no listed key has its name: with such a key listed it
    returns nil after the listing alone; otherwise it makes one call of
    [AddSSHKey] for the key and returns nil exactly when that call
    succeeds; when the listing fails it returns an error that wraps the
    listing error and adds nothing. *)
Theorem registerCredentials_adds_only_unlisted rt key (w : W) :
  let listed keys := existsb (fun k => String.eqb (SSHKey.Name k) (SSHKey.Name key)) keys in
  (forall err c1,
      runtime.ListSSHKeys rt (World.cloud w) = (Fail err, c1) ->
      registerCredentials rt key w
      = (Some (Errorf "failed to list ssh keys from provider: %w" (Some err)),
         World.Build (World.store w) c1 (World.trace w ++ [RListSSHKeys]) (World.seed w))) /\
  (forall keys c1,
      runtime.ListSSHKeys rt (World.cloud w) = (Ok keys, c1) ->
      listed keys = true ->
      registerCredentials rt key w
      = (None,
         World.Build (World.store w) c1 (World.trace w ++ [RListSSHKeys]) (World.seed w))) /\
  (forall keys c1,
      runtime.ListSSHKeys rt (World.cloud w) = (Ok keys, c1) ->
      listed keys = false ->
      let added := runtime.AddSSHKey rt key c1 in
      registerCredentials rt key w
      = (match fst added with
         | Ok _ => None
         | Fail err => Some (Errorf "failed to add ssh key to provider: %w" (Some err))
         end,
         World.Build (World.store w) (snd added)
                     (World.trace w ++ [RListSSHKeys; RAddSSHKey key]) (World.seed w))).
Proof.
  intros listed. unfold registerCredentials, bind, provider, ret.
  split; [|split].
  - intros err c1 H. rewrite H. reflexivity.
  - intros keys c1 H Hl. rewrite H. unfold listed in Hl. rewrite Hl. reflexivity.
  - intros keys c1 H Hl. rewrite H. unfold listed in Hl. rewrite Hl.
    cbn [World.cloud World.store World.trace World.seed].
    destruct (runtime.AddSSHKey rt key c1) as [[k|err] c2];
      cbn; rewrite <- app_assoc; reflexivity.
Qed.

(** *** fetchCredentials *)

(** Every error of [fetchCredentials] is a structured error with code
    400 or 500, without provider and without suggestion. *)
Theorem fetchCredentials_fails_with_400_or_500
        accountID sshKeyName sshPublicKey (w : W) e :
  fst (fetchCredentials accountID sshKeyName sshPublicKey w) = Fail e ->
  exists code message cause,
    e = Error code message "" "" cause /\ (code = 400 \/ code = 500)%Z.
Proof.
  unfold fetchCredentials, fetchCredentials_byName, fetchCredentials_byPublicKey,
    saveSSHKey, getFailed, bind, query, randomPhrase, ret.
  repeat split_match; cbn [fst]; intros H; inversion H; subst;
    do 3 eexists; (split; [reflexivity|auto]).
Qed.


(** [fetchCredentials] past a lookup by name that found nothing. *)
Lemma fetchCredentials_after_miss accountID sshKeyName sshPublicKey (w : W) d1 :
  missesByName accountID sshKeyName (World.store w) d1 ->
  (sshKeyName = None -> sshPublicKey <> None) ->
  let w1 := World.Build d1 (World.cloud w)
                        (World.trace w ++ nameLookup accountID sshKeyName) (World.seed w) in
  fetchCredentials accountID sshKeyName sshPublicKey w =
  match sshPublicKey with
  | None => (Fail (Error 400 "SSH key not found" "" "" None), w1)
  | Some pub =>
    match ssh_ParseAuthorizedKey pub with
    | Fail _ => (Fail (Error 400 "Invalid SSH public key" "" "" None), w1)
    | Ok pk =>
      let params := db.SSHKeyGetByPublicKeyParams.Build
                      (ssh_MarshalAuthorizedKey pk) accountID in
      match fst (db.SSHKeyGetByPublicKey params d1) with
      | Fail ErrNoRows | Ok _ => fetchCredentials accountID sshKeyName sshPublicKey w
      | Fail err =>
        (Fail (getFailed err),
         World.Build (snd (db.SSHKeyGetByPublicKey params d1)) (World.cloud w)
                     (World.trace w ++ nameLookup accountID sshKeyName
                        ++ [QSSHKeyGetByPublicKey params])
                     (World.seed w))
      end
    end
  end.
Proof.
  intros Hmiss Hsome w1.
  assert (Hrun : fetchCredentials accountID sshKeyName sshPublicKey w =
                 bind (fetchCredentials_byName accountID sshKeyName)
                      (fun byName =>
                         match byName with
                         | Some r => ret r
                         | None =>
                           bind (fetchCredentials_byPublicKey accountID sshPublicKey)
                                (fun byPublicKey =>
                                   match byPublicKey with
                                   | Some r => ret r
                                   | None =>
                                     match sshPublicKey with
                                     | None => ret (Fail (Error 400 "SSH key not found" "" "" None))
                                     | Some pub =>
                                       bind (match sshKeyName with
                                             | Some (String a n) => ret (String a n)
                                             | _ => bind (randomPhrase 4 "-")
                                                         (fun phrase => ret ("uw:" ++ phrase)%string)
                                             end)
                                            (fun name =>
                                               bind (saveSSHKey accountID name pub)
                                                    (fun e =>
                                                       match e with
                                                       | Some _ => ret (Fail (Error 500 "Failed to save SSH key" "" "" None))
                                                       | None => ret (Ok (SSHKey.Build name None (Some pub) None))
                                                       end))
                                     end
                                   end)
                         end) w).
  { unfold fetchCredentials. destruct sshKeyName, sshPublicKey; try reflexivity.
    exfalso. apply Hsome; reflexivity. }
  destruct sshPublicKey as [pub|].
  - destruct (ssh_ParseAuthorizedKey pub) as [pk|e0] eqn:Hparse.
    + cbn zeta.
      destruct (db.SSHKeyGetByPublicKey
                  (db.SSHKeyGetByPublicKeyParams.Build (ssh_MarshalAuthorizedKey pk) accountID)
                  d1) as [[k|err] d2] eqn:Hlookup; cbn [fst snd]; [reflexivity|].
      destruct err; [reflexivity| | |];
        (rewrite Hrun; unfold bind at 1;
         rewrite (server_facts.byName_misses _ _ _ _ Hmiss);
         unfold bind at 1; unfold fetchCredentials_byPublicKey; rewrite Hparse;
         unfold bind at 1; unfold query at 1; cbn [World.store]; rewrite Hlookup;
         cbn; rewrite <- app_assoc; reflexivity).
    + rewrite Hrun. unfold bind at 1. rewrite (server_facts.byName_misses _ _ _ _ Hmiss).
      unfold bind at 1. unfold fetchCredentials_byPublicKey. rewrite Hparse. reflexivity.
  - rewrite Hrun. unfold bind at 1. rewrite (server_facts.byName_misses _ _ _ _ Hmiss).
    reflexivity.
Qed.

(** When the lookup by name finds nothing: without a public key
    [fetchCredentials] answers 400 "SSH key not found"; with a public
    key that does not parse it answers 400 "Invalid SSH public key"
    without asking the store for it.  In both cases the lookup by name is
    the only call made on the store. *)
Theorem fetchCredentials_rejects_unknown_name_and_bad_key
        accountID name (w : W) d1 :
  db.SSHKeyGetByName (db.SSHKeyGetByNameParams.Build name accountID) (World.store w)
  = (Fail ErrNoRows, d1) ->
  let w1 := World.Build d1 (World.cloud w)
                        (World.trace w
                           ++ [QSSHKeyGetByName
                                 (db.SSHKeyGetByNameParams.Build name accountID)])
                        (World.seed w) in
  fetchCredentials accountID (Some name) None w
  = (Fail (Error 400 "SSH key not found" "" "" None), w1) /\
  forall pub cause,
    ssh_ParseAuthorizedKey pub = Fail cause ->
    fetchCredentials accountID (Some name) (Some pub) w
    = (Fail (Error 400 "Invalid SSH public key" "" "" None), w1).
Proof.
  intros Hmiss w1. split.
  - rewrite (fetchCredentials_after_miss accountID (Some name) None w d1 Hmiss);
      [reflexivity|discriminate].
  - intros pub cause Hparse.
    rewrite (fetchCredentials_after_miss accountID (Some name) (Some pub) w d1 Hmiss);
      [|discriminate].
    rewrite Hparse. reflexivity.
Qed.

(** *** Create *)

(** [Create] never asks the provider to terminate a node or to watch
    one. *)
Lemma Create_calls s projectID params (w : W) :
  exists issued,
    World.trace (snd (Create s projectID params w)) = World.trace w ++ issued /\
    existsb isTerminateNode issued = false /\
    existsb isWatch issued = false.
Proof.
  assert (H : only (fun ev => negb (isTerminateNode ev) && negb (isWatch ev))
                   (Create s projectID params : M W _)).
  { unfold Create. repeat only_step. }
  destruct (H w) as (issued & Htrace & Hp). exists issued. split; [exact Htrace|].
  clear Htrace. induction issued as [|ev issued IH]; [split; reflexivity|].
  cbn in Hp |- *. apply andb_prop in Hp. destruct Hp as [Hev Hrest].
  apply andb_prop in Hev. destruct Hev as [Ht Hw].
  destruct (IH Hrest) as [IHt IHw].
  destruct (isTerminateNode ev), (isWatch ev); try discriminate. cbn. auto.
Qed.

(** The calls made while the node is provisioned end with [InitNode]. *)
Lemma provisioned_trace s params (w : W) rt sshKey node w4 :
  provisioned s params w rt sshKey node w4 ->
  exists before,
    World.trace w4
    = World.trace w
        ++ before
        ++ [RInitNode sshKey (types.SessionCreateParams.NodeTypeID params)
                      (types.SessionCreateParams.Region params)].
Proof.
  intros (w1 & w2 & w3 & Hinit & Hfetch & Hreg & Hnode).
  assert (H1 : exists i1, World.trace w1 = World.trace w ++ i1).
  { unfold provider in Hinit.
    destruct (runtime.Initialize _ _ (World.cloud w)) as [r c1].
    inversion Hinit. eexists. reflexivity. }
  assert (H2 : exists i2, World.trace w2 = World.trace w1 ++ i2).
  { destruct (server_facts.fetchCredentials_only
                (fun _ => true) (SessionService.cid s)
                (types.SessionCreateParams.SSHKeyName params)
                (types.SessionCreateParams.SSHPublicKey params)
                (fun _ => eq_refl) (fun _ => eq_refl) (fun _ _ => eq_refl) w1)
      as (i2 & Ht & _).
    rewrite Hfetch in Ht. exists i2. exact Ht. }
  assert (H3 : exists i3, World.trace w3 = World.trace w2 ++ i3).
  { destruct (server_facts.registerCredentials_only
                (fun _ => true) rt sshKey eq_refl (fun _ => eq_refl) w2)
      as (i3 & Ht & _).
    rewrite Hreg in Ht. exists i3. exact Ht. }
  destruct H1 as [i1 H1], H2 as [i2 H2], H3 as [i3 H3].
  unfold provider in Hnode.
  destruct (runtime.InitNode rt sshKey _ _ (World.cloud w3)) as [r c4].
  inversion Hnode as [[Hr Hw4]]. cbn [World.trace].
  exists (i1 ++ i2 ++ i3). rewrite H3, H2, H1, <- !app_assoc. reflexivity.
Qed.

(** What [Create] does once the node is provisioned. *)
Lemma Create_provisioned s projectID params (w : W) rt sshKey node w4 :
  provisioned s params w rt sshKey node w4 ->
  let dbp := insertFor s projectID params sshKey node (World.seed w4) in
  let inserted := db.SessionCreate dbp (World.store w4) in
  Create s projectID params w
  = (match fst inserted with
     | Ok sessionID =>
       Ok (Session.Build sessionID (Node.KeyPair node) StatusInitializing None
                         (Node.TypeID node) (Node.Region node) (Node.Provider node))
     | Fail err => Fail (Errorf "failed to create session in db: %w" (Some err))
     end,
     World.Build (snd inserted) (World.cloud w4)
                 (World.trace w4 ++ [QSessionCreate dbp]) (N.succ (World.seed w4))).
Proof.
  intros (w1 & w2 & w3 & Hinit & Hfetch & Hreg & Hnode). cbn zeta.
  unfold Create, bind at 1. rewrite Hinit.
  unfold bind at 1. rewrite Hfetch.
  unfold bind at 1. rewrite Hreg.
  unfold bind at 1. rewrite Hnode.
  unfold bind, randomPhrase, query, ret, insertFor.
  cbn [World.store World.cloud World.trace World.seed].
  destruct (db.SessionCreate _ (World.store w4)) as [[id|err] d5]; reflexivity.
Qed.

(** When the four steps before the insert have succeeded and the insert
    fails, [Create] returns an error that wraps the insert's error; the
    provider is left as [InitNode] left it, with the node provisioned,
    and [Create] has not asked it to terminate that node. *)
Theorem Create_leaves_node_when_insert_fails
        s projectID params (w : W) rt sshKey node w4 err d5 :
  provisioned s params w rt sshKey node w4 ->
  db.SessionCreate (insertFor s projectID params sshKey node (World.seed w4))
                   (World.store w4) = (Fail err, d5) ->
  fst (Create s projectID params w)
  = Fail (Errorf "failed to create session in db: %w" (Some err)) /\
  World.cloud (snd (Create s projectID params w)) = World.cloud w4 /\
  exists issued,
    World.trace (snd (Create s projectID params w)) = World.trace w ++ issued /\
    existsb isInitNode issued = true /\
    existsb isTerminateNode issued = false.
Proof.
  intros Hprov Hins.
  pose proof (Create_provisioned s projectID params w rt sshKey node w4 Hprov) as Hrun.
  cbn zeta in Hrun. rewrite Hins in Hrun. cbn [fst snd] in Hrun.
  destruct (Create_calls s projectID params w) as (issued & Htrace & Hterm & _).
  destruct (provisioned_trace s params w rt sshKey node w4 Hprov) as (before & Hbefore).
  rewrite Hrun in Htrace |- *. cbn [fst snd World.cloud World.trace] in *.
  split; [reflexivity|]. split; [reflexivity|].
  exists issued. split; [exact Htrace|]. split; [|exact Hterm].
  rewrite Hbefore, <- !app_assoc in Htrace. apply app_inv_head in Htrace.
  rewrite <- Htrace, existsb_app. cbn. apply orb_true_r.
Qed.

(** When the four steps before the insert and the insert succeed,
    [Create] returns a session with the id the store generated, status
    initializing, and the key, node type, region and provider of the
    node; the row is inserted for the service's account and the
    requested project and provider, with the id and region of the node
    and the name of the key; nothing else is written after the node was
    provisioned. *)
Theorem Create_returns_provisioned_session
        s projectID params (w : W) rt sshKey node w4 sessionID d5 :
  provisioned s params w rt sshKey node w4 ->
  db.SessionCreate (insertFor s projectID params sshKey node (World.seed w4))
                   (World.store w4) = (Ok sessionID, d5) ->
  let dbp := insertFor s projectID params sshKey node (World.seed w4) in
  fst (Create s projectID params w)
  = Ok (Session.Build sessionID (Node.KeyPair node) StatusInitializing None
                      (Node.TypeID node) (Node.Region node) (Node.Provider node)) /\
  World.store (snd (Create s projectID params w)) = d5 /\
  World.trace (snd (Create s projectID params w)) = World.trace w4 ++ [QSessionCreate dbp] /\
  db.SessionCreateParams.NodeID dbp = Node.ID node /\
  db.SessionCreateParams.CreatedBy dbp = SessionService.cid s /\
  db.SessionCreateParams.ProjectID dbp = projectID /\
  db.SessionCreateParams.Provider dbp = types.SessionCreateParams.Provider params /\
  db.SessionCreateParams.Region dbp = Node.Region node /\
  db.SessionCreateParams.SshKeyName dbp = SSHKey.Name sshKey.
Proof.
  intros Hprov Hins dbp.
  pose proof (Create_provisioned s projectID params w rt sshKey node w4 Hprov) as Hrun.
  cbn zeta in Hrun. rewrite Hins in Hrun.
  rewrite Hrun. cbn. repeat split; reflexivity.
Qed.

(** *** Watch *)

(** [Watch] returns an error only before the watcher is started: then
    it has written nothing to the store and has not asked the runtime
    for a feed.  When it returns nil it has asked for the feed of the
    node of the session row, and every status it writes, on any run, is
    written to the session it was asked to watch. *)
Theorem Watch_writes_only_its_session_once_started s sessionID (w : W) :
  exists issued,
    World.trace (snd (Watch s sessionID w)) = World.trace w ++ issued /\
    Forall (fun wr => db.SessionStatusUpdateParams.ID (fst wr) = sessionID)
           (statusWrites issued) /\
    (forall e, fst (Watch s sessionID w) = Some e ->
               existsb isStoreWrite issued = false /\ existsb isWatch issued = false) /\
    (fst (Watch s sessionID w) = None ->
     exists session,
       fst (db.SessionGet sessionID (World.store w)) = Ok session /\
       In (RWatch (db.UnweaveSession.NodeID session)) issued).
Proof.
  unfold Watch, bind, query, provider, emit, ret.
  destruct (db.SessionGet sessionID (World.store w)) as [[session|err] d1].
  2:{ exists [QSessionGet sessionID].
      destruct err; cbn; (split; [reflexivity|]); (split; [constructor|]);
        (split; [auto|discriminate]). }
  cbn [World.store World.cloud World.trace World.seed].
  destruct (runtime.Initialize (SessionService.cid s) (db.UnweaveSession.Provider session)
                               (World.cloud w)) as [[rt|err] c1].
  2:{ exists [QSessionGet sessionID;
              RInitialize (SessionService.cid s) (db.UnweaveSession.Provider session)].
      cbn. rewrite <- app_assoc. cbn. split; [reflexivity|]. split; [constructor|].
      split; [auto|discriminate]. }
  cbn [World.store World.cloud World.trace World.seed].
  destruct (runtime.Watch rt (db.UnweaveSession.NodeID session) c1) as [feed c2].
  cbn [World.store World.cloud World.trace World.seed].
  match goal with
  | |- context [Watch_loop sessionID feed ?st] =>
    destruct (server_facts.Watch_loop_writes sessionID feed st)
      as (issued & rest & Htrace & _ & Hids & _);
      destruct (Watch_loop sessionID feed st) as [u w4]
  end.
  cbn [fst snd World.trace] in *.
  exists ([QSessionGet sessionID;
           RInitialize (SessionService.cid s) (db.UnweaveSession.Provider session);
           RWatch (db.UnweaveSession.NodeID session);
           LogInfo "Starting to watch session %s"] ++ issued).
  split; [rewrite Htrace, <- !app_assoc; reflexivity|].
  split; [exact Hids|]. split; [discriminate|].
  intros _. exists session. split; [reflexivity|]. cbn. auto.
Qed.

(** *** Terminate *)

(** When [Terminate] returns an error it has written nothing to the
    store: the store is as the read of the session row left it.  In
    particular, when the provider fails to terminate the node, the
    error wraps the provider's error and the session is not marked
    terminated. *)
Theorem Terminate_failure_writes_nothing s sessionID (w : W) e :
  fst (Terminate s sessionID w) = Some e ->
  (exists issued,
      World.trace (snd (Terminate s sessionID w)) = World.trace w ++ issued /\
      existsb isStoreWrite issued = false) /\
  World.store (snd (Terminate s sessionID w))
  = snd (db.SessionGet sessionID (World.store w)) /\
  (forall sess d1 rt c1 err c2,
      db.SessionGet sessionID (World.store w) = (Ok sess, d1) ->
      runtime.Initialize (SessionService.cid s) (db.UnweaveSession.Provider sess)
                         (World.cloud w) = (Ok rt, c1) ->
      runtime.TerminateNode rt (db.UnweaveSession.NodeID sess) c1 = (Some err, c2) ->
      e = Errorf "failed to terminate node: %w" (Some err)).
Proof.
  unfold Terminate, bind, query, provider, emit, ret.
  destruct (db.SessionGet sessionID (World.store w)) as [[sess|err0] d1].
  2:{ intros H. split; [|split].
      - exists [QSessionGet sessionID]. destruct err0; cbn; auto.
      - destruct err0; reflexivity.
      - intros sess d0 rt c1 err c2 Hget. discriminate Hget. }
  cbn [World.store World.cloud World.trace World.seed].
  destruct (runtime.Initialize (SessionService.cid s) (db.UnweaveSession.Provider sess)
                               (World.cloud w)) as [[rt|err0] c1] eqn:Hi.
  2:{ intros H. split; [|split].
      - eexists. cbn. rewrite <- app_assoc. split; reflexivity.
      - reflexivity.
      - intros sess0 d0 rt c0 err c2 Hget Hinit. inversion Hget; subst.
        rewrite Hi in Hinit. discriminate Hinit. }
  cbn [World.store World.cloud World.trace World.seed].
  destruct (runtime.TerminateNode rt (db.UnweaveSession.NodeID sess) c1) as [[err0|] c2] eqn:Hterm.
  - intros H. split; [|split].
    + eexists. cbn. rewrite <- !app_assoc. split; reflexivity.
    + reflexivity.
    + intros sess0 d0 rt0 c0 err c3 Hget Hinit Ht.
      inversion Hget; subst. rewrite Hi in Hinit. inversion Hinit; subst.
      rewrite Hterm in Ht.
      inversion Ht; subst. cbn in H. inversion H. reflexivity.
  - cbn [World.store World.cloud World.trace World.seed].
    destruct (db.SessionStatusUpdate _ d1) as [[err0|] d2]; cbn; discriminate.
Qed.

End Facts.
End server_more.

(** ** The service on the LambdaLabs adapter, the environment
       initializer and the HTTP boundary *)

Module composed_more.
Import server.

Section OnLambdaLabs.
Context {env : Env} {DB R : Type} {Q : db.Querier DB} {cl : client.ClientWithResponses R}.

Local Abbreviation W := (World.t DB (lambdalabs.Session.t R)).

(** After [registerCredentials] has succeeded on the LambdaLabs runtime
    of an endpoint that keeps its keys, the provider lists a key that has
    the name of the key or its public key. *)
Theorem registerCredentials_leaves_a_matching_key (ks : KeyStore cl) watch key (w w' : W) :
  registerCredentials (main.lambdalabsRuntime watch) key w = (None, w') ->
  exists keys r2 k,
    lambdalabs.ListSSHKeys (World.cloud w') = (Ok keys, r2) /\
    In k keys /\ matches key k.
Proof.
  unfold registerCredentials, bind, provider, ret.
  cbn [runtime.ListSSHKeys runtime.AddSSHKey main.lambdalabsRuntime].
  destruct (lambdalabs.ListSSHKeys (World.cloud w)) as [[keys|err] c1] eqn:Hlist;
    [|discriminate].
  cbn [World.store World.cloud World.trace World.seed].
  destruct (existsb (fun k => String.eqb (SSHKey.Name k) (SSHKey.Name key)) keys) eqn:Hlisted.
  - intros H. inversion H; subst w'. clear H. cbn [World.cloud].
    apply existsb_exists in Hlisted. destruct Hlisted as (k & Hin & Hname).
    apply String.eqb_eq in Hname.
    destruct (lambdalabs_facts.ListSSHKeys_Ok_inv _ _ _ Hlist)
      as (res & c & data & Hcall & H200 & Hkeys & Hc1).
    destruct (@list_again _ _ ks _ _ _ _ Hcall H200) as (res' & c2 & Hcall' & H200').
    exists keys. eexists. exists k. split; [|split; [exact Hin|left; exact Hname]].
    rewrite Hkeys. apply (lambdalabs_facts.ListSSHKeys_200 c1 res'); [|exact H200'].
    rewrite Hc1. exact Hcall'.
  - cbn [World.store World.cloud World.trace World.seed].
    destruct (lambdalabs.AddSSHKey key c1) as [[k|err] c2] eqn:Hadd;
      cbn [World.store World.cloud World.trace World.seed]; intros H;
      [|discriminate H].
    inversion H; subst w'. clear H. cbn [World.cloud].
    destruct (lambdalabs_more.AddSSHKey_Ok_listed ks key c1 c2 k Hadd)
      as (Hm & keys' & r2 & Hlist' & Hin).
    exists keys', r2, k. auto.
Qed.

(** The environment initializer supports LambdaLabs only: for any other
    provider, Unweave included, [Create] fails with an error wrapping
    "provider not supported" after the call of the initializer alone,
    with store and provider untouched, although [Bind] accepts a request
    for Unweave; the HTTP boundary renders that failure with status 500
    and the fallback message. *)
Theorem Create_with_unsupported_provider cfg watch s projectID params (w : W) fallback :
  types.SessionCreateParams.Provider params <> LambdaLabsProvider ->
  let unsupported := Errorf "%q provider not supported in the env initializer" None in
  let err := Errorf "failed to create runtime: %w" (Some unsupported) in
  Create (rti := main.EnvInitializer cfg watch) s projectID params w
  = (Fail err,
     World.Build (World.store w) (World.cloud w)
                 (World.trace w
                    ++ [RInitialize (SessionService.cid s)
                                    (types.SessionCreateParams.Provider params)])
                 (World.seed w)) /\
  http.ErrHTTPError (Some err) fallback
  = Some (http.HTTPError.Build
            500 (if String.eqb fallback "" then "Internal server error" else fallback)
            "" "" (Some err)) /\
  (types.SessionCreateParams.Provider params = UnweaveProvider ->
   http.Bind params = None).
Proof.
  intros Hp unsupported err. split; [|split].
  - unfold Create, bind, provider, ret.
    cbn [runtime.Initialize main.EnvInitializer].
    destruct (String.eqb_spec (types.SessionCreateParams.Provider params) LambdaLabsProvider)
      as [He|_]; [contradiction|].
    reflexivity.
  - reflexivity.
  - intros Hu. unfold http.Bind. rewrite Hu. reflexivity.
Qed.

End OnLambdaLabs.

(** [Bind] accepts exactly the requests whose provider is LambdaLabs or
    Unweave, and every rejection is an HTTP error of code 400. *)
Theorem Bind_accepts_known_providers {env : Env} (params : types.SessionCreateParams.t) :
  (http.Bind params = None <->
   types.SessionCreateParams.Provider params = LambdaLabsProvider \/
   types.SessionCreateParams.Provider params = UnweaveProvider) /\
  (forall e, http.Bind params = Some e -> http.HTTPError.Code e = 400%Z).
Proof.
  unfold http.Bind.
  destruct (String.eqb_spec (types.SessionCreateParams.Provider params) "") as [He|Hne].
  - split.
    + split; [discriminate|]. rewrite He. intros [H|H]; discriminate H.
    + intros e H. inversion H. reflexivity.
  - destruct (String.eqb_spec (types.SessionCreateParams.Provider params) LambdaLabsProvider)
      as [Hl|Hl];
      destruct (String.eqb_spec (types.SessionCreateParams.Provider params) UnweaveProvider)
      as [Hu|Hu]; cbn [negb andb]; split;
        try (split; [auto|reflexivity]);
        try (intros e H; inversion H; reflexivity);
        try (intros e H; discriminate H).
    split; [discriminate|]. intros [H|H]; contradiction.
Qed.

(** [ErrHTTPError] gives nil for nil.  A structured error keeps its
    code, message, suggestion, provider and cause however many times it
    was wrapped with %w.  An error with no structured error on its chain
    of causes gives status 500 with the fallback message, or "Internal
    server error" when the fallback is empty, and the error itself as
    cause. *)
Theorem ErrHTTPError_renders_first_structured_error fallback :
  http.ErrHTTPError None fallback = None /\
  (forall formats code message suggestion provider cause,
      http.ErrHTTPError
        (Some (wrapped formats (Error code message suggestion provider cause))) fallback
      = Some (http.HTTPError.Build code message suggestion provider cause)) /\
  (forall err,
      http.errors_As err = None ->
      http.ErrHTTPError (Some err) fallback
      = Some (http.HTTPError.Build
                500 (if String.eqb fallback "" then "Internal server error" else fallback)
                "" "" (Some err))) /\
  (forall formats, http.errors_As (wrapped formats ErrNoRows) = None).
Proof.
  split; [reflexivity|]. split; [|split].
  - intros formats code message suggestion provider cause. unfold http.ErrHTTPError.
    assert (H : http.errors_As (wrapped formats (Error code message suggestion provider cause))
                = Some (http.HTTPError.Build code message suggestion provider cause)).
    { induction formats as [|f formats IH]; [reflexivity|]. cbn. exact IH. }
    rewrite H. reflexivity.
  - intros err H. unfold http.ErrHTTPError. rewrite H. reflexivity.
  - induction formats as [|f formats IH]; [reflexivity|]. cbn. exact IH.
Qed.

Section Rendering.
Context {env : Env} {DB C : Type} {Q : db.Querier DB} {rti : runtime.Initializer C}.

(** When a step of [Create] before the insert fails with an error that
    has a structured error on its chain, the HTTP boundary renders the
    failure of [Create] exactly as it would render that error: the
    wrapping by [Create] does not hide the code. *)
Theorem Create_failure_renders_step_error s projectID params (w : World.t DB C) e h fallback :
  stepFails s params w e ->
  http.errors_As e = Some h ->
  exists err,
    fst (Create s projectID params w) = Fail err /\
    http.ErrHTTPError (Some err) fallback = Some h /\
    http.Render h = (if Z.eqb (http.HTTPError.Code h) 500
                     then http.LevelError else http.LevelWarn,
                     http.HTTPError.Code h).
Proof.
  intros Hfail Has.
  destruct (server_facts.Create_stepFails s projectID params w e Hfail)
    as (c & format & Hrun & _).
  exists (Errorf format (Some e)). rewrite Hrun. split; [reflexivity|].
  split; [|reflexivity].
  unfold http.ErrHTTPError. cbn [http.errors_As]. rewrite Has. reflexivity.
Qed.

End Rendering.

End composed_more.

(** ** The service on the statements of queries.sql *)

Module sqlstore_more.
Import server.

#[local] Existing Instance sqlstore.querier.






(** *** fetchCredentials over the key table *)

Section Credentials.
Context {env : Env} {C : Type}.



End Credentials.

(** *** List over SessionsGet *)

Lemma In_insertByCreatedAt x s l :
  In x (sqlstore.insertByCreatedAt s l) -> x = s \/ In x l.
Proof.
  induction l as [|s' l IH]; cbn.
  - intros [H|[]]. left. auto.
  - destruct (Z.leb (db.UnweaveSession.CreatedAt s') (db.UnweaveSession.CreatedAt s)).
    + intros [H|H]; [left; auto|right; exact H].
    + intros [H|H]; [right; left; exact H|].
      destruct (IH H) as [He|Hin]; [left; exact He|right; right; exact Hin].
Qed.

Lemma In_orderByCreatedAtDesc x l :
  In x (sqlstore.orderByCreatedAtDesc l) -> In x l.
Proof.
  induction l as [|s l IH]; cbn; [auto|].
  intros H. apply In_insertByCreatedAt in H.
  destruct H as [H|H]; [left; auto|right; apply IH; exact H].
Qed.

Lemma In_page A (x : A) limit offset l :
  In x (firstn limit (skipn offset l)) -> In x l.
Proof.
  intros H.
  rewrite <- (firstn_skipn offset l). apply in_or_app. right.
  rewrite <- (firstn_skipn limit (skipn offset l)). apply in_or_app. left. exact H.
Qed.

(** The rows [SessionsGet] answers with: at most the limit, each the id
    and status of a session row of the project. *)
Lemma SessionsGet_rows arg (d : sqlstore.t) rows d' :
  db.SessionsGet arg d = (Ok rows, d') ->
  List.length rows <= Z.to_nat (db.SessionsGetParams.Limit arg) /\
  forall row, In row rows ->
              exists s, In s (sqlstore.sessions d) /\
                        db.UnweaveSession.ProjectID s = db.SessionsGetParams.ProjectID arg /\
                        db.SessionsGetRow.ID row = db.UnweaveSession.ID s /\
                        db.SessionsGetRow.Status row = db.UnweaveSession.Status s.
Proof.
  cbn. unfold sqlstore.SessionsGet, sqlstore.run.
  destruct (sqlstore.broken d sqlstore.StSessionsGet); [discriminate|].
  intros H. inversion H; subst d'. clear H. split.
  - apply firstn_le_length.
  - intros row Hin. apply In_page in Hin. apply in_flat_map in Hin.
    destruct Hin as (s & Hs & Hrow).
    apply In_orderByCreatedAtDesc in Hs. apply filter_In in Hs.
    destruct Hs as [Hs Hproject]. apply N.eqb_eq in Hproject.
    exists s. split; [exact Hs|]. split; [exact Hproject|].
    destruct (filter _ (sqlstore.ssh_keys d)) as [|k ks].
    + destruct Hrow as [Hrow|[]]. subst row. split; reflexivity.
    + destruct Hrow as [Hrow|Hrow]; [subst row; split; reflexivity|].
      apply in_map_iff in Hrow. destruct Hrow as (k' & Hrow & _).
      subst row. split; reflexivity.
Qed.

Section OnStore.
Context {env : Env} {C : Type} {rti : runtime.Initializer C}.

(** On the statements of queries.sql, [List] returns at most 100
    sessions, whatever the project holds; each one has the id of a
    session row of the requested project and, when terminated sessions
    are not asked for, that row is not terminated. *)
Theorem List_returns_one_page_of_the_project
        s projectID listTerminated (w : World.t sqlstore.t C) res :
  fst (List s projectID listTerminated w) = Ok res ->
  List.length res <= 100 /\
  forall sess, In sess res ->
    exists row, In row (sqlstore.sessions (World.store w)) /\
                db.UnweaveSession.ID row = Session.ID sess /\
                db.UnweaveSession.ProjectID row = projectID /\
                (listTerminated = false ->
                 db.UnweaveSession.Status row <> db.UnweaveSessionStatusTerminated).
Proof.
  unfold List, bind, query, ret.
  destruct (db.SessionsGet (db.SessionsGetParams.Build projectID 100 0) (World.store w))
    as [[rows|err] d'] eqn:Hget; [|discriminate].
  destruct (SessionsGet_rows _ _ _ _ Hget) as [Hlen Hrows].
  cbn [fst]. intros H. inversion H; subst res. clear H.
  rewrite server_facts.List_loop_filter. cbn [app]. split.
  - rewrite length_map.
    apply (Nat.le_trans _ (List.length rows)); [apply filter_length_le|exact Hlen].
  - intros sess Hin. apply in_map_iff in Hin. destruct Hin as (r & Hsess & Hin).
    apply filter_In in Hin. destruct Hin as [Hin Hkeep].
    destruct (Hrows r Hin) as (row & Hrow & Hproject & Hid & Hstatus).
    exists row. split; [exact Hrow|]. split; [subst sess; cbn; auto|].
    split; [exact Hproject|].
    intros ->. cbn in Hkeep. unfold terminated in Hkeep. rewrite Hstatus in Hkeep.
    intros Heq. rewrite Heq in Hkeep. discriminate.
Qed.

End OnStore.

End sqlstore_more.

(** ** The further properties on the fixtures *)

Module more_on_fixtures.
Import server fixture.

#[local] Existing Instance fixture.env.
#[local] Existing Instance sqlstore.querier.
#[local] Existing Instance fixture.endpoint.clientWithResponses.
#[local] Existing Instance fixture.initializer.





(** Without a region and with an endpoint that cannot be reached:
    [InitNode] fails after the catalog request, with the transport error
    wrapped twice. *)
Lemma InitNode_offline :
  let sshKey := key "a" alicePublicKey in
  exists err r1,
    lambdalabs.InitNode (cl := unreachable) sshKey "Y" None offline
    = (Fail (Errorf "failed to list instance availability, err: %w" (Some err)), r1) /\
    lambdalabs.Session.requests r1 = [client.ReqInstanceTypes].
Proof.
  intros sshKey. eexists. eexists.
  apply (lambdalabs_more.InitNode_without_catalog (cl := unreachable) sshKey "Y" offline).
  reflexivity.
Defined.

(** Terminating the running instance i-0 succeeds with one request. *)
Lemma TerminateNode_on_running :
  fst (lambdalabs.TerminateNode "i-0" running) = None /\
  lambdalabs.Session.requests (snd (lambdalabs.TerminateNode "i-0" running))
  = [client.ReqTerminateInstance (client.TerminateInstanceJSONRequestBody.Build ["i-0"])].
Proof.
  destruct (lambdalabs_more.TerminateNode_outcomes
              (cl := endpoint.clientWithResponses) "i-0" running)
    as (Hrequests & _ & Hanswered).
  destruct (Hanswered _ _ eq_refl) as [Hiff _].
  split.
  - apply Hiff. discriminate.
  - exact Hrequests.
Defined.

(** A key without name is refused before any request; a key named a
    is looked for in the listing first. *)
Lemma AddSSHKey_requests_on_endpoint :
  lambdalabs.AddSSHKey (key "" alicePublicKey) (cloud [])
  = (Fail (Errorf "SSH key name is required" None), cloud []) /\
  exists issued,
    lambdalabs.Session.requests
      (snd (lambdalabs.AddSSHKey (key "a" alicePublicKey) (cloud [])))
    = client.ReqListSSHKeys :: issued.
Proof.
  split.
  - destruct (lambdalabs_more.AddSSHKey_requests
                (cl := endpoint.clientWithResponses) (key "" alicePublicKey) (cloud []))
      as [Hunnamed _].
    apply Hunnamed. reflexivity.
  - destruct (lambdalabs_more.AddSSHKey_requests
                (cl := endpoint.clientWithResponses) (key "a" alicePublicKey) (cloud []))
      as [_ Hnamed].
    destruct Hnamed as (issued & Hrequests & _); [discriminate|].
    exists issued. exact Hrequests.
Defined.

(** The key a, added to an endpoint without keys, is listed afterwards. *)
Lemma AddSSHKey_then_listed :
  let sshKey := key "a" alicePublicKey in
  matches sshKey sshKey /\
  exists keys r2,
    lambdalabs.ListSSHKeys (snd (lambdalabs.AddSSHKey sshKey (cloud []))) = (Ok keys, r2) /\
    In sshKey keys.
Proof.
  intros sshKey.
  apply (lambdalabs_more.AddSSHKey_returns_listed_match
           (cl := endpoint.clientWithResponses) on_fixtures.endpoint_keeps_keys
           sshKey (cloud []) _ sshKey).
  reflexivity.
Defined.

(** A key named a: with no key at the provider it is listed for, then
    added; with a key of that name at the provider it is only listed
    for. *)
Lemma registerCredentials_on_endpoint :
  let rt := main.lambdalabsRuntime noWatch in
  let sshKey := key "a" alicePublicKey in
  (let w := world (store [] [] sqlstore.healthy) (cloud []) in
   fst (registerCredentials rt sshKey w) = None /\
   World.trace (snd (registerCredentials rt sshKey w))
   = [RListSSHKeys; RAddSSHKey sshKey]) /\
  (let w := world (store [] [] sqlstore.healthy)
                  (cloud [client.SshKey.Build "a" bobPublicKey]) in
   fst (registerCredentials rt sshKey w) = None /\
   World.trace (snd (registerCredentials rt sshKey w)) = [RListSSHKeys]).
Proof.
  intros rt sshKey. split; intros w.
  - destruct (server_more.registerCredentials_adds_only_unlisted
                (DB := sqlstore.t) rt sshKey w)
      as (_ & _ & Hunlisted).
    rewrite (Hunlisted _ _ eq_refl eq_refl). split; reflexivity.
  - destruct (server_more.registerCredentials_adds_only_unlisted
                (DB := sqlstore.t) rt sshKey w)
      as (_ & Hlisted & _).
    rewrite (Hlisted _ _ eq_refl eq_refl). split; reflexivity.
Defined.


(** Without name and without public key the failure is the 400 of the
    first test. *)
Lemma fetchCredentials_without_arguments :
  exists code message cause,
    Error 400 "Either Key name or Public Key must be provided" "" "" None
    = Error code message "" "" cause /\ (code = 400 \/ code = 500)%Z.
Proof.
  apply (server_more.fetchCredentials_fails_with_400_or_500
           (env := fixture.env) (Q := sqlstore.querier)
           alice None None (world (store [] [] sqlstore.healthy) (cloud []))).
  reflexivity.
Defined.


(** The name desk on a store without keys: 400 "SSH key not found"
    without a public key, 400 "Invalid SSH public key" with one that
    does not parse, and no key row either way. *)
Lemma fetchCredentials_rejects_on_store :
  let w := world (store [] [] sqlstore.healthy) (cloud []) in
  fst (fetchCredentials alice (Some "desk") None w)
  = Fail (Error 400 "SSH key not found" "" "" None) /\
  fst (fetchCredentials alice (Some "desk") (Some "not a key") w)
  = Fail (Error 400 "Invalid SSH public key" "" "" None) /\
  sqlstore.ssh_keys (World.store (snd (fetchCredentials alice (Some "desk")
                                                        (Some "not a key") w))) = [].
Proof.
  intros w.
  pose proof (server_more.fetchCredentials_rejects_unknown_name_and_bad_key
                (env := fixture.env) (Q := sqlstore.querier)
                alice "desk" w (World.store w) eq_refl) as H.
  cbv zeta in H. destruct H as [Hmissing Hinvalid].
  rewrite Hmissing, (Hinvalid "not a key" _ eq_refl).
  split; [reflexivity|]. split; reflexivity.
Defined.


(** Node type Y in us-east on a store that refuses the insert of a
    session: [Create] fails with the store's error wrapped, and the
    instance i-0 stays launched at the provider. *)
Lemma Create_with_failing_insert :
  let w := world (store [] [] noSessionCreate) (cloud []) in
  let run := Create service project (request "Y" (Some "us-east")) w in
  fst run = Fail (Errorf "failed to create session in db: %w"
                         (Some (Errorf "driver: bad connection" None))) /\
  endpoint.instances (lambdalabs.Session.client (World.cloud (snd run))) = ["i-0"].
Proof.
  intros w run.
  set (rt := main.lambdalabsRuntime (cl := endpoint.clientWithResponses) noWatch).
  set (sshKey := key "uw:phrase-0" alicePublicKey).
  set (node := Node.Build "i-0" "Y" "us-east" sshKey StatusInitializing LambdaLabsProvider).
  set (w1 := snd (provider (runtime.Initialize alice LambdaLabsProvider)
                           (RInitialize alice LambdaLabsProvider) w)).
  set (w2 := snd (fetchCredentials alice None (Some alicePublicKey) w1)).
  set (w3 := snd (registerCredentials rt sshKey w2)).
  set (w4 := snd (provider (runtime.InitNode rt sshKey "Y" (Some "us-east"))
                           (RInitNode sshKey "Y" (Some "us-east")) w3)).
  assert (Hsteps : provisioned service (request "Y" (Some "us-east")) w rt sshKey node w4).
  { exists w1, w2, w3.
    split; [reflexivity|]. split; [reflexivity|]. split; reflexivity. }
  destruct (server_more.Create_leaves_node_when_insert_fails
              (env := fixture.env) (Q := sqlstore.querier) (rti := fixture.initializer)
              service project (request "Y" (Some "us-east")) w rt sshKey node w4
              (Errorf "driver: bad connection" None) (World.store w4) Hsteps eq_refl)
    as (Hres & Hcloud & _).
  split.
  - exact Hres.
  - unfold run. rewrite Hcloud. reflexivity.
Defined.

(** The same request on a healthy store: the session returned has the
    node type and the region of the node, and the status initializing. *)
Lemma Create_on_healthy_store :
  let w := world (store [] [] sqlstore.healthy) (cloud []) in
  exists sess,
    fst (Create service project (request "Y" (Some "us-east")) w) = Ok sess /\
    Session.NodeTypeID sess = "Y" /\
    Session.Region sess = "us-east" /\
    Session.Status sess = StatusInitializing /\
    List.length (sqlstore.sessions
                   (World.store (snd (Create service project
                                             (request "Y" (Some "us-east")) w)))) = 1.
Proof.
  intros w.
  set (rt := main.lambdalabsRuntime (cl := endpoint.clientWithResponses) noWatch).
  set (sshKey := key "uw:phrase-0" alicePublicKey).
  set (node := Node.Build "i-0" "Y" "us-east" sshKey StatusInitializing LambdaLabsProvider).
  set (w1 := snd (provider (runtime.Initialize alice LambdaLabsProvider)
                           (RInitialize alice LambdaLabsProvider) w)).
  set (w2 := snd (fetchCredentials alice None (Some alicePublicKey) w1)).
  set (w3 := snd (registerCredentials rt sshKey w2)).
  set (w4 := snd (provider (runtime.InitNode rt sshKey "Y" (Some "us-east"))
                           (RInitNode sshKey "Y" (Some "us-east")) w3)).
  assert (Hsteps : provisioned service (request "Y" (Some "us-east")) w rt sshKey node w4).
  { exists w1, w2, w3.
    split; [reflexivity|]. split; [reflexivity|]. split; reflexivity. }
  pose proof (server_more.Create_returns_provisioned_session
                (env := fixture.env) (Q := sqlstore.querier) (rti := fixture.initializer)
                service project (request "Y" (Some "us-east")) w rt sshKey node w4
                _ _ Hsteps eq_refl) as H.
  cbv zeta in H. destruct H as (Hres & Hstore & _).
  eexists. split; [exact Hres|].
  rewrite Hstore. repeat split; reflexivity.
Defined.

(** The watcher of session 51 on the feed Initializing, Active,
    Terminated: every status write is for session 51, and the runtime
    was asked to watch the node i-0 of the session. *)
Lemma Watch_on_feed :
  let feed := [runtime.Status StatusInitializing; runtime.Status StatusActive;
               runtime.Status StatusTerminated] in
  let w := world (store twoSessions [alicesKey] sqlstore.healthy) (cloud []) in
  let run := Watch (rti := watching feed) service 51%N w in
  Forall (fun wr => db.SessionStatusUpdateParams.ID (fst wr) = 51%N)
         (statusWrites (World.trace (snd run))) /\
  In (RWatch "i-0") (World.trace (snd run)).
Proof.
  intros feed w run.
  destruct (server_more.Watch_writes_only_its_session_once_started
              (Q := sqlstore.querier) (rti := watching feed)
              service 51%N w)
    as (issued & Htrace & Hwrites & _ & Hstarted).
  unfold run. rewrite Htrace. change (World.trace w ++ issued) with issued.
  split; [exact Hwrites|].
  destruct Hstarted as (session & Hget & Hwatch); [reflexivity|].
  injection Hget as Hsession. rewrite <- Hsession in Hwatch. exact Hwatch.
Defined.

(** Session 51 names the node i-0, which the provider does not run:
    [Terminate] fails and the session rows stay as they were. *)
Lemma Terminate_of_unknown_node :
  let w := world (store twoSessions [alicesKey] sqlstore.healthy) (cloud []) in
  exists e,
    fst (Terminate service 51%N w) = Some e /\
    sqlstore.sessions (World.store (snd (Terminate service 51%N w))) = twoSessions.
Proof.
  intros w. eexists. split; [reflexivity|].
  destruct (server_more.Terminate_failure_writes_nothing
              (Q := sqlstore.querier) (rti := fixture.initializer)
              service 51%N w _ eq_refl)
    as (_ & Hstore & _).
  rewrite Hstore. reflexivity.
Defined.


(** After the key a was registered at an endpoint without keys, the
    endpoint lists a key that matches it. *)
Lemma registerCredentials_then_listed :
  let sshKey := key "a" alicePublicKey in
  let w := world (store [] [] sqlstore.healthy) (cloud []) in
  exists keys r2 k,
    lambdalabs.ListSSHKeys
      (World.cloud (snd (registerCredentials (main.lambdalabsRuntime noWatch) sshKey w)))
    = (Ok keys, r2) /\
    In k keys /\ matches sshKey k.
Proof.
  intros sshKey w.
  apply (composed_more.registerCredentials_leaves_a_matching_key
           (env := fixture.env) (DB := sqlstore.t) (cl := endpoint.clientWithResponses)
           on_fixtures.endpoint_keeps_keys noWatch sshKey w).
  reflexivity.
Defined.

(** A request for the provider unweave passes [Bind], and [Create]
    fails on it at the first step, asking the store and the provider for
    nothing. *)
Lemma Create_for_unweave_provider :
  let params := types.SessionCreateParams.Build
                  UnweaveProvider "Y" None None (Some alicePublicKey) in
  let w := world (store [] [] sqlstore.healthy) (cloud []) in
  http.Bind params = None /\
  (exists err, fst (Create service project params w) = Fail err) /\
  World.trace (snd (Create service project params w)) = [RInitialize alice UnweaveProvider].
Proof.
  intros params w.
  pose proof (composed_more.Create_with_unsupported_provider
                (env := fixture.env) (Q := sqlstore.querier)
                (cl := endpoint.clientWithResponses)
                (main.providerConfig.Build "secret-api-key") noWatch
                service project params w "") as H.
  cbv zeta in H. destruct H as (Hrun & _ & Hbind); [discriminate|].
  split; [apply Hbind; reflexivity|].
  change (Create service project params w)
    with (Create (rti := main.EnvInitializer (main.providerConfig.Build "secret-api-key")
                                             noWatch)
                 service project params w).
  rewrite Hrun. split; [eexists; reflexivity|reflexivity].
Defined.

(** [Bind] accepts a request for LambdaLabs and answers 400 for the
    provider aws. *)
Lemma Bind_on_requests :
  http.Bind (request "Y" None) = None /\
  exists e,
    http.Bind (types.SessionCreateParams.Build "aws" "Y" None None None) = Some e /\
    http.HTTPError.Code e = 400%Z.
Proof.
  split.
  - apply (proj1 (composed_more.Bind_accepts_known_providers
                    (env := fixture.env) (request "Y" None))).
    left. reflexivity.
  - eexists. split; [reflexivity|].
    apply (proj2 (composed_more.Bind_accepts_known_providers
                    (env := fixture.env)
                    (types.SessionCreateParams.Build "aws" "Y" None None None))).
    reflexivity.
Defined.

(** A transport error holds no structured error and is rendered as 500
    with the fallback message. *)
Lemma ErrHTTPError_of_transport_error :
  http.ErrHTTPError (Some refused) "Failed to create session"
  = Some (http.HTTPError.Build 500 "Failed to create session" "" "" (Some refused)).
Proof.
  destruct (composed_more.ErrHTTPError_renders_first_structured_error
              "Failed to create session") as (_ & _ & Hplain & _).
  apply Hplain. reflexivity.
Defined.

(** The refusal for node type X, which has no capacity, reaches the
    client as 503 with the provider's message, logged as a warning. *)
Lemma Create_without_capacity_rendered :
  let w := world (store [] [] sqlstore.healthy) (cloud []) in
  let h := http.HTTPError.Build
             503 "No region with available capacity for node type 'X'" "X,Y"
             LambdaLabsProvider None in
  exists err,
    fst (Create service project (request "X" None) w) = Fail err /\
    http.ErrHTTPError (Some err) "Failed to create session" = Some h /\
    http.Render h = (http.LevelWarn, 503%Z).
Proof.
  intros w h.
  assert (Hfail : stepFails service (request "X" None) w noCapacityForX).
  { right. eexists. eexists. split; [reflexivity|].
    right. eexists. eexists. split; [reflexivity|].
    right. eexists. split; reflexivity. }
  apply (composed_more.Create_failure_renders_step_error
           (env := fixture.env) (Q := sqlstore.querier) (rti := fixture.initializer)
           service project (request "X" None) w noCapacityForX h
           "Failed to create session" Hfail).
  reflexivity.
Defined.



(** The listing without terminated sessions of the project with two
    sessions: every session listed is a row of the store. *)
Lemma List_page_on_store :
  let w := world (store twoSessions [alicesKey] sqlstore.healthy) (cloud []) in
  exists res,
    fst (List service project false w) = Ok res /\
    List.length res <= 100 /\
    forall sess, In sess res ->
                 exists row, In row twoSessions /\
                             db.UnweaveSession.ID row = Session.ID sess.
Proof.
  intros w. eexists. split; [reflexivity|].
  destruct (sqlstore_more.List_returns_one_page_of_the_project
              (env := fixture.env)
              service project false w _ eq_refl) as [Hlen Hrows].
  split; [exact Hlen|].
  intros sess Hin. destruct (Hrows sess Hin) as (row & Hrow & Hid & _).
  exists row. split; [exact Hrow|exact Hid].
Defined.

End more_on_fixtures.
